(** * Spectral-index core of the crop-health backend

    A shallow embedding of the computational core of the backend:
    - [backend/utils/ndvi.py]: the standalone index functions, the
      interpretation cascades and the land-cover classifier;
    - [backend/utils/hyperspectral_analysis.py]: the index computation of
      [HyperspectralAnalyzer] and its pest-risk assessor;
    - [backend/utils/real_model.py]: [RealAgriculturalModel.predict].

    Numbers.  A Python/NumPy float is modelled by [float]: a finite value is
    an exact rational, and the three IEEE special values (+inf, -inf, NaN)
    are kept because the source's comparisons, [np.where], [np.clip],
    [min], [max] and [round] treat them specially.  Rounding error,
    overflow and the sign of zero are not modelled; a decimal literal of the
    source stands for its decimal value.  For that reason a bound that the
    rounding of binary64 arithmetic could cross is stated with a margin,
    and a statement that needs sums and products not to overflow is made
    for magnitudes of at most 1e300.

    Exceptions.  A Python computation that may raise is a value of
    [result]; a [try: ... except Exception] block is [try_except]. *)

From Stdlib Require Import QArith Qabs Qround ZArith List String Bool Lia Lqa.
Import ListNotations.

Open Scope Q_scope.

(** ** Exceptions *)

Inductive exn : Type :=
| ValueError (msg : string)
| TypeError (msg : string)
| IndexError (msg : string).

Inductive result (A : Type) : Type :=
| Ok (a : A)
| Raise (e : exn).

Arguments Ok {A} a.
Arguments Raise {A} e.

Definition bind {A B : Type} (m : result A) (k : A -> result B) : result B :=
  match m with
  | Ok a => k a
  | Raise e => Raise e
  end.

Notation "x <- m ;; k" := (bind m (fun x => k))
  (at level 61, m at next level, right associativity).
Notation "m ;;; k" := (bind m (fun _ => k))
  (at level 61, right associativity).

(** [try: body except Exception as e: handler e] *)
Definition try_except {A : Type} (body : result A) (handler : exn -> result A)
  : result A :=
  match body with
  | Ok a => Ok a
  | Raise e => handler e
  end.

(** [str(e)] for the exceptions of the model. *)
Definition exn_str (e : exn) : string :=
  match e with
  | ValueError m => m
  | TypeError m => m
  | IndexError m => m
  end.

(** ** Floats *)

Inductive float : Type :=
| Fin (q : Q)
| PInf
| NInf
| NaN.

Coercion Fin : Q >-> float.

Definition Qlt_bool (x y : Q) : bool := negb (Qle_bool y x).

Definition is_finite (x : float) : bool :=
  match x with Fin _ => true | _ => false end.

(** IEEE comparisons: every ordered comparison with NaN is false. *)
Definition flt (x y : float) : bool :=
  match x, y with
  | NaN, _ | _, NaN => false
  | Fin a, Fin b => Qlt_bool a b
  | NInf, NInf => false
  | NInf, _ => true
  | Fin _, PInf => true
  | _, _ => false
  end.

Definition fgt (x y : float) : bool := flt y x.

Definition fle (x y : float) : bool :=
  match x, y with
  | NaN, _ | _, NaN => false
  | Fin a, Fin b => Qle_bool a b
  | NInf, _ => true
  | _, PInf => true
  | _, _ => false
  end.

Definition fge (x y : float) : bool := fle y x.

Definition feqb (x y : float) : bool :=
  match x, y with
  | Fin a, Fin b => Qeq_bool a b
  | PInf, PInf => true
  | NInf, NInf => true
  | _, _ => false
  end.

Definition fneb (x y : float) : bool := negb (feqb x y).

Definition fopp (x : float) : float :=
  match x with
  | Fin a => Fin (- a)
  | PInf => NInf
  | NInf => PInf
  | NaN => NaN
  end.

Definition fabs (x : float) : float :=
  match x with
  | Fin a => Fin (Qabs a)
  | PInf | NInf => PInf
  | NaN => NaN
  end.

Definition fadd (x y : float) : float :=
  match x, y with
  | NaN, _ | _, NaN => NaN
  | Fin a, Fin b => Fin (a + b)
  | PInf, NInf | NInf, PInf => NaN
  | PInf, _ | _, PInf => PInf
  | NInf, _ | _, NInf => NInf
  end.

Definition fsub (x y : float) : float := fadd x (fopp y).

(** Sign of a float as a comparison with zero. *)
Definition fsign (x : float) : option comparison :=
  match x with
  | Fin a => Some (a ?= 0)
  | PInf => Some Gt
  | NInf => Some Lt
  | NaN => None
  end.

Definition inf_of_sign (c : comparison) : float :=
  match c with
  | Gt => PInf
  | Lt => NInf
  | Eq => NaN
  end.

Definition sign_mul (c d : comparison) : comparison :=
  match c, d with
  | Eq, _ | _, Eq => Eq
  | Gt, Gt | Lt, Lt => Gt
  | _, _ => Lt
  end.

Definition fmul (x y : float) : float :=
  match x, y with
  | Fin a, Fin b => Fin (a * b)
  | _, _ =>
      match fsign x, fsign y with
      | Some c, Some d => inf_of_sign (sign_mul c d)
      | _, _ => NaN
      end
  end.

(** Division as NumPy performs it: a zero divisor gives an infinity, or NaN
    for 0/0, never an exception. *)
Definition fdiv (x y : float) : float :=
  match x, y with
  | NaN, _ | _, NaN => NaN
  | Fin a, Fin b =>
      if Qeq_bool b 0 then inf_of_sign (a ?= 0) else Fin (a / b)
  | Fin _, _ => Fin 0
  | _, Fin b => match fsign x with
                | Some c => inf_of_sign (sign_mul c (if Qeq_bool b 0 then Gt else (b ?= 0)))
                | None => NaN
                end
  | _, _ => NaN
  end.

(** Python's built-in [max(a, b)] and [min(a, b)]: the first argument is
    kept unless the second compares strictly beyond it. *)
Definition py_max (a b : float) : float := if fgt b a then b else a.
Definition py_min (a b : float) : float := if flt b a then b else a.

(** [round(x, ndigits)]: non-finite floats round to themselves; a finite
    value is rounded to the nearest multiple of 10^-ndigits, ties to even.
    The value rounded here is the rational itself: Python rounds the binary
    double, which lies just off a decimal tie such as 0.0025 and then goes
    to the nearer side. *)
Definition round_half_even (q : Q) : Z :=
  let f := Qfloor q in
  let r := q - inject_Z f in
  if Qlt_bool r (1 # 2) then f
  else if Qlt_bool (1 # 2) r then (f + 1)%Z
  else if Z.even f then f else (f + 1)%Z.

Definition py_round (x : float) (ndigits : nat) : float :=
  match x with
  | Fin q =>
      let s := inject_Z (10 ^ Z.of_nat ndigits) in
      Fin (Qred (inject_Z (round_half_even (q * s)) / s))
  | _ => x
  end.

(** Two floats denote the same number. *)
Definition same_float (x y : float) : Prop :=
  match x, y with
  | Fin a, Fin b => a == b
  | PInf, PInf | NInf, NInf | NaN, NaN => True
  | _, _ => False
  end.

(** A finite float inside the closed interval [lo, hi]. *)
Definition finite_in (lo hi : Q) (x : float) : Prop :=
  match x with
  | Fin q => lo <= q /\ q <= hi
  | _ => False
  end.

(** ** One-dimensional NumPy arrays *)

Definition ndarray := list float.

Fixpoint zip_with {A B C : Type} (f : A -> B -> C) (l : list A) (m : list B)
  : list C :=
  match l, m with
  | x :: l', y :: m' => f x y :: zip_with f l' m'
  | _, _ => []
  end.

(** Elementwise binary operation with broadcasting of 1-D operands: equal
    shapes, or one operand of length 1; anything else raises. *)
Definition np_binop (f : float -> float -> float) (a b : ndarray)
  : result ndarray :=
  if (List.length a =? List.length b)%nat then Ok (zip_with f a b)
  else match a, b with
       | [x], _ => Ok (map (f x) b)
       | _, [y] => Ok (map (fun x => f x y) a)
       | _, _ => Raise (ValueError "operands could not be broadcast together")
       end.

Definition np_add := np_binop fadd.
Definition np_sub := np_binop fsub.
Definition np_div := np_binop fdiv.

(** [a * c] for a scalar [c]. *)
Definition np_scale (a : ndarray) (c : float) : ndarray :=
  map (fun x => fmul x c) a.

(** [np.clip(a, lo, hi)]: NaN stays NaN. *)
Definition clip1 (lo hi : float) (x : float) : float :=
  match x with
  | NaN => NaN
  | _ => if flt x lo then lo else if fgt x hi then hi else x
  end.

Definition np_clip (a : ndarray) (lo hi : float) : ndarray :=
  map (clip1 lo hi) a.

(** [np.min] and [np.max]: a zero-size array has no identity for the
    reduction and raises; NaN propagates. *)
Definition np_fmin (x y : float) : float :=
  match x, y with
  | NaN, _ | _, NaN => NaN
  | _, _ => if flt y x then y else x
  end.

Definition np_fmax (x y : float) : float :=
  match x, y with
  | NaN, _ | _, NaN => NaN
  | _, _ => if fgt y x then y else x
  end.

Definition np_min (a : ndarray) : result float :=
  match a with
  | [] => Raise (ValueError "zero-size array to reduction operation minimum which has no identity")
  | x :: l => Ok (fold_left np_fmin l x)
  end.

Definition np_max (a : ndarray) : result float :=
  match a with
  | [] => Raise (ValueError "zero-size array to reduction operation maximum which has no identity")
  | x :: l => Ok (fold_left np_fmax l x)
  end.

(** [np.mean]: the mean of a zero-size array is NaN (with a warning), not an
    exception. *)
Definition np_sum (a : ndarray) : float := fold_left fadd a (Fin 0).

Definition np_mean (a : ndarray) : float :=
  fdiv (np_sum a) (Fin (inject_Z (Z.of_nat (List.length a)))).

(** ** Dictionaries with string keys *)

Definition dict (V : Type) := list (string * V).

Fixpoint dict_get {V : Type} (d : dict V) (k : string) : option V :=
  match d with
  | [] => None
  | (k', v) :: d' => if String.eqb k k' then Some v else dict_get d' k
  end.

(** [d.get(k, default)] *)
Definition get_default {V : Type} (d : dict V) (k : string) (default : V) : V :=
  match dict_get d k with
  | Some v => v
  | None => default
  end.

Definition dict_keys {V : Type} (d : dict V) : list string := map fst d.

(** [d[k] = v]: replaces the value of an existing key in place, appends a new
    key at the end (insertion order). *)
Fixpoint dict_set {V : Type} (d : dict V) (k : string) (v : V) : dict V :=
  match d with
  | [] => [(k, v)]
  | (k', v') :: d' =>
      if String.eqb k k' then (k', v) :: d' else (k', v') :: dict_set d' k v
  end.

(** ** Index engine: [backend/utils/ndvi.py] *)

Module Ndvi.

(** The shared body of the four standalone index functions: the index of
    [a] against [b] is [(a - b) / (a + b)], with the guard against zero
    denominators, the clip and the logging call that reads [np.min] and
    [np.max] of the result. *)
Definition normalized_difference (a b : ndarray) : result ndarray :=
  denominator <- np_add a b ;;
  let denominator :=
    map (fun d => if feqb d (Fin 0) then Fin 1e-10 else d) denominator in
  num <- np_sub a b ;;
  idx <- np_div num denominator ;;
  let idx := np_clip idx (Fin (-1)) (Fin 1) in
  np_min idx ;;; np_max idx ;;;
  Ok idx.

Definition guarded (body : result ndarray) : result ndarray :=
  try_except body (fun _ => Ok []).

(** NDVI = (NIR - Red) / (NIR + Red) *)
Definition calculate_ndvi (red_band nir_band : ndarray) : result ndarray :=
  guarded (normalized_difference nir_band red_band).

(** NDWI = (NIR - SWIR) / (NIR + SWIR) *)
Definition calculate_ndwi (nir_band swir_band : ndarray) : result ndarray :=
  guarded (normalized_difference nir_band swir_band).

(** MNDWI = (GREEN - SWIR) / (GREEN + SWIR) *)
Definition calculate_mndwi (green_band swir_band : ndarray) : result ndarray :=
  guarded (normalized_difference green_band swir_band).

(** NDSI = (GREEN - SWIR) / (GREEN + SWIR) *)
Definition calculate_ndsi (green_band swir_band : ndarray) : result ndarray :=
  guarded (normalized_difference green_band swir_band).

(** The batch entry point: every index whose two bands are non-empty. *)
Definition calculate_all_indices (data : dict ndarray)
  : result (dict ndarray) :=
  try_except
    (let indices : dict ndarray := [] in
     let red_band := get_default data "red" [] in
     let nir_band := get_default data "nir" [] in
     let green_band := get_default data "green" [] in
     let swir_band := get_default data "swir" [] in
     indices <-
       (if (0 <? List.length red_band)%nat && (0 <? List.length nir_band)%nat
        then v <- calculate_ndvi red_band nir_band ;;
             Ok (dict_set indices "ndvi" v)
        else Ok indices) ;;
     indices <-
       (if (0 <? List.length nir_band)%nat && (0 <? List.length swir_band)%nat
        then v <- calculate_ndwi nir_band swir_band ;;
             Ok (dict_set indices "ndwi" v)
        else Ok indices) ;;
     indices <-
       (if (0 <? List.length green_band)%nat && (0 <? List.length swir_band)%nat
        then v <- calculate_mndwi green_band swir_band ;;
             Ok (dict_set indices "mndwi" v)
        else Ok indices) ;;
     indices <-
       (if (0 <? List.length green_band)%nat && (0 <? List.length swir_band)%nat
        then v <- calculate_ndsi green_band swir_band ;;
             Ok (dict_set indices "ndsi" v)
        else Ok indices) ;;
     Ok indices)
    (fun _ => Ok []).

(** *** Interpretation of a representative scalar *)

(** The argument of an interpretation function is whatever object the
    caller passes: a float in the intended use, but nothing in the source
    checks it. *)
Inductive pyobj : Type :=
| PyFloat (x : float)
| PyNone
| PyStr (s : string).

Definition unsupported (op : string) : exn :=
  TypeError (op ++ " not supported between instances of the operands").

(** [o < c] and [o > c] against a float constant. *)
Definition py_lt (o : pyobj) (c : float) : result bool :=
  match o with
  | PyFloat x => Ok (flt x c)
  | _ => Raise (unsupported "'<'")
  end.

Definition py_gt (o : pyobj) (c : float) : result bool :=
  match o with
  | PyFloat x => Ok (fgt x c)
  | _ => Raise (unsupported "'>'")
  end.

Definition py_abs (o : pyobj) : result float :=
  match o with
  | PyFloat x => Ok (fabs x)
  | _ => Raise (TypeError "bad operand type for abs()")
  end.

Definition py_round_obj (o : pyobj) (ndigits : nat) : result float :=
  match o with
  | PyFloat x => Ok (py_round x ndigits)
  | _ => Raise (TypeError "type doesn't define __round__ method")
  end.

(** The dictionary returned by the three interpretation functions.  Its keys
    are [ndvi_value]/[ndwi_value]/[ndsi_value] for [value] and
    [health_score]/[water_score]/[snow_score] for [score]; integers are
    embedded in [float] for [confidence], which is an integer for NDVI and
    either kind for NDWI and NDSI. *)
Record interpretation : Type := mk_interpretation {
  value : pyobj;
  status : string;
  description : string;
  score : Z;
  color : string;
  confidence : float
}.

Definition of_int (z : Z) : float := Fin (inject_Z z).

Definition interpret_ndvi (ndvi_value : pyobj) : result interpretation :=
  try_except
    (branch <-
       (c <- py_lt ndvi_value (Fin 0) ;;
        if c then
          Ok ("Poor", "No vegetation or stressed vegetation", 0%Z, "#FF4444")
        else
        c <- py_lt ndvi_value (Fin 0.2) ;;
        if c then
          Ok ("Poor", "Sparse vegetation or bare soil", 20%Z, "#FF6644")
        else
        c <- py_lt ndvi_value (Fin 0.4) ;;
        if c then
          Ok ("Moderate", "Moderate vegetation density", 50%Z, "#FFAA44")
        else
        c <- py_lt ndvi_value (Fin 0.6) ;;
        if c then
          Ok ("Good", "Healthy vegetation", 75%Z, "#88CC44")
        else
          Ok ("Excellent", "Dense, very healthy vegetation", 90%Z, "#44AA44")
       )%string ;;
     let '(status, description, health_score, color) := branch in
     r <- py_round_obj ndvi_value 3 ;;
     Ok (mk_interpretation (PyFloat r) status description health_score color
           (py_min (of_int 95) (py_max (of_int 60) (of_int health_score)))))
    (fun _ =>
       Ok (mk_interpretation ndvi_value "Unknown"
             "Error interpreting NDVI value" 50 "#888888" (of_int 50))).

Definition interpret_ndwi (ndwi_value : pyobj) : result interpretation :=
  try_except
    (branch <-
       (c <- py_gt ndwi_value (Fin 0.3) ;;
        if c then
          Ok ("High Water Content",
              "Strong water presence or very moist vegetation", 90%Z, "#0077BE")
        else
        c <- py_gt ndwi_value (Fin 0.1) ;;
        if c then
          Ok ("Moderate Water Content", "Water bodies or moist vegetation",
              70%Z, "#4A9FDB")
        else
        c <- py_gt ndwi_value (Fin (-0.1)) ;;
        if c then
          Ok ("Low Water Content", "Slightly moist soil or sparse vegetation",
              40%Z, "#87CEEB")
        else
          Ok ("No Water", "Dry vegetation, bare soil, or built-up areas",
              10%Z, "#8B4513")
       )%string ;;
     let '(status, description, water_score, color) := branch in
     r <- py_round_obj ndwi_value 3 ;;
     a <- py_abs ndwi_value ;;
     Ok (mk_interpretation (PyFloat r) status description water_score color
           (py_min (of_int 95) (py_max (of_int 60) (fmul a (of_int 100))))))
    (fun _ =>
       Ok (mk_interpretation ndwi_value "Unknown"
             "Error interpreting NDWI value" 50 "#888888" (of_int 50))).

Definition interpret_ndsi (ndsi_value : pyobj) : result interpretation :=
  try_except
    (branch <-
       (c <- py_gt ndsi_value (Fin 0.4) ;;
        if c then
          Ok ("Snow/Ice Present", "Strong snow or ice cover", 90%Z, "#FFFFFF")
        else
        c <- py_gt ndsi_value (Fin 0.1) ;;
        if c then
          Ok ("Possible Snow/Ice", "Light snow cover or mixed snow-vegetation",
              60%Z, "#F0F8FF")
        else
        c <- py_gt ndsi_value (Fin (-0.1)) ;;
        if c then
          Ok ("No Snow", "Clear ground or sparse vegetation", 20%Z, "#90EE90")
        else
          Ok ("Vegetation/Water", "Vegetation or water bodies (no snow)",
              5%Z, "#228B22")
       )%string ;;
     let '(status, description, snow_score, color) := branch in
     r <- py_round_obj ndsi_value 3 ;;
     a <- py_abs ndsi_value ;;
     Ok (mk_interpretation (PyFloat r) status description snow_score color
           (py_min (of_int 95) (py_max (of_int 60) (fmul a (of_int 100))))))
    (fun _ =>
       Ok (mk_interpretation ndsi_value "Unknown"
             "Error interpreting NDSI value" 50 "#888888" (of_int 50))).

(** *** Land-cover classification *)

(** [a[i]] and [a[i] = v] for an index that the loop produces: out of range
    raises. *)
Definition getitem {A : Type} (a : list A) (i : nat) : result A :=
  match nth_error a i with
  | Some x => Ok x
  | None => Raise (IndexError "index out of bounds")
  end.

Fixpoint setitem {A : Type} (a : list A) (i : nat) (v : A) : result (list A) :=
  match a, i with
  | [], _ => Raise (IndexError "index out of bounds")
  | _ :: a', O => Ok (v :: a')
  | x :: a', S j => a'' <- setitem a' j v ;; Ok (x :: a'')
  end.

(** Built-in [min] of a list of lengths. *)
Definition py_min_list (l : list nat) : result nat :=
  match l with
  | [] => Raise (ValueError "min() arg is an empty sequence")
  | x :: l' => Ok (fold_left Nat.min l' x)
  end.

(** The body of the classification loop for pixel [i]: the label stored in
    [land_cover[i]]. *)
Definition classify_pixel (ndvi ndwi mndwi ndsi : ndarray) (i : nat)
  : result nat :=
  s <- getitem ndsi i ;;
  if fgt s (Fin 0.4) then Ok 2%nat else
  m <- getitem mndwi i ;;
  water <- (if fgt m (Fin 0.3) then Ok true
            else w <- getitem ndwi i ;; Ok (fgt w (Fin 0.3))) ;;
  if water then Ok 1%nat else
  v <- getitem ndvi i ;;
  if fgt v (Fin 0.6) then Ok 3%nat else
  if fgt v (Fin 0.2) then Ok 4%nat else
  if flt v (Fin (-0.1)) then Ok 6%nat else
  Ok 5%nat.

(** [for i in range(min_length): land_cover[i] = ...] *)
Fixpoint classify_loop (ndvi ndwi mndwi ndsi : ndarray) (range : list nat)
  (land_cover : list nat) : result (list nat) :=
  match range with
  | [] => Ok land_cover
  | i :: range' =>
      label <- classify_pixel ndvi ndwi mndwi ndsi i ;;
      land_cover <- setitem land_cover i label ;;
      classify_loop ndvi ndwi mndwi ndsi range' land_cover
  end.

(** [np.bincount(a, minlength=m)] for non-negative labels. *)
Definition np_bincount (a : list nat) (minlength : nat) : list nat :=
  map (fun k => count_occ Nat.eq_dec a k)
      (seq 0 (Nat.max minlength
                 (match a with [] => 0 | _ => S (list_max a) end))).

Definition land_cover_map : list (nat * (string * string)) :=
  [(0, ("Unknown", "#808080"));
   (1, ("Water", "#6A5ACD"));
   (2, ("Snow/Ice", "#FF00FF"));
   (3, ("Dense Vegetation", "#228B22"));
   (4, ("Sparse Vegetation", "#9ACD32"));
   (5, ("Bare Soil/Rock", "#4169E1"));
   (6, ("Urban/Built-up", "#696969"))]%nat%string.

Fixpoint map_getitem {V : Type} (m : list (nat * V)) (k : nat) : result V :=
  match m with
  | [] => Raise (IndexError "key not found")
  | (k', v) :: m' => if (k =? k')%nat then Ok v else map_getitem m' k
  end.

Record cover_stat : Type := mk_cover_stat {
  percentage : float;
  pixel_count : nat;
  cover_color : string
}.

(** [for i in range(7): if land_cover_counts[i] > 0: land_cover_stats[...] = ...] *)
Fixpoint stats_loop (counts : list nat) (total_pixels : nat) (range : list nat)
  (land_cover_stats : dict cover_stat) : result (dict cover_stat) :=
  match range with
  | [] => Ok land_cover_stats
  | i :: range' =>
      c <- getitem counts i ;;
      if (0 <? c)%nat then
        let percentage :=
          fmul (fdiv (of_int (Z.of_nat c)) (of_int (Z.of_nat total_pixels)))
               (of_int 100) in
        entry <- map_getitem land_cover_map i ;;
        let '(name, color) := entry in
        stats_loop counts total_pixels range'
          (dict_set land_cover_stats name
             (mk_cover_stat (py_round percentage 1) c color))
      else stats_loop counts total_pixels range' land_cover_stats
  end.

(** [max(items, key=lambda x: x[1]['percentage'])[0]]: the first item whose
    key no later item exceeds. *)
Definition dominant_of (items : dict cover_stat) : string :=
  match items with
  | [] => "Unknown"
  | it :: items' =>
      fst (fold_left
             (fun best x =>
                if fgt (percentage (snd x)) (percentage (snd best))
                then x else best)
             items' it)
  end.

(** The entries of the returned dictionary that come from the
    classification.  The [index_stats] entry (mean, std, min, max and median
    of each of the four arrays) is computed after them from arrays that are
    non-empty at that point, where none of its reductions can raise; it is
    not part of the model. *)
Record analysis : Type := mk_analysis {
  land_cover_stats : dict cover_stat;
  total_pixels : nat;
  dominant_land_cover : string
}.

Inductive analysis_result : Type :=
| AnalysisError (error : string)
| Analysis (a : analysis).

(** The four arrays as the classification loop reads them: truncated to the
    common length, an absent or empty one replaced by its neutral constant. *)
Record index_stack : Type := mk_index_stack {
  st_length : nat;
  st_ndvi : ndarray;
  st_ndwi : ndarray;
  st_mndwi : ndarray;
  st_ndsi : ndarray
}.

Definition or_full (arr : ndarray) (min_length : nat) (fill : float)
  : ndarray :=
  if (0 <? List.length arr)%nat then firstn min_length arr
  else repeat fill min_length.

Definition prepare_stack (indices : dict ndarray) : result index_stack :=
  let ndvi := get_default indices "ndvi" [] in
  let ndwi := get_default indices "ndwi" [] in
  let mndwi := get_default indices "mndwi" [] in
  let ndsi := get_default indices "ndsi" [] in
  min_length <-
    py_min_list
      (map (@List.length float)
           (filter (fun arr => (0 <? List.length arr)%nat)
                   [ndvi; ndwi; mndwi; ndsi])) ;;
  Ok (mk_index_stack min_length
        (or_full ndvi min_length (Fin 0.5))
        (or_full ndwi min_length (Fin 0.0))
        (or_full mndwi min_length (Fin 0.0))
        (or_full ndsi min_length (Fin 0.0))).

(** The array [land_cover] after the classification loop. *)
Definition classify_stack (s : index_stack) : result (list nat) :=
  classify_loop (st_ndvi s) (st_ndwi s) (st_mndwi s) (st_ndsi s)
    (seq 0 (st_length s)) (repeat 0%nat (st_length s)).

Definition create_index_stack_analysis (indices : dict ndarray)
  : result analysis_result :=
  try_except
    (s <- prepare_stack indices ;;
     if (st_length s =? 0)%nat
     then Ok (AnalysisError "No valid index data provided")
     else
       land_cover <- classify_stack s ;;
       let land_cover_counts := np_bincount land_cover 7 in
       let total_pixels := List.length land_cover in
       land_cover_stats <-
         stats_loop land_cover_counts total_pixels (seq 0 7) [] ;;
       Ok (Analysis
             (mk_analysis land_cover_stats total_pixels
                (dominant_of land_cover_stats))))
    (fun e =>
       Ok (AnalysisError
             ("Failed to create index stack analysis: " ++ exn_str e))).

(** *** NDVI of a processed data dictionary *)

(** [k in d] *)
Definition dict_has {V : Type} (d : dict V) (k : string) : bool :=
  match dict_get d k with
  | Some _ => true
  | None => false
  end.

(** The data dictionary maps a key to a sequence of numbers; a scalar
    reading is the sequence of that one number.  Entries of another kind
    (text, nested objects), on which [np.mean] raises and the [except]
    branch answers, are outside this type. *)
Definition estimate_ndvi_from_features (data : dict ndarray)
  : result (float * string) :=
  try_except
    (let estimated_ndvi := Fin 0.5 in
     let estimated_ndvi :=
       match dict_get data "temperature" with
       | Some readings =>
           let temp := np_mean readings in
           if fle (Fin 20) temp && fle temp (Fin 30)
           then fadd estimated_ndvi (Fin 0.1)
           else if flt temp (Fin 10) || fgt temp (Fin 40)
           then fsub estimated_ndvi (Fin 0.2)
           else if flt temp (Fin 15) || fgt temp (Fin 35)
           then fsub estimated_ndvi (Fin 0.1)
           else estimated_ndvi
       | None => estimated_ndvi
       end in
     let estimated_ndvi :=
       match dict_get data "soil_moisture" with
       | Some readings =>
           let moisture := np_mean readings in
           if fgt moisture (Fin 60) then fadd estimated_ndvi (Fin 0.15)
           else if fgt moisture (Fin 40) then fadd estimated_ndvi (Fin 0.05)
           else if flt moisture (Fin 20) then fsub estimated_ndvi (Fin 0.2)
           else estimated_ndvi
       | None => estimated_ndvi
       end in
     let estimated_ndvi :=
       match dict_get data "humidity" with
       | Some readings =>
           let humidity := np_mean readings in
           if fle (Fin 50) humidity && fle humidity (Fin 70)
           then fadd estimated_ndvi (Fin 0.05)
           else if flt humidity (Fin 30) then fsub estimated_ndvi (Fin 0.1)
           else estimated_ndvi
       | None => estimated_ndvi
       end in
     let estimated_ndvi :=
       match dict_get data "ph" with
       | Some readings =>
           let ph := np_mean readings in
           if fle (Fin 6.0) ph && fle ph (Fin 7.5)
           then fadd estimated_ndvi (Fin 0.05)
           else if flt ph (Fin 5.5) || fgt ph (Fin 8.0)
           then fsub estimated_ndvi (Fin 0.1)
           else estimated_ndvi
       | None => estimated_ndvi
       end in
     let estimated_ndvi := clip1 (Fin 0.0) (Fin 1.0) estimated_ndvi in
     Ok (estimated_ndvi, "estimated_from_features"%string))
    (fun e => Ok (Fin 0.5, ("error: " ++ exn_str e)%string)).

Definition calculate_ndvi_from_data (data : dict ndarray)
  : result (float * string) :=
  try_except
    (match dict_get data "ndvi" with
     | Some ndvi_values => Ok (np_mean ndvi_values, "success"%string)
     | None =>
         from_bands <-
           (match dict_get data "red", dict_get data "nir" with
            | Some red_band, Some nir_band =>
                ndvi_values <- calculate_ndvi red_band nir_band ;;
                if (0 <? List.length ndvi_values)%nat
                then Ok (Some (np_mean ndvi_values, "success"%string))
                else Ok None
            | _, _ => Ok None
            end) ;;
         match from_bands with
         | Some r => Ok r
         | None =>
             match dict_get data "vegetation_index" with
             | Some vi_values =>
                 Ok (np_mean vi_values, "estimated_from_vi"%string)
             | None => estimate_ndvi_from_features data
             end
         end
     end)
    (fun e => Ok (Fin 0.5, ("error: " ++ exn_str e)%string)).

(** *** Validation of an NDVI array *)

(** [np.any(a < c)], [np.any(a > c)], [np.any(np.isnan(a))] and
    [np.any(np.isinf(a))]. *)
Definition np_any_lt (a : ndarray) (c : float) : bool :=
  existsb (fun x => flt x c) a.
Definition np_any_gt (a : ndarray) (c : float) : bool :=
  existsb (fun x => fgt x c) a.
Definition np_any_isnan (a : ndarray) : bool :=
  existsb (fun x => match x with NaN => true | _ => false end) a.
Definition np_any_isinf (a : ndarray) : bool :=
  existsb (fun x => match x with PInf | NInf => true | _ => false end) a.

(** [np.var]: the mean of the squared deviations from the mean. *)
Definition np_var (a : ndarray) : float :=
  let m := np_mean a in
  np_mean (map (fun x => fmul (fsub x m) (fsub x m)) a).

(** [np.std(a) < c] for a positive constant [c].  The standard deviation is
    the square root of [np_var]; the root being monotone, the comparison is
    decided on the variance against [c * c], and is false for NaN.  On the
    exact variance the two agree; a float deviation within rounding of [c]
    may compare the other way. *)
Definition np_std_lt (a : ndarray) (c : Q) : bool :=
  flt (np_var a) (Fin (c * c)).

Definition validate_ndvi_data (ndvi_values : ndarray)
  : result (bool * string) :=
  try_except
    (if (List.length ndvi_values =? 0)%nat
     then Ok (false, "No NDVI data provided"%string)
     else if np_any_lt ndvi_values (Fin (-1)) || np_any_gt ndvi_values (Fin 1)
     then Ok (false, "NDVI values outside valid range [-1, 1]"%string)
     else
       let mean_ndvi := np_mean ndvi_values in
       if flt mean_ndvi (Fin (-0.5))
       then Ok (false, "Mean NDVI too low, check data quality"%string)
       else if np_std_lt ndvi_values 0.001
                && (10 <? List.length ndvi_values)%nat
       then Ok (false,
                "NDVI data shows no variation, possible data quality issue"%string)
       else if np_any_isnan ndvi_values || np_any_isinf ndvi_values
       then Ok (false,
                "NDVI data contains invalid values (NaN or Inf)"%string)
       else Ok (true, "NDVI data is valid"%string))
    (fun e => Ok (false, ("Validation error: " ++ exn_str e)%string)).

End Ndvi.

(** ** Hyperspectral analyzer: [backend/utils/hyperspectral_analysis.py] *)

Module Hyperspectral.

(** The dictionary built by the local function [get_stats]. *)
Record stats : Type := mk_stats {
  mean : float;
  std : float;
  min : float;
  max : float;
  median : float;
  values : ndarray
}.

(** [np.where(den != 0, quot, 0)] on arrays of one shape. *)
Definition np_where_nonzero (den quot : ndarray) : ndarray :=
  zip_with (fun d q => if fneb d (Fin 0) then q else Fin 0) den quot.

(** [np.where((p + m) != 0, (p - m) / (p + m), 0)]: the quotient is computed
    at every pixel (a zero denominator gives an infinity or NaN there) and
    the selection then drops those pixels. *)
Definition index_where (p m : ndarray) : result ndarray :=
  cond <- np_add p m ;;
  num <- np_sub p m ;;
  den <- np_add p m ;;
  quot <- np_div num den ;;
  Ok (np_where_nonzero cond quot).

Section Analyzer.

(** [np.std] and [np.median] are library reductions that return a float for
    every 1-D float array (NaN, with a warning, for a zero-size one); their
    values take no part in the index arrays. *)
Variable np_std : ndarray -> float.
Variable np_median : ndarray -> float.

Definition get_stats (vals : ndarray) : result stats :=
  let mean := np_mean vals in
  let std := np_std vals in
  mn <- np_min vals ;;
  mx <- np_max vals ;;
  Ok (mk_stats mean std mn mx (np_median vals) vals).

Definition calculate_spectral_indices_body
  (spectral_data : dict ndarray) (real_ndvi : option float)
  : result (dict stats) :=
  let red := get_default spectral_data "red" [] in
  let green := get_default spectral_data "green" [] in
  let nir := get_default spectral_data "nir" [] in
  let swir := get_default spectral_data "swir" [] in
  if ((List.length red =? 0) || (List.length nir =? 0))%nat
  then Raise (ValueError "Insufficient spectral data")
  else
    ndvi <- match real_ndvi with
            | Some v =>
                let array_size :=
                  if (0 <? List.length red)%nat then List.length red
                  else if (0 <? List.length nir)%nat then List.length nir
                  else 100%nat in
                Ok (repeat v array_size)
            | None => index_where nir red
            end ;;
    ndwi <- index_where nir swir ;;
    mndwi <- index_where green swir ;;
    ndsi <- index_where swir green ;;
    red_edge_ndvi <-
      index_where (np_scale nir (Fin 1.1)) (np_scale red (Fin 0.9)) ;;
    s_ndvi <- get_stats ndvi ;;
    s_ndwi <- get_stats ndwi ;;
    s_mndwi <- get_stats mndwi ;;
    s_ndsi <- get_stats ndsi ;;
    s_red_edge <- get_stats red_edge_ndvi ;;
    Ok [("ndvi"%string, s_ndvi); ("ndwi"%string, s_ndwi);
        ("mndwi"%string, s_mndwi); ("ndsi"%string, s_ndsi);
        ("red_edge_ndvi"%string, s_red_edge)].

Definition calculate_spectral_indices
  (spectral_data : dict ndarray) (real_ndvi : option float)
  : result (dict stats) :=
  try_except (calculate_spectral_indices_body spectral_data real_ndvi)
             (fun _ => Ok []).

End Analyzer.

(** *** Pest risk *)

Definition _assess_environmental_pest_risk
  (temp humidity : float) (crop_type : string) (latitude : float) : float :=
  let risk := Fin 0.0 in
  let risk :=
    if fle (Fin 22) temp && fle temp (Fin 32) then fadd risk (Fin 0.3)
    else if fgt temp (Fin 35) || flt temp (Fin 15) then fadd risk (Fin 0.1)
    else fadd risk (Fin 0.2) in
  let risk :=
    if fgt humidity (Fin 75) then fadd risk (Fin 0.4)
    else if flt humidity (Fin 40) then fadd risk (Fin 0.3)
    else fadd risk (Fin 0.2) in
  let risk :=
    if flt (fabs latitude) (Fin 35) then fadd risk (Fin 0.2) else risk in
  py_min risk (Fin 1.0).

Definition _assess_spectral_stress (ndvi_mean ndvi_std ndwi_mean : float)
  : float :=
  let stress_score := Fin 0.0 in
  let stress_score :=
    if flt ndvi_mean (Fin 0.4) then fadd stress_score (Fin 0.4)
    else if flt ndvi_mean (Fin 0.6) then fadd stress_score (Fin 0.2)
    else stress_score in
  let stress_score :=
    if fgt ndvi_std (Fin 0.15) then fadd stress_score (Fin 0.3)
    else if fgt ndvi_std (Fin 0.10) then fadd stress_score (Fin 0.2)
    else stress_score in
  let stress_score :=
    if flt ndwi_mean (Fin 0.2) then fadd stress_score (Fin 0.3)
    else stress_score in
  py_min stress_score (Fin 1.0).

Definition str_in (s : string) (l : list string) : bool :=
  existsb (String.eqb s) l.

Definition Z_in (z : Z) (l : list Z) : bool := existsb (Z.eqb z) l.

(** [month] is the value read from [datetime.now().month]. *)
Definition _assess_seasonal_pest_risk
  (month : Z) (latitude : float) (crop_type : string) : float :=
  if fgt latitude (Fin 0) then
    if str_in crop_type ["rice"; "cotton"]%string && Z_in month [6; 7; 8]%Z
    then Fin 0.8
    else if String.eqb crop_type "wheat" && Z_in month [3; 4; 5]%Z
    then Fin 0.6
    else Fin 0.4
  else
    if Z_in month [12; 1; 2]%Z then Fin 0.7 else Fin 0.4.

(** The dictionary [risk_factors], whose three keys are always present. *)
Record risk_factors : Type := mk_risk_factors {
  environmental : float;
  spectral_stress : float;
  seasonal : float
}.

Definition risk_values (rf : risk_factors) : list float :=
  [environmental rf; spectral_stress rf; seasonal rf].

Definition _calculate_specific_pest_risks
  (rf : risk_factors) (crop_type : string) (temp humidity : float)
  : dict float :=
  let base_risk := np_mean (risk_values rf) in
  if String.eqb crop_type "rice" then
    [("brown_planthopper"%string,
       if fgt humidity (Fin 80) then fmul base_risk (Fin 0.9)
       else fmul base_risk (Fin 0.6));
     ("rice_blast"%string,
       if fgt humidity (Fin 75) && fgt temp (Fin 25)
       then fmul base_risk (Fin 0.8) else fmul base_risk (Fin 0.4));
     ("stem_borer"%string, fmul base_risk (Fin 0.7));
     ("leaf_folder"%string,
       if fgt temp (Fin 28) then fmul base_risk (Fin 0.6)
       else fmul base_risk (Fin 0.4))]
  else if String.eqb crop_type "cotton" then
    [("bollworm"%string,
       if flt (Fin 25) temp && flt temp (Fin 35)
       then fmul base_risk (Fin 0.8) else fmul base_risk (Fin 0.5));
     ("aphids"%string,
       if flt humidity (Fin 60) then fmul base_risk (Fin 0.7)
       else fmul base_risk (Fin 0.4));
     ("whitefly"%string,
       if fgt temp (Fin 30) then fmul base_risk (Fin 0.9)
       else fmul base_risk (Fin 0.6));
     ("thrips"%string, fmul base_risk (Fin 0.6))]
  else if String.eqb crop_type "wheat" then
    [("rust"%string,
       if fgt humidity (Fin 70) then fmul base_risk (Fin 0.8)
       else fmul base_risk (Fin 0.3));
     ("aphids"%string, fmul base_risk (Fin 0.7));
     ("termites"%string,
       if flt humidity (Fin 50) then fmul base_risk (Fin 0.5)
       else fmul base_risk (Fin 0.3));
     ("army_worm"%string,
       if fgt temp (Fin 25) then fmul base_risk (Fin 0.6)
       else fmul base_risk (Fin 0.4))]
  else
    [("aphids"%string, fmul base_risk (Fin 0.6));
     ("spider_mites"%string,
       if flt humidity (Fin 50) then fmul base_risk (Fin 0.5)
       else fmul base_risk (Fin 0.3));
     ("thrips"%string, fmul base_risk (Fin 0.5));
     ("fungal_diseases"%string,
       if fgt humidity (Fin 75) then fmul base_risk (Fin 0.7)
       else fmul base_risk (Fin 0.4))].

(** [sum(risk_factors.get(factor, 0) * weight for factor, weight in
    weights.items())], then [min(weighted_risk, 1.0)]. *)
Definition _calculate_overall_pest_risk (rf : risk_factors) : float :=
  let weighted_risk :=
    fold_left fadd
      [fmul (environmental rf) (Fin 0.4);
       fmul (spectral_stress rf) (Fin 0.35);
       fmul (seasonal rf) (Fin 0.25)]
      (Fin 0) in
  py_min weighted_risk (Fin 1.0).

Definition _categorize_risk_level (risk_score : float) : string :=
  if fge risk_score (Fin 0.7) then "high"
  else if fge risk_score (Fin 0.4) then "medium"
  else "low".

(** The entries of the assessment that the risk computation fills; the
    recommendation texts and the echo of the weather are left out. *)
Record pest_assessment : Type := mk_pest_assessment {
  overall_risk : float;
  risk_level : string;
  factors : risk_factors;
  specific_pests : dict float
}.

(** [indices] gives, per index name, the [mean] and [std] entries when
    present; [weather_data] gives the weather readings when present.  With
    numeric readings and coordinates nothing in the body raises, so the
    [except] branch of the source is unreachable and left out. *)
Definition assess_pest_risk
  (month : Z)
  (indices : dict (dict float)) (weather_data : dict float)
  (field_coords : float * float) (crop_type : string) : pest_assessment :=
  let '(latitude, longitude) := field_coords in
  let temperature := get_default weather_data "temperature" (Fin 25) in
  let humidity := get_default weather_data "humidity" (Fin 60) in
  let ndvi_mean := get_default (get_default indices "ndvi" []) "mean" (Fin 0.5) in
  let ndvi_std := get_default (get_default indices "ndvi" []) "std" (Fin 0.1) in
  let ndwi_mean := get_default (get_default indices "ndwi" []) "mean" (Fin 0.3) in
  let rf :=
    mk_risk_factors
      (_assess_environmental_pest_risk temperature humidity crop_type latitude)
      (_assess_spectral_stress ndvi_mean ndvi_std ndwi_mean)
      (_assess_seasonal_pest_risk month latitude crop_type) in
  let pest_risks :=
    _calculate_specific_pest_risks rf crop_type temperature humidity in
  let overall := _calculate_overall_pest_risk rf in
  mk_pest_assessment overall (_categorize_risk_level overall) rf pest_risks.

(** *** Health zones *)

(** [self.crop_thresholds], the [healthy_ndvi] entries. *)
Definition crop_thresholds : dict float :=
  [("rice", Fin 0.8); ("wheat", Fin 0.7); ("cotton", Fin 0.75);
   ("sugarcane", Fin 0.85); ("maize", Fin 0.7)]%string.

Definition classify_crop_health (healthy_ndvi ndvi ndwi : float) : string :=
  if fgt ndvi healthy_ndvi && fgt ndwi (Fin 0.3) then "excellent"
  else if fgt ndvi (Fin 0.5) && fgt ndwi (Fin 0.2) then "good"
  else if fgt ndvi (Fin 0.3) && fgt ndwi (Fin 0.1) then "moderate"
  else "poor".

Definition classify_soil_health (ndvi ndsi : float) : string :=
  if fgt ndsi (Fin 0.4) && flt ndvi (Fin 0.3) then "degraded"
  else if (flt (Fin 0.2) ndsi && flt ndsi (Fin 0.4))
          && (flt (Fin 0.3) ndvi && flt ndvi (Fin 0.6)) then "moderate"
  else "healthy".

(** [collections.Counter]: a dictionary of counts in order of first
    occurrence. *)
Definition counter_add (c : dict nat) (k : string) : dict nat :=
  dict_set c k (S (get_default c k 0%nat)).

Definition Counter (l : list string) : dict nat :=
  fold_left counter_add l [].

(** [c.most_common(1)[0][0]]: the first key of the largest count. *)
Definition most_common_key (c : dict nat) (default : string) : string :=
  match c with
  | [] => default
  | it :: c' =>
      fst (fold_left
             (fun best x => if (snd best <? snd x)%nat then x else best)
             c' it)
  end.

(** [sum(stats.get(status, 0) * weight for status, weight in weights.items())
    / total_pixels], or 0.5 without pixels. *)
Definition weighted_score (weights : list (string * float)) (st : dict nat)
  : float :=
  let total_pixels := fold_left Nat.add (map snd st) 0%nat in
  if (total_pixels =? 0)%nat then Fin 0.5
  else
    let weighted_sum :=
      fold_left fadd
        (map (fun sw =>
                fmul (Fin (inject_Z (Z.of_nat (get_default st (fst sw) 0%nat))))
                     (snd sw))
             weights)
        (Fin 0) in
    fdiv weighted_sum (Fin (inject_Z (Z.of_nat total_pixels))).

Definition _calculate_health_score (crop_stats : dict nat) : float :=
  weighted_score
    [("excellent", Fin 1.0); ("good", Fin 0.75); ("moderate", Fin 0.5);
     ("poor", Fin 0.25)]%string
    crop_stats.

Definition _calculate_soil_score (soil_stats : dict nat) : float :=
  weighted_score
    [("healthy", Fin 1.0); ("moderate", Fin 0.6); ("degraded", Fin 0.2)]%string
    soil_stats.

Record zone_report : Type := mk_zone_report {
  classifications : list string;
  statistics : dict nat;
  overall_score : float;
  dominant_zone : string
}.

Record health_zones : Type := mk_health_zones {
  crop_health : zone_report;
  soil_health : zone_report;
  crop_variability : float;
  soil_variability : float
}.

(** [for i in range(len(ndvi_values)): ...append(...)] *)
Fixpoint zones_loop (healthy_ndvi : float) (ndvi ndwi ndsi : ndarray)
  (range : list nat) (crop soil : list string)
  : result (list string * list string) :=
  match range with
  | [] => Ok (crop, soil)
  | i :: range' =>
      v <- Ndvi.getitem ndvi i ;;
      w <- Ndvi.getitem ndwi i ;;
      let crop := crop ++ [classify_crop_health healthy_ndvi v w] in
      v <- Ndvi.getitem ndvi i ;;
      s <- Ndvi.getitem ndsi i ;;
      let soil := soil ++ [classify_soil_health v s] in
      zones_loop healthy_ndvi ndvi ndwi ndsi range' crop soil
  end.

Definition report_of (score : dict nat -> float) (labels : list string)
  : zone_report :=
  let st := Counter labels in
  mk_zone_report labels st (score st) (most_common_key st "unknown").

Definition variability (st : dict nat) (labels : list string) : float :=
  match labels with
  | [] => Fin 0
  | _ => fdiv (Fin (inject_Z (Z.of_nat (List.length st))))
              (Fin (inject_Z (Z.of_nat (List.length labels))))
  end.

Definition entry_values (indices : dict stats) (name : string) : ndarray :=
  match dict_get indices name with
  | Some s => values s
  | None => []
  end.

(** The returned dictionary, or [None] for the empty dictionary of the
    [except] branch.  The [field_grid] argument is not read. *)
Definition analyze_health_zones (indices : dict stats) (crop_type : string)
  : result (option health_zones) :=
  try_except
    (let healthy_ndvi := get_default crop_thresholds crop_type (Fin 0.7) in
     let ndvi_values := entry_values indices "ndvi" in
     let ndwi_values := entry_values indices "ndwi" in
     let ndsi_values := entry_values indices "ndsi" in
     maps <- zones_loop healthy_ndvi ndvi_values ndwi_values ndsi_values
               (seq 0 (List.length ndvi_values)) [] [] ;;
     let '(crop, soil) := maps in
     let crop_report := report_of _calculate_health_score crop in
     let soil_report := report_of _calculate_soil_score soil in
     Ok (Some (mk_health_zones crop_report soil_report
                 (variability (statistics crop_report) crop)
                 (variability (statistics soil_report) soil))))
    (fun _ => Ok None).

(** *** Recommendations *)

Definition _generate_pest_recommendations
  (overall_risk : float) (pest_risks : dict float) (crop_type : string)
  : list string :=
  let recommendations :=
    (if fgt overall_risk (Fin 0.7) then
       ["Implement intensive field monitoring (2-3 times per week)";
        "Consider preventive pest control measures";
        "Monitor weather conditions for pest-favorable periods"]
     else if fgt overall_risk (Fin 0.4) then
       ["Regular field scouting (weekly)";
        "Maintain field hygiene and remove crop residues";
        "Monitor threshold levels for economic pests"]
     else [])%string in
  let recommendations :=
    if String.eqb crop_type "rice"
       && fgt (get_default pest_risks "brown_planthopper" (Fin 0)) (Fin 0.6)
    then recommendations
         ++ ["Monitor for brown planthopper, especially in humid conditions"%string]
    else recommendations in
  let recommendations :=
    if String.eqb crop_type "cotton"
       && fgt (get_default pest_risks "bollworm" (Fin 0)) (Fin 0.6)
    then recommendations
         ++ ["Check for bollworm eggs and larvae on cotton bolls"%string]
    else recommendations in
  recommendations.

(** [l.append(x)] *)
Definition list_append {A : Type} (l : list A) (x : A) : list A := l ++ [x].

Record recommendation : Type := mk_recommendation {
  rec_type : string;
  priority : string;
  title : string;
  rec_description : string;
  actions : list string
}.

Definition zone_score (hz : option health_zones)
  (zone : health_zones -> zone_report) : float :=
  match hz with
  | Some z => overall_score (zone z)
  | None => Fin 0.5
  end.

(** [health_zones] is the result of [analyze_health_zones] and
    [pest_assessment] the result of [assess_pest_risk]. *)
Definition generate_recommendations (hz : option health_zones)
  (pa : pest_assessment) (crop_type : string) : list recommendation :=
  let recommendations : list recommendation := [] in
  let crop_score := zone_score hz crop_health in
  let recommendations :=
    (if flt crop_score (Fin 0.4) then
       list_append recommendations
       (mk_recommendation "crop_health" "high" "Crop Health Critical"
          "Crop health is below optimal levels. Consider soil testing and nutrient management."
          ["Soil nutrient analysis"; "Fertilizer application";
           "Irrigation assessment"])
     else if flt crop_score (Fin 0.6) then
       list_append recommendations
       (mk_recommendation "crop_health" "medium" "Improve Crop Health"
          "Moderate crop stress detected. Monitor and optimize growing conditions."
          ["Monitor water stress"; "Adjust fertilization";
           "Check for early pest signs"])
     else recommendations)%string in
  let recommendations :=
    (if String.eqb (risk_level pa) "high" then
       list_append recommendations
       (mk_recommendation "pest_control" "high" "High Pest Risk Detected"
          "Environmental conditions favor pest development. Implement preventive measures."
          ["Scout fields regularly"; "Consider preventive treatments";
           "Monitor weather conditions"])
     else recommendations)%string in
  let high_risk_pests :=
    map fst (filter (fun pr => fgt (snd pr) (Fin 0.7)) (specific_pests pa)) in
  let recommendations :=
    (match high_risk_pests with
     | [] => recommendations
     | _ =>
         list_append recommendations
         (mk_recommendation "specific_pests" "high"
            ("High Risk: " ++ String.concat ", " (firstn 3 high_risk_pests))
            ("Specific pest risks identified for " ++ crop_type ++ ".")
            (map (fun pest => "Monitor for " ++ pest)
                 (firstn 3 high_risk_pests)))
     end)%string in
  let soil_score := zone_score hz soil_health in
  let recommendations :=
    (if flt soil_score (Fin 0.4) then
       list_append recommendations
       (mk_recommendation "soil_health" "medium"
          "Soil Health Improvement Needed"
          "Soil conditions show signs of degradation or poor coverage."
          ["Soil organic matter enhancement"; "Cover crop consideration";
           "Erosion control measures"])
     else recommendations)%string in
  firstn 5 recommendations.

End Hyperspectral.

(** ** Prediction ensemble: [backend/utils/real_model.py] *)

Module RealModel.

(** Values stored in the result dictionaries. *)
Inductive pyval : Type :=
| VFloat (x : float)
| VInt (z : Z)
| VStr (s : string).

(** The feature array: 1-D, or 2-D with its number of columns (a 2-D array
    with no row still has one). *)
Inductive features : Type :=
| Arr1 (row : list float)
| Arr2 (ncols : nat) (rows : list (list float)).

(** A 2-D array as the library calls see it: its rows. *)
Definition matrix := list (list float).

(** The dictionary stored in [self.model] by [train_model].  A fitted
    regressor is the function of its [predict] method, from the scaled
    array to the array of predictions; like every library call it may raise
    (on a non-finite value, on an array with no row, on a column count
    other than the fitted one), and nothing is assumed about the number of
    predictions it returns. *)
Record ensemble : Type := mk_ensemble {
  rf_model : matrix -> result ndarray;
  gb_model : matrix -> result ndarray;
  weight_rf : float;
  weight_gb : float
}.

(** [self.scaler] holds the [transform] method of the fitted scaler, which
    may raise as well. *)
Record model_state : Type := mk_model_state {
  model : option ensemble;
  scaler : option (matrix -> result matrix);
  feature_names : list string
}.

(** [__init__]: the Untrained state. *)
Definition init : model_state :=
  mk_model_state None None
    ["ndvi"; "temperature"; "humidity"; "soil_moisture"; "soil_ph";
     "precipitation"; "solar_radiation"; "day_of_year"; "latitude"]%string.

(** The state change of [train_model], given the scaler and the two
    regressors that the library fits. *)
Definition train_model
  (fitted_scaler : matrix -> result matrix)
  (rf gb : matrix -> result ndarray) (self : model_state) : model_state :=
  mk_model_state
    (Some (mk_ensemble rf gb (Fin 0.6) (Fin 0.4)))
    (Some fitted_scaler)
    (feature_names self).

Inductive prediction : Type :=
| Single (d : dict pyval)
| Many (l : list (dict pyval)).

(** [features[i, 0]] on row [i]. *)
Definition first_column (row : list float) : result float :=
  match row with
  | x :: _ => Ok x
  | [] => Raise (IndexError "index 0 is out of bounds for axis 1")
  end.

(** One iteration of the loop over [health_scores]. *)
Definition result_of (ncols : nat) (row : list float) (score : float)
  : result (dict pyval) :=
  let '(status, confidence) :=
    (if fge score (Fin 80) then ("Excellent", 95%Z)
     else if fge score (Fin 70) then ("Good", 90%Z)
     else if fge score (Fin 50) then ("Moderate", 85%Z)
     else if fge score (Fin 30) then ("Poor", 80%Z)
     else ("Critical", 75%Z))%string in
  ndvi_value <-
    (if (0 <? ncols)%nat then first_column row else Ok (Fin 0.5)) ;;
  Ok [("health_score"%string, VFloat (py_round score 2));
      ("status"%string, VStr status);
      ("confidence"%string, VInt confidence);
      ("ndvi_value"%string, VFloat (py_round ndvi_value 3));
      ("model_type"%string, VStr "Real Agricultural Model");
      ("prediction_quality"%string,
        VStr (if (85 <? confidence)%Z then "High" else "Medium"))].

Fixpoint results_loop (ncols : nat) (rows : list (list float))
  (health_scores : list float) : result (list (dict pyval)) :=
  match health_scores, rows with
  | [], _ => Ok []
  | score :: scores', row :: rows' =>
      r <- result_of ncols row score ;;
      rs <- results_loop ncols rows' scores' ;;
      Ok (r :: rs)
  | _ :: _, [] => Raise (IndexError "index is out of bounds for axis 0")
  end.

Definition predict (self : model_state) (feats : features)
  : result prediction :=
  try_except
    (match model self with
     | None => Raise (ValueError "Model not trained. Call train_model() first.")
     | Some m =>
         let '(n_features, rows) :=
           match feats with
           | Arr1 row => (List.length row, [row])
           | Arr2 ncols rows => (ncols, rows)
           end in
         let width := List.length (feature_names self) in
         let '(ncols, rows) :=
           if (n_features <? width)%nat then
             let padding_size := (width - n_features)%nat in
             (width, map (fun r => r ++ repeat (Fin 0.5) padding_size) rows)
           else if (width <? n_features)%nat then
             (width, map (firstn width) rows)
           else (n_features, rows) in
         features_scaled <-
           match scaler self with
           | Some transform => transform rows
           | None => Ok rows
           end ;;
         rf_pred <- rf_model m features_scaled ;;
         gb_pred <- gb_model m features_scaled ;;
         health_scores <-
           np_add (map (fmul (weight_rf m)) rf_pred)
                  (map (fmul (weight_gb m)) gb_pred) ;;
         results <- results_loop ncols rows health_scores ;;
         match results with
         | [r] => Ok (Single r)
         | _ => Ok (Many results)
         end
     end)
    (fun e =>
       Ok (Single [("error"%string, VStr (exn_str e));
                   ("health_score"%string, VFloat (Fin 50.0));
                   ("status"%string, VStr "Unknown");
                   ("confidence"%string, VInt 50)])).

End RealModel.

(** ** Pointwise views and the properties under study *)

(** What a standalone index function leaves at a pixel whose two band
    values are [x] and [y]. *)
Definition nd_pixel (x y : float) : float :=
  clip1 (Fin (-1)) (Fin 1)
    (fdiv (fsub x y)
          (let d := fadd x y in if feqb d (Fin 0) then Fin 1e-10 else d)).

(** What the hyperspectral computation leaves at such a pixel. *)
Definition where_pixel (x y : float) : float :=
  if fneb (fadd x y) (Fin 0) then fdiv (fsub x y) (fadd x y) else Fin 0.

Definition all_finite (a : ndarray) : Prop :=
  Forall (fun x => is_finite x = true) a.

Definition all_nonneg (a : ndarray) : Prop :=
  Forall (fun x => exists q, x = Fin q /\ 0 <= q) a.

(** "Wherever the denominator is exactly zero the output element is 0", for
    an index function [f p m] whose denominator is [p + m]. *)
Definition zero_at_zero_denominator
  (f : ndarray -> ndarray -> result ndarray) : Prop :=
  forall p m out i x y,
    List.length p = List.length m ->
    f p m = Ok out ->
    nth_error p i = Some x -> nth_error m i = Some y ->
    same_float (fadd x y) (Fin 0) ->
    exists o, nth_error out i = Some o /\ same_float o (Fin 0).

(** The same for an output array that is already at hand. *)
Definition zero_where_sum_zero (p m out : ndarray) : Prop :=
  forall i x y,
    nth_error p i = Some x -> nth_error m i = Some y ->
    same_float (fadd x y) (Fin 0) ->
    exists o, nth_error out i = Some o /\ same_float o (Fin 0).

(** What the standalone functions do instead at a zero denominator: the
    clamp of numerator / 1e-10, which is 0 exactly when the numerator is. *)
Definition epsilon_at_zero_denominator
  (f : ndarray -> ndarray -> result ndarray) : Prop :=
  forall p m,
    List.length p = List.length m ->
    exists out,
      f p m = Ok out /\
      forall i x y,
        nth_error p i = Some x -> nth_error m i = Some y ->
        same_float (fadd x y) (Fin 0) ->
        exists o,
          nth_error out i = Some o /\
          o = clip1 (Fin (-1)) (Fin 1) (fdiv (fsub x y) (Fin 1e-10)) /\
          (same_float o (Fin 0) <-> same_float (fsub x y) (Fin 0)).

(** "Every output element is a finite value in [-1, 1]". *)
Definition in_unit_range (out : ndarray) : Prop :=
  Forall (finite_in (-1) 1) out.

Definition clamps_to_unit_range
  (f : ndarray -> ndarray -> result ndarray) : Prop :=
  forall p m,
    List.length p = List.length m -> all_finite p -> all_finite m ->
    exists out,
      f p m = Ok out /\ List.length out = List.length p /\ in_unit_range out.

(** The [values] entry of one index in the returned mapping. *)
Definition values_of (d : dict Hyperspectral.stats) (name : string)
  : option ndarray :=
  option_map Hyperspectral.values (dict_get d name).

(** "An explicit failure is signalled to the caller". *)
Definition signals_failure {A : Type} (r : result A) : Prop :=
  exists e, r = Raise e.

(** What the hyperspectral computation guarantees at zero denominators. *)
Definition hyperspectral_zero_policy
  (np_std np_median : ndarray -> float) (data : dict ndarray)
  (red green nir swir : ndarray) : Prop :=
  exists d v1 v2 v3 v4 v5,
    Hyperspectral.calculate_spectral_indices np_std np_median data None = Ok d
    /\ values_of d "ndvi" = Some v1
    /\ values_of d "ndwi" = Some v2
    /\ values_of d "mndwi" = Some v3
    /\ values_of d "ndsi" = Some v4
    /\ values_of d "red_edge_ndvi" = Some v5
    /\ zero_where_sum_zero nir red v1
    /\ zero_where_sum_zero nir swir v2
    /\ zero_where_sum_zero green swir v3
    /\ zero_where_sum_zero swir green v4
    /\ zero_where_sum_zero (np_scale nir (Fin 1.1)) (np_scale red (Fin 0.9)) v5.

Definition standalone_epsilon_policy : Prop :=
  epsilon_at_zero_denominator (fun nir red => Ndvi.calculate_ndvi red nir)
  /\ epsilon_at_zero_denominator Ndvi.calculate_ndwi
  /\ epsilon_at_zero_denominator Ndvi.calculate_mndwi
  /\ epsilon_at_zero_denominator Ndvi.calculate_ndsi
  /\ Ndvi.calculate_ndvi [Fin 0] [Fin 0] = Ok [Fin 0].

Definition sample_bands : dict ndarray :=
  [("red", [Fin 0.5; Fin 0; Fin 0.05]);
   ("green", [Fin 0.25; Fin 0; Fin 0.07]);
   ("nir", [Fin (-0.5); Fin 0; Fin 0.65]);
   ("swir", [Fin (-0.25); Fin 0; Fin 0.1])]%string.

Definition standalone_clamp : Prop :=
  clamps_to_unit_range (fun nir red => Ndvi.calculate_ndvi red nir)
  /\ clamps_to_unit_range Ndvi.calculate_ndwi
  /\ clamps_to_unit_range Ndvi.calculate_mndwi
  /\ clamps_to_unit_range Ndvi.calculate_ndsi.

(** Every index array of the hyperspectral result has [n] elements, all
    finite and inside [-1, 1]. *)
Definition hyperspectral_in_unit_range
  (np_std np_median : ndarray -> float) (data : dict ndarray) (n : nat)
  : Prop :=
  exists d,
    Hyperspectral.calculate_spectral_indices np_std np_median data None = Ok d
    /\ dict_keys d = ["ndvi"; "ndwi"; "mndwi"; "ndsi"; "red_edge_ndvi"]%string
    /\ forall name, In name (dict_keys d) ->
         exists v, values_of d name = Some v
                   /\ List.length v = n /\ in_unit_range v.

(** "Its outputs are the unclamped formula values": each of the five index
    arrays is, pixel by pixel, (p - m) / (p + m), or 0 where p + m is 0. *)
Definition hyperspectral_unclamped
  (np_std np_median : ndarray -> float) (data : dict ndarray)
  (red green nir swir : ndarray) : Prop :=
  exists d,
    Hyperspectral.calculate_spectral_indices np_std np_median data None = Ok d
    /\ values_of d "ndvi" = Some (zip_with where_pixel nir red)
    /\ values_of d "ndwi" = Some (zip_with where_pixel nir swir)
    /\ values_of d "mndwi" = Some (zip_with where_pixel green swir)
    /\ values_of d "ndsi" = Some (zip_with where_pixel swir green)
    /\ values_of d "red_edge_ndvi"
       = Some (zip_with where_pixel (np_scale nir (Fin 1.1))
                                    (np_scale red (Fin 0.9))).

(** Band values that are non-negative and at most 1e300, a magnitude at
    which no sum, difference or product of the index formulas overflows. *)
Definition all_moderate (a : ndarray) : Prop :=
  Forall (finite_in 0 1e300) a.

Definition unclamped_bands : dict ndarray :=
  [("red", [Fin (-1)]); ("green", [Fin 1]);
   ("nir", [Fin 2]); ("swir", [Fin 1])]%string.

Definition physical_bands : dict ndarray :=
  [("red", [Fin 0.05; Fin 0.06]); ("green", [Fin 0.07; Fin 0.08]);
   ("nir", [Fin 0.6; Fin 0.7]); ("swir", [Fin 0.1; Fin 0.12])]%string.

(** "The NDSI function computes (swir - green) / (swir + green) at each
    pixel", for a function taking swir first. *)
Definition computes_swir_minus_green
  (ndsi : ndarray -> ndarray -> result ndarray) : Prop :=
  forall swir green,
    List.length swir = List.length green ->
    (forall i s g, nth_error swir i = Some s -> nth_error green i = Some g ->
                   fneb (fadd s g) (Fin 0) = true) ->
    exists out,
      ndsi swir green = Ok out /\
      forall i s g,
        nth_error swir i = Some s -> nth_error green i = Some g ->
        exists o, nth_error out i = Some o
                  /\ same_float o (fdiv (fsub s g) (fadd s g)).

(** The two NDSI computations on one sample.  The sign of the
    hyperspectral value is stated for band values of magnitude at most
    1e300, where neither the sum nor the difference overflows. *)
Definition ndsi_conventions
  (np_std np_median : ndarray -> float) (data : dict ndarray)
  (green swir : ndarray) : Prop :=
  (exists d v,
     Hyperspectral.calculate_spectral_indices np_std np_median data None = Ok d
     /\ values_of d "ndsi" = Some v
     /\ (forall i s g,
           nth_error swir i = Some s -> nth_error green i = Some g ->
           fneb (fadd s g) (Fin 0) = true ->
           nth_error v i = Some (fdiv (fsub s g) (fadd s g)))
     /\ (forall i s g,
           nth_error swir i = Some (Fin s) -> nth_error green i = Some (Fin g) ->
           Qabs s <= 1e300 -> Qabs g <= 1e300 ->
           g < s -> 0 < s + g ->
           exists q, nth_error v i = Some (Fin q) /\ 0 < q))
  /\ (exists out,
        Ndvi.calculate_ndsi green swir = Ok out
        /\ forall i s g,
             nth_error swir i = Some s -> nth_error green i = Some g ->
             feqb (fadd g s) (Fin 0) = false ->
             nth_error out i
             = Some (clip1 (Fin (-1)) (Fin 1) (fdiv (fsub g s) (fadd g s)))).

(** The seven labels of the label map and the decision order as the
    specification words it: first match wins. *)
Inductive land_cover_label : Type :=
| Unknown
| Water
| SnowIce
| DenseVegetation
| SparseVegetation
| BareSoilRock
| UrbanBuiltUp.

Definition label_code (l : land_cover_label) : nat :=
  match l with
  | Unknown => 0
  | Water => 1
  | SnowIce => 2
  | DenseVegetation => 3
  | SparseVegetation => 4
  | BareSoilRock => 5
  | UrbanBuiltUp => 6
  end.

Definition label_name (l : land_cover_label) : string :=
  match l with
  | Unknown => "Unknown"
  | Water => "Water"
  | SnowIce => "Snow/Ice"
  | DenseVegetation => "Dense Vegetation"
  | SparseVegetation => "Sparse Vegetation"
  | BareSoilRock => "Bare Soil/Rock"
  | UrbanBuiltUp => "Urban/Built-up"
  end.

Definition decide_label (ndvi ndwi mndwi ndsi : float) : land_cover_label :=
  if fgt ndsi (Fin 0.4) then SnowIce
  else if fgt mndwi (Fin 0.3) || fgt ndwi (Fin 0.3) then Water
  else if fgt ndvi (Fin 0.6) then DenseVegetation
  else if fgt ndvi (Fin 0.2) then SparseVegetation
  else if flt ndvi (Fin (-0.1)) then UrbanBuiltUp
  else BareSoilRock.

(** The label of pixel [i] of a prepared stack. *)
Definition pixel_label (s : Ndvi.index_stack) (i : nat) : land_cover_label :=
  decide_label (nth i (Ndvi.st_ndvi s) NaN) (nth i (Ndvi.st_ndwi s) NaN)
               (nth i (Ndvi.st_mndwi s) NaN) (nth i (Ndvi.st_ndsi s) NaN).

Definition classified_labels : list land_cover_label :=
  [Water; SnowIce; DenseVegetation; SparseVegetation; BareSoilRock;
   UrbanBuiltUp].

Definition sample_indices : dict ndarray :=
  [("ndvi", [Fin 0.8; Fin 0.3; Fin (-0.5); NaN]);
   ("ndwi", [Fin 0.5; Fin 0; Fin 0; Fin 0; Fin 1]);
   ("ndsi", [Fin 0.5; Fin 0; Fin 0; Fin 0])]%string.

Definition classified_code (c : nat) : Prop :=
  exists l, In l classified_labels /\ c = label_code l.

(** The NDVI table as the specification words it: inclusive lower bounds,
    highest threshold first. *)
Definition ndvi_band (q : Q) : string * Z :=
  if Qle_bool 0.6 q then ("Excellent"%string, 90%Z)
  else if Qle_bool 0.4 q then ("Good"%string, 75%Z)
  else if Qle_bool 0.2 q then ("Moderate"%string, 50%Z)
  else if Qle_bool 0 q then ("Poor"%string, 20%Z)
  else ("Poor"%string, 0%Z).

(** The neutral placeholder of the [except] branches. *)
Definition is_placeholder (r : Ndvi.interpretation) : Prop :=
  Ndvi.status r = "Unknown"%string /\ Ndvi.score r = 50%Z
  /\ Ndvi.confidence r = Ndvi.of_int 50.

(** A float argument, finite or not, is interpreted by the cascade, with a
    confidence between 60 and 95. *)
Definition interprets_every_float
  (f : Ndvi.pyobj -> result Ndvi.interpretation) : Prop :=
  forall x : float,
    exists r,
      f (Ndvi.PyFloat x) = Ok r
      /\ Ndvi.status r <> "Unknown"%string
      /\ fle (Ndvi.of_int 60) (Ndvi.confidence r) = true
      /\ fle (Ndvi.confidence r) (Ndvi.of_int 95) = true.

(** An argument that is not a number makes the body raise; the handler
    returns the placeholder around the argument. *)
Definition placeholder_on_non_number
  (f : Ndvi.pyobj -> result Ndvi.interpretation) : Prop :=
  (exists r, f Ndvi.PyNone = Ok r /\ is_placeholder r
             /\ Ndvi.value r = Ndvi.PyNone)
  /\ forall s, exists r, f (Ndvi.PyStr s) = Ok r /\ is_placeholder r
                         /\ Ndvi.value r = Ndvi.PyStr s.

(** The per-crop multipliers, as a table: pest name and the factor applied
    to the base risk under the given temperature and humidity. *)
Definition pest_table (crop_type : string) (temp humidity : float)
  : list (string * float) :=
  (if String.eqb crop_type "rice" then
     [("brown_planthopper", if fgt humidity (Fin 80) then Fin 0.9 else Fin 0.6);
      ("rice_blast",
        if fgt humidity (Fin 75) && fgt temp (Fin 25) then Fin 0.8 else Fin 0.4);
      ("stem_borer", Fin 0.7);
      ("leaf_folder", if fgt temp (Fin 28) then Fin 0.6 else Fin 0.4)]
   else if String.eqb crop_type "cotton" then
     [("bollworm",
        if flt (Fin 25) temp && flt temp (Fin 35) then Fin 0.8 else Fin 0.5);
      ("aphids", if flt humidity (Fin 60) then Fin 0.7 else Fin 0.4);
      ("whitefly", if fgt temp (Fin 30) then Fin 0.9 else Fin 0.6);
      ("thrips", Fin 0.6)]
   else if String.eqb crop_type "wheat" then
     [("rust", if fgt humidity (Fin 70) then Fin 0.8 else Fin 0.3);
      ("aphids", Fin 0.7);
      ("termites", if flt humidity (Fin 50) then Fin 0.5 else Fin 0.3);
      ("army_worm", if fgt temp (Fin 25) then Fin 0.6 else Fin 0.4)]
   else
     [("aphids", Fin 0.6);
      ("spider_mites", if flt humidity (Fin 50) then Fin 0.5 else Fin 0.3);
      ("thrips", Fin 0.5);
      ("fungal_diseases", if fgt humidity (Fin 75) then Fin 0.7 else Fin 0.4)]
  )%string.

(** The weighted combination of the three factors, before the cap at 1. *)
Definition weighted_risk (rf : Hyperspectral.risk_factors) : float :=
  fadd (fadd (fadd (Fin 0)
                   (fmul (Hyperspectral.environmental rf) (Fin 0.4)))
             (fmul (Hyperspectral.spectral_stress rf) (Fin 0.35)))
       (fmul (Hyperspectral.seasonal rf) (Fin 0.25)).

(** The unweighted mean of the three factors. *)
Definition mean_risk (rf : Hyperspectral.risk_factors) : float :=
  fdiv (fadd (fadd (fadd (Fin 0) (Hyperspectral.environmental rf))
                   (Hyperspectral.spectral_stress rf))
             (Hyperspectral.seasonal rf))
       (Fin 3).

Definition sample_assessment : Hyperspectral.pest_assessment :=
  Hyperspectral.assess_pest_risk 1
    [("ndvi", [("mean", Fin 0.8); ("std", Fin 0.05)]);
     ("ndwi", [("mean", Fin 0.5)])]%string
    [("temperature", Fin 28); ("humidity", Fin 85)]%string
    (Fin 10, Fin 77) "rice".

Definition untrained_result : dict RealModel.pyval :=
  [("error", RealModel.VStr "Model not trained. Call train_model() first.");
   ("health_score", RealModel.VFloat (Fin 50.0));
   ("status", RealModel.VStr "Unknown");
   ("confidence", RealModel.VInt 50)]%string.

Definition canonical_features : RealModel.features :=
  RealModel.Arr2 9
    [[Fin 0.75; Fin 25; Fin 60; Fin 45; Fin 6.8; Fin 20; Fin 22; Fin 150;
      Fin 40]].

(** ** Further properties of the modelled code *)

(** A finite float inside the closed interval [lo, hi], as a test. *)
Definition in_range (lo hi : Q) (x : float) : bool :=
  fle (Fin lo) x && fle x (Fin hi).

(** The entry that the statistics loop adds for label code [i]: none when
    the label has no pixel. *)
Definition expected_stat (counts : list nat) (total : nat) (i : nat)
  : dict Ndvi.cover_stat :=
  match nth_error counts i, Ndvi.map_getitem Ndvi.land_cover_map i with
  | Some c, Ok (name, color) =>
      if (0 <? c)%nat then
        [(name,
          Ndvi.mk_cover_stat
            (py_round
               (fmul (fdiv (Ndvi.of_int (Z.of_nat c))
                           (Ndvi.of_int (Z.of_nat total)))
                     (Ndvi.of_int 100)) 1)
            c color)]
      else []
  | _, _ => []
  end.

(** The pixel counts of the statistics, added up. *)
Definition total_count (st : dict Ndvi.cover_stat) : nat :=
  list_sum (map (fun p => Ndvi.pixel_count (snd p)) st).

(** The four index names the classifier reads. *)
Definition stack_keys : list string :=
  ["ndvi"; "ndwi"; "mndwi"; "ndsi"]%string.

(** The value that the classifier reads at pixel [i] of an input array: the
    element of the array, or the fill constant of an absent or empty one. *)
Definition pixel_input (arr : ndarray) (fill : float) (i : nat) : float :=
  match arr with
  | [] => fill
  | _ => nth i arr NaN
  end.

(** The label that first-match-wins gives to pixel [i] of the four input
    arrays. *)
Definition input_label (indices : dict ndarray) (i : nat)
  : land_cover_label :=
  decide_label
    (pixel_input (get_default indices "ndvi" []) (Fin 0.5) i)
    (pixel_input (get_default indices "ndwi" []) (Fin 0.0) i)
    (pixel_input (get_default indices "mndwi" []) (Fin 0.0) i)
    (pixel_input (get_default indices "ndsi" []) (Fin 0.0) i).

(** The codes of the first [n] pixels. *)
Definition input_labels (indices : dict ndarray) (n : nat) : list nat :=
  map (fun i => label_code (input_label indices i)) (seq 0 n).

(** [n] is the common length: the length of the shortest non-empty input
    array. *)
Definition common_length (indices : dict ndarray) (n : nat) : Prop :=
  (0 < n)%nat
  /\ (forall k, In k stack_keys -> get_default indices k [] <> [] ->
        (n <= List.length (get_default indices k []))%nat)
  /\ exists k, In k stack_keys
               /\ List.length (get_default indices k []) = n.

(** The pixel count that the statistics report for a label: none for a
    label without entry. *)
Definition reported_count (a : Ndvi.analysis) (l : land_cover_label)
  : option nat :=
  option_map Ndvi.pixel_count
    (dict_get (Ndvi.land_cover_stats a) (label_name l)).

(** The example pixel ndsi = 0.5, ndvi = 0.8, ndwi = 0.5, with any mndwi. *)
Definition snow_pixel (mndwi : float) : dict ndarray :=
  [("ndvi", [Fin 0.8]); ("ndwi", [Fin 0.5]); ("mndwi", [mndwi]);
   ("ndsi", [Fin 0.5])]%string.

(** The per-pixel labels of the health zones, for arrays of one length. *)
Definition crop_labels (healthy_ndvi : float) (ndvi ndwi : ndarray)
  : list string :=
  zip_with (Hyperspectral.classify_crop_health healthy_ndvi) ndvi ndwi.

Definition soil_labels (ndvi ndsi : ndarray) : list string :=
  zip_with Hyperspectral.classify_soil_health ndvi ndsi.

Definition count_label (labels : list string) (k : string) : nat :=
  count_occ string_dec labels k.

(** A zone report is the histogram of its labels. *)
Definition is_histogram (r : Hyperspectral.zone_report) : Prop :=
  NoDup (dict_keys (Hyperspectral.statistics r))
  /\ (forall k, get_default (Hyperspectral.statistics r) k 0%nat
                = count_label (Hyperspectral.classifications r) k)
  /\ (forall k, In k (dict_keys (Hyperspectral.statistics r))
                <-> In k (Hyperspectral.classifications r))
  /\ list_sum (map snd (Hyperspectral.statistics r))
     = List.length (Hyperspectral.classifications r).

(** The threshold that [analyze_health_zones] reads for a crop type. *)
Definition healthy_ndvi_of (crop_type : string) : float :=
  get_default Hyperspectral.crop_thresholds crop_type (Fin 0.7).

(** The three value arrays that [analyze_health_zones] reads. *)
Definition zone_inputs (indices : dict Hyperspectral.stats)
  : ndarray * ndarray * ndarray :=
  (Hyperspectral.entry_values indices "ndvi",
   Hyperspectral.entry_values indices "ndwi",
   Hyperspectral.entry_values indices "ndsi").

Definition sample_zone_indices : dict Hyperspectral.stats :=
  [("ndvi", Hyperspectral.mk_stats NaN NaN NaN NaN NaN
              [Fin 0.9; Fin 0.55; Fin 0.1]);
   ("ndwi", Hyperspectral.mk_stats NaN NaN NaN NaN NaN
              [Fin 0.5; Fin 0.25; Fin 0.0]);
   ("ndsi", Hyperspectral.mk_stats NaN NaN NaN NaN NaN
              [Fin 0.0; Fin 0.3; Fin 0.5])]%string.

Definition crop_statuses : list string :=
  ["excellent"; "good"; "moderate"; "poor"]%string.

Definition soil_statuses : list string :=
  ["healthy"; "moderate"; "degraded"]%string.

(** The width normalisation of [predict] on one row of an array with [n]
    columns: right-padding with 0.5 or truncation to [width] columns. *)
Definition normalize_row (width n : nat) (row : list float) : list float :=
  if (n <? width)%nat then row ++ repeat (Fin 0.5) (width - n)
  else if (width <? n)%nat then firstn width row
  else row.

(** A well-formed feature array and its rows as a 2-D array. *)
Definition rows_of (feats : RealModel.features) : nat * list (list float) :=
  match feats with
  | RealModel.Arr1 row => (List.length row, [row])
  | RealModel.Arr2 ncols rows => (ncols, rows)
  end.

Definition well_formed (feats : RealModel.features) : Prop :=
  Forall (fun row => List.length row = fst (rows_of feats))
         (snd (rows_of feats)).

(** The five outcomes of the cut points of [predict]. *)
Definition status_table : list (string * Z * string) :=
  [("Excellent", 95%Z, "High"); ("Good", 90%Z, "High");
   ("Moderate", 85%Z, "Medium"); ("Poor", 80%Z, "Medium");
   ("Critical", 75%Z, "Medium")]%string.

(** What [predict] returns for the list of per-row results. *)
Definition wrap_results (rs : list (dict RealModel.pyval))
  : RealModel.prediction :=
  match rs with
  | [r] => RealModel.Single r
  | _ => RealModel.Many rs
  end.

(** A per-row result of a successful prediction: the six keys, no [error]
    key, and a status, confidence and quality from one line of the table. *)
Definition result_shape (d : dict RealModel.pyval) : Prop :=
  dict_keys d = ["health_score"; "status"; "confidence"; "ndvi_value";
                 "model_type"; "prediction_quality"]%string
  /\ dict_get d "error" = None
  /\ exists s c q,
       In (s, c, q) status_table
       /\ dict_get d "status" = Some (RealModel.VStr s)
       /\ dict_get d "confidence" = Some (RealModel.VInt c)
       /\ dict_get d "prediction_quality" = Some (RealModel.VStr q).

(** What [predict] does with a trained ensemble once the array has its
    [ncols] normalised columns. *)
Definition predict_rows (self : RealModel.model_state)
  (m : RealModel.ensemble) (ncols : nat) (rows : RealModel.matrix)
  : result RealModel.prediction :=
  try_except
    (features_scaled <-
       match RealModel.scaler self with
       | Some transform => transform rows
       | None => Ok rows
       end ;;
     rf_pred <- RealModel.rf_model m features_scaled ;;
     gb_pred <- RealModel.gb_model m features_scaled ;;
     health_scores <-
       np_add (map (fmul (RealModel.weight_rf m)) rf_pred)
              (map (fmul (RealModel.weight_gb m)) gb_pred) ;;
     results <- RealModel.results_loop ncols rows health_scores ;;
     match results with
     | [r] => Ok (RealModel.Single r)
     | _ => Ok (RealModel.Many results)
     end)
    (fun e =>
       Ok (RealModel.Single
             [("error"%string, RealModel.VStr (exn_str e));
              ("health_score"%string, RealModel.VFloat (Fin 50.0));
              ("status"%string, RealModel.VStr "Unknown");
              ("confidence"%string, RealModel.VInt 50)])).

(** The library calls of [predict] accept the normalised array [rows]: the
    scaler and both regressors return, with one prediction per row. *)
Definition library_accepts (self : RealModel.model_state)
  (m : RealModel.ensemble) (rows : RealModel.matrix) : Prop :=
  exists scaled rf_pred gb_pred,
    match RealModel.scaler self with
    | Some transform => transform rows
    | None => Ok rows
    end = Ok scaled
    /\ RealModel.rf_model m scaled = Ok rf_pred
    /\ RealModel.gb_model m scaled = Ok gb_pred
    /\ List.length rf_pred = List.length rows
    /\ List.length gb_pred = List.length rows.

(** A trained state whose scaler is the identity and whose regressors
    answer 72 and 64 for every row. *)
Definition sample_model : RealModel.model_state :=
  RealModel.train_model (fun rows => Ok rows)
    (fun rows => Ok (map (fun _ => Fin 72) rows))
    (fun rows => Ok (map (fun _ => Fin 64) rows)) RealModel.init.

(** ** Proofs *)

(** ** Basic facts *)

Lemma Qlt_bool_iff (x y : Q) : Qlt_bool x y = true <-> x < y.
Proof.
  unfold Qlt_bool. rewrite negb_true_iff. split.
  - intros H. apply Qnot_le_lt. intros Hle.
    apply Qle_bool_iff in Hle. congruence.
  - intros H. destruct (Qle_bool y x) eqn:E; [|reflexivity].
    apply Qle_bool_iff in E. exfalso. exact (Qlt_not_le _ _ H E).
Qed.

Lemma Qlt_bool_false (x y : Q) : Qlt_bool x y = false <-> y <= x.
Proof.
  unfold Qlt_bool. rewrite negb_false_iff. apply Qle_bool_iff.
Qed.

Lemma Qle_bool_false (x y : Q) : Qle_bool x y = false <-> y < x.
Proof.
  split.
  - intros H. apply Qnot_le_lt. intros Hle.
    apply Qle_bool_iff in Hle. congruence.
  - intros H. destruct (Qle_bool x y) eqn:E; [|reflexivity].
    apply Qle_bool_iff in E. exfalso. exact (Qlt_not_le _ _ H E).
Qed.

Lemma Qeq_bool_false (x y : Q) : Qeq_bool x y = false <-> ~ x == y.
Proof.
  split.
  - apply Qeq_bool_neq.
  - intros H. destruct (Qeq_bool x y) eqn:E; [|reflexivity].
    apply Qeq_bool_iff in E. contradiction.
Qed.

Lemma zip_with_length {A B C : Type} (f : A -> B -> C) (l : list A)
  (m : list B) :
  List.length l = List.length m ->
  List.length (zip_with f l m) = List.length l.
Proof.
  revert m. induction l as [|x l IH]; intros [|y m] H; simpl in *;
    try discriminate; auto.
Qed.

Lemma nth_error_zip_with {A B C : Type} (f : A -> B -> C) (l : list A)
  (m : list B) (i : nat) :
  nth_error (zip_with f l m) i =
  match nth_error l i, nth_error m i with
  | Some x, Some y => Some (f x y)
  | _, _ => None
  end.
Proof.
  revert m i. induction l as [|x l IH]; intros [|y m] [|i]; simpl;
    try reflexivity;
    first [ apply IH | destruct (nth_error l i); reflexivity ].
Qed.

Lemma np_binop_same_length (f : float -> float -> float) (a b : ndarray) :
  List.length a = List.length b -> np_binop f a b = Ok (zip_with f a b).
Proof.
  intros H. unfold np_binop. rewrite H, Nat.eqb_refl. reflexivity.
Qed.

Lemma np_min_nonempty (a : ndarray) :
  a <> [] -> exists v, np_min a = Ok v.
Proof. destruct a; [congruence|]. intros _. simpl. eauto. Qed.

Lemma np_max_nonempty (a : ndarray) :
  a <> [] -> exists v, np_max a = Ok v.
Proof. destruct a; [congruence|]. intros _. simpl. eauto. Qed.

Lemma length_nonempty {A : Type} (l : list A) :
  (0 < List.length l)%nat -> l <> [].
Proof. destruct l; simpl; [lia|congruence]. Qed.

(** *** The standalone index functions, pixel by pixel *)

Lemma nd_zip (a b : ndarray) :
  List.length a = List.length b ->
  np_clip
    (zip_with fdiv (zip_with fsub a b)
       (map (fun d => if feqb d (Fin 0) then Fin 1e-10 else d)
            (zip_with fadd a b)))
    (Fin (-1)) (Fin 1)
  = zip_with nd_pixel a b.
Proof.
  unfold np_clip. revert b.
  induction a as [|x a IH]; intros [|y b] H; try discriminate H;
    try reflexivity.
  cbn [zip_with map]. f_equal. apply IH. now injection H.
Qed.

Lemma normalized_difference_ok (a b : ndarray) :
  List.length a = List.length b -> a <> [] ->
  Ndvi.normalized_difference a b = Ok (zip_with nd_pixel a b).
Proof.
  intros Hlen Hne. unfold Ndvi.normalized_difference, np_add, np_sub, np_div.
  rewrite (np_binop_same_length fadd) by assumption. cbn [bind].
  rewrite (np_binop_same_length fsub) by assumption. cbn [bind].
  rewrite np_binop_same_length
    by (rewrite length_map, !zip_with_length; auto).
  cbn [bind]. rewrite nd_zip by assumption.
  assert (Hz : zip_with nd_pixel a b <> []).
  { destruct a; [congruence|]. destruct b; [discriminate|]. simpl. congruence. }
  destruct (np_min_nonempty _ Hz) as [v1 ->].
  destruct (np_max_nonempty _ Hz) as [v2 ->]. reflexivity.
Qed.

Lemma guarded_nd_ok (a b : ndarray) :
  List.length a = List.length b ->
  Ndvi.guarded (Ndvi.normalized_difference a b) = Ok (zip_with nd_pixel a b).
Proof.
  intros Hlen. destruct a as [|x a].
  - destruct b; [|discriminate]. reflexivity.
  - rewrite normalized_difference_ok by (auto; congruence). reflexivity.
Qed.

(** An empty operand on either side: whatever the other one is, the body
    raises (broadcast mismatch, or the reduction of a zero-size array) and
    the handler returns an empty array. *)
Lemma guarded_nd_empty_l (b : ndarray) :
  Ndvi.guarded (Ndvi.normalized_difference [] b) = Ok [].
Proof. destruct b as [|y [|z b]]; reflexivity. Qed.

Lemma guarded_nd_empty_r (a : ndarray) :
  Ndvi.guarded (Ndvi.normalized_difference a []) = Ok [].
Proof. destruct a as [|y [|z a]]; reflexivity. Qed.

(** *** Clamping *)

Lemma clip1_fin (z : Q) :
  clip1 (Fin (-1)) (Fin 1) (Fin z) =
  if Qlt_bool z (-1) then Fin (-1)
  else if Qlt_bool 1 z then Fin 1 else Fin z.
Proof. reflexivity. Qed.

Lemma clip1_in_range (x : float) :
  x <> NaN -> finite_in (-1) 1 (clip1 (Fin (-1)) (Fin 1) x).
Proof.
  destruct x as [z| | |]; intros H; try congruence.
  - rewrite clip1_fin.
    destruct (Qlt_bool z (-1)) eqn:E1; [simpl; lra|].
    destruct (Qlt_bool 1 z) eqn:E2; [simpl; lra|].
    apply Qlt_bool_false in E1, E2. simpl. lra.
  - simpl. lra.
  - simpl. lra.
Qed.

Lemma clip1_zero_iff (z : Q) :
  same_float (clip1 (Fin (-1)) (Fin 1) (Fin z)) (Fin 0) <-> z == 0.
Proof.
  rewrite clip1_fin.
  destruct (Qlt_bool z (-1)) eqn:E1.
  - apply Qlt_bool_iff in E1. simpl. split; intros H; lra.
  - destruct (Qlt_bool 1 z) eqn:E2.
    + apply Qlt_bool_iff in E2. simpl. split; intros H; lra.
    + simpl. reflexivity.
Qed.

Lemma same_float_zero (x : float) :
  same_float x (Fin 0) <-> exists q, x = Fin q /\ q == 0.
Proof.
  destruct x as [q| | |]; simpl; split; try tauto.
  - intros H. exists q. auto.
  - intros [q' [E H]]. injection E as ->. exact H.
  - intros [q' [E _]]. discriminate.
  - intros [q' [E _]]. discriminate.
  - intros [q' [E _]]. discriminate.
Qed.

(** The sum of two floats is zero only for two opposite finite values. *)
Lemma fadd_zero (x y : float) :
  same_float (fadd x y) (Fin 0) ->
  exists a b, x = Fin a /\ y = Fin b /\ a + b == 0.
Proof.
  destruct x as [a| | |], y as [b| | |]; simpl; try tauto.
  intros H. exists a, b. auto.
Qed.

Lemma Qdiv_eps (c : Q) : c / 1e-10 == c * 10000000000.
Proof. unfold Qdiv. apply Qmult_comp; reflexivity. Qed.

(** *** The hyperspectral computation, pixel by pixel *)

Lemma where_zip (p m : ndarray) :
  List.length p = List.length m ->
  Hyperspectral.np_where_nonzero (zip_with fadd p m)
    (zip_with fdiv (zip_with fsub p m) (zip_with fadd p m))
  = zip_with where_pixel p m.
Proof.
  unfold Hyperspectral.np_where_nonzero. revert m.
  induction p as [|x p IH]; intros [|y m] H; try discriminate H;
    try reflexivity.
  cbn [zip_with]. f_equal. apply IH. now injection H.
Qed.

Lemma index_where_ok (p m : ndarray) :
  List.length p = List.length m ->
  Hyperspectral.index_where p m = Ok (zip_with where_pixel p m).
Proof.
  intros H. unfold Hyperspectral.index_where, np_add, np_sub, np_div.
  rewrite !(np_binop_same_length fadd) by assumption. cbn [bind].
  rewrite (np_binop_same_length fsub) by assumption. cbn [bind].
  rewrite np_binop_same_length by (rewrite !zip_with_length; auto).
  cbn [bind]. rewrite where_zip by assumption. reflexivity.
Qed.

Lemma where_pixel_zero (x y : float) :
  same_float (fadd x y) (Fin 0) -> where_pixel x y = Fin 0.
Proof.
  intros H. apply fadd_zero in H as [a [b [-> [-> H]]]].
  unfold where_pixel, fneb. cbn [fadd feqb].
  apply Qeq_bool_iff in H. rewrite H. reflexivity.
Qed.

Lemma where_pixel_nonzero (x y : float) :
  fneb (fadd x y) (Fin 0) = true ->
  where_pixel x y = fdiv (fsub x y) (fadd x y).
Proof. intros H. unfold where_pixel. rewrite H. reflexivity. Qed.

Lemma zero_where_sum_zero_zip (p m : ndarray) :
  zero_where_sum_zero p m (zip_with where_pixel p m).
Proof.
  intros i x y Hx Hy H0. rewrite nth_error_zip_with, Hx, Hy.
  rewrite where_pixel_zero by assumption. exists (Fin 0). split; auto.
  simpl. reflexivity.
Qed.

Section AnalyzerFacts.

Variable np_std : ndarray -> float.
Variable np_median : ndarray -> float.

Lemma get_stats_ok (vals : ndarray) :
  vals <> [] ->
  exists s, Hyperspectral.get_stats np_std np_median vals = Ok s
            /\ Hyperspectral.values s = vals.
Proof.
  intros H. unfold Hyperspectral.get_stats.
  destruct (np_min_nonempty _ H) as [v1 ->].
  destruct (np_max_nonempty _ H) as [v2 ->]. cbn [bind].
  eexists. split; reflexivity.
Qed.

Lemma zip_with_nonempty {A B C : Type} (f : A -> B -> C) (l : list A)
  (m : list B) :
  List.length l = List.length m -> (0 < List.length l)%nat ->
  zip_with f l m <> [].
Proof.
  destruct l, m; simpl; intros; try lia; try discriminate.
Qed.

(** With four bands of one positive length and no [real_ndvi] override the
    analyzer returns its five entries, each holding the pointwise array. *)
Lemma calculate_spectral_indices_ok
  (data : dict ndarray) (red green nir swir : ndarray) (n : nat) :
  get_default data "red" [] = red ->
  get_default data "green" [] = green ->
  get_default data "nir" [] = nir ->
  get_default data "swir" [] = swir ->
  (0 < n)%nat ->
  List.length red = n -> List.length green = n ->
  List.length nir = n -> List.length swir = n ->
  exists d,
    Hyperspectral.calculate_spectral_indices np_std np_median data None = Ok d
    /\ dict_keys d = ["ndvi"; "ndwi"; "mndwi"; "ndsi"; "red_edge_ndvi"]%string
    /\ values_of d "ndvi" = Some (zip_with where_pixel nir red)
    /\ values_of d "ndwi" = Some (zip_with where_pixel nir swir)
    /\ values_of d "mndwi" = Some (zip_with where_pixel green swir)
    /\ values_of d "ndsi" = Some (zip_with where_pixel swir green)
    /\ values_of d "red_edge_ndvi" =
       Some (zip_with where_pixel (np_scale nir (Fin 1.1))
                                  (np_scale red (Fin 0.9))).
Proof.
  intros Hr Hg Hn Hs Hpos Lr Lg Ln Ls.
  unfold Hyperspectral.calculate_spectral_indices,
    Hyperspectral.calculate_spectral_indices_body.
  rewrite Hr, Hg, Hn, Hs.
  replace ((List.length red =? 0)%nat || (List.length nir =? 0)%nat)
    with false
    by (symmetry; apply orb_false_iff; split; apply Nat.eqb_neq; lia).
  rewrite !index_where_ok
    by (unfold np_scale; rewrite ?length_map; congruence).
  cbn [bind].
  destruct (get_stats_ok (zip_with where_pixel nir red)) as [s1 [-> V1]];
    [apply zip_with_nonempty; lia|].
  destruct (get_stats_ok (zip_with where_pixel nir swir)) as [s2 [-> V2]];
    [apply zip_with_nonempty; lia|].
  destruct (get_stats_ok (zip_with where_pixel green swir)) as [s3 [-> V3]];
    [apply zip_with_nonempty; lia|].
  destruct (get_stats_ok (zip_with where_pixel swir green)) as [s4 [-> V4]];
    [apply zip_with_nonempty; lia|].
  destruct (get_stats_ok
              (zip_with where_pixel (np_scale nir (Fin 1.1))
                 (np_scale red (Fin 0.9)))) as [s5 [-> V5]];
    [apply zip_with_nonempty; unfold np_scale; rewrite ?length_map; lia|].
  cbn [bind try_except]. eexists. split; [reflexivity|].
  unfold values_of. cbn. rewrite V1, V2, V3, V4, V5. repeat split.
Qed.

(** Without red or without nir the analyzer raises inside its [try] and
    the handler returns the empty mapping. *)
Lemma calculate_spectral_indices_insufficient
  (data : dict ndarray) (real_ndvi : option float) :
  get_default data "red" [] = [] \/ get_default data "nir" [] = [] ->
  Hyperspectral.calculate_spectral_indices np_std np_median data real_ndvi
  = Ok [].
Proof.
  intros H. unfold Hyperspectral.calculate_spectral_indices,
    Hyperspectral.calculate_spectral_indices_body.
  destruct H as [-> | ->].
  - reflexivity.
  - rewrite orb_true_r. reflexivity.
Qed.

End AnalyzerFacts.

(** *** Pointwise facts about the two index formulas *)

Lemma Forall_zip_with {A B C : Type} (P : A -> Prop) (Q : B -> Prop)
  (R : C -> Prop) (f : A -> B -> C) (l : list A) (m : list B) :
  (forall x y, P x -> Q y -> R (f x y)) ->
  Forall P l -> Forall Q m -> Forall R (zip_with f l m).
Proof.
  intros Hf Hl. revert m. induction Hl as [|x l Hx Hl IH]; intros m Hm.
  - constructor.
  - destruct Hm as [|y m Hy Hm]; simpl; constructor; auto.
Qed.

Lemma nd_pixel_in_range (x y : float) :
  is_finite x = true -> is_finite y = true ->
  finite_in (-1) 1 (nd_pixel x y).
Proof.
  destruct x as [a| | |], y as [b| | |]; try discriminate. intros _ _.
  unfold nd_pixel. apply clip1_in_range.
  cbn [fadd fsub fopp feqb].
  destruct (Qeq_bool (a + b) 0) eqn:E.
  - cbn [fdiv]. change (Qeq_bool 1e-10 0) with false. discriminate.
  - cbn [fdiv]. rewrite E. discriminate.
Qed.

Lemma nd_pixel_at_zero (a b : Q) :
  a + b == 0 ->
  nd_pixel (Fin a) (Fin b)
  = clip1 (Fin (-1)) (Fin 1) (fdiv (fsub (Fin a) (Fin b)) (Fin 1e-10)).
Proof.
  intros H. unfold nd_pixel. cbn [fadd feqb].
  apply Qeq_bool_iff in H. rewrite H. reflexivity.
Qed.

Lemma nd_pixel_nonzero (x y : float) :
  feqb (fadd x y) (Fin 0) = false ->
  nd_pixel x y = clip1 (Fin (-1)) (Fin 1) (fdiv (fsub x y) (fadd x y)).
Proof. intros H. unfold nd_pixel. cbv zeta. rewrite H. reflexivity. Qed.

Lemma where_pixel_nonneg (x y : float) :
  (exists a, x = Fin a /\ 0 <= a) -> (exists b, y = Fin b /\ 0 <= b) ->
  finite_in (-1) 1 (where_pixel x y).
Proof.
  intros [a [-> Ha]] [b [-> Hb]]. unfold where_pixel, fneb.
  cbn [fadd feqb]. destruct (Qeq_bool (a + b) 0) eqn:E; cbn [negb].
  - simpl. lra.
  - cbn [fsub fopp fadd fdiv]. rewrite E. cbn [finite_in].
    apply Qeq_bool_false in E.
    assert (Hpos : 0 < a + b).
    { destruct (Qlt_le_dec 0 (a + b)) as [H|H]; [exact H|].
      exfalso. apply E. lra. }
    split.
    + apply Qle_shift_div_l; [exact Hpos | lra].
    + apply Qle_shift_div_r; [exact Hpos | lra].
Qed.

Lemma where_pixel_positive (s g : Q) :
  g < s -> 0 < s + g ->
  exists q, where_pixel (Fin s) (Fin g) = Fin q /\ 0 < q.
Proof.
  intros Hgs Hpos. unfold where_pixel, fneb. cbn [fadd feqb].
  assert (E : Qeq_bool (s + g) 0 = false) by (apply Qeq_bool_false; lra).
  rewrite E. cbn [negb fsub fopp fadd fdiv]. rewrite E.
  eexists. split; [reflexivity|].
  apply Qlt_shift_div_l; [exact Hpos | lra].
Qed.

Lemma np_scale_nonneg (a : ndarray) (c : Q) :
  0 <= c -> all_nonneg a -> all_nonneg (np_scale a (Fin c)).
Proof.
  intros Hc H. unfold all_nonneg, np_scale. apply Forall_map.
  eapply Forall_impl; [|exact H]. intros x [q [-> Hq]].
  exists (q * c). split; [reflexivity|]. apply Qmult_le_0_compat; assumption.
Qed.

Lemma guarded_nd_epsilon :
  epsilon_at_zero_denominator
    (fun p m => Ndvi.guarded (Ndvi.normalized_difference p m)).
Proof.
  intros p m Hlen. exists (zip_with nd_pixel p m).
  split; [apply guarded_nd_ok; assumption|].
  intros i x y Hx Hy H0. rewrite nth_error_zip_with, Hx, Hy.
  eexists. split; [reflexivity|].
  destruct (fadd_zero _ _ H0) as [a [b [-> [-> Hab]]]].
  rewrite nd_pixel_at_zero by assumption. split; [reflexivity|].
  cbn [fsub fopp fadd fdiv]. change (Qeq_bool 1e-10 0) with false.
  cbv iota. rewrite clip1_zero_iff, Qdiv_eps. cbn [same_float].
  split; intros H; lra.
Qed.

Lemma guarded_nd_clamps :
  clamps_to_unit_range
    (fun p m => Ndvi.guarded (Ndvi.normalized_difference p m)).
Proof.
  intros p m Hlen Hp Hm. exists (zip_with nd_pixel p m).
  split; [apply guarded_nd_ok; assumption|].
  split; [apply zip_with_length; assumption|].
  unfold in_unit_range.
  eapply Forall_zip_with; [|exact Hp|exact Hm].
  intros x y Hx Hy. apply nd_pixel_in_range; assumption.
Qed.

(** ** The index engine: claims C1, C2, C3 and C7 *)

(** C1, as stated, fails for the standalone NDVI: with red = -0.5 and
    nir = 0.5 the denominator is exactly zero, the guard replaces it by
    1e-10, the quotient 1 / 1e-10 is clipped, and the output element is 1. *)
Lemma C1_counterexample :
  ~ zero_at_zero_denominator (fun nir red => Ndvi.calculate_ndvi red nir).
Proof.
  intros H.
  destruct (H [Fin 0.5] [Fin (-0.5)] [Fin 1] 0%nat (Fin 0.5) (Fin (-0.5)))
    as [o [Ho Hz]]; try reflexivity.
  injection Ho as <-. simpl in Hz. discriminate Hz.
Qed.

(** C1 (amended).  At every pixel whose denominator is exactly zero: the
    hyperspectral computation (NDVI, NDWI, MNDWI, NDSI, Red-Edge-NDVI)
    outputs 0; the standalone functions output the clamp to [-1, 1] of
    numerator / 1e-10, which is 0 exactly when the numerator is 0 as well,
    so that NDVI(red=0, nir=0) = 0. *)
Theorem C1_zero_denominator
  (np_std np_median : ndarray -> float) (data : dict ndarray)
  (red green nir swir : ndarray) (n : nat) :
  get_default data "red" [] = red ->
  get_default data "green" [] = green ->
  get_default data "nir" [] = nir ->
  get_default data "swir" [] = swir ->
  (0 < n)%nat ->
  List.length red = n -> List.length green = n ->
  List.length nir = n -> List.length swir = n ->
  hyperspectral_zero_policy np_std np_median data red green nir swir
  /\ standalone_epsilon_policy.
Proof.
  intros Hr Hg Hn Hs Hpos Lr Lg Ln Ls. split.
  - destruct (calculate_spectral_indices_ok np_std np_median data
                red green nir swir n) as [d [Hd [_ [V1 [V2 [V3 [V4 V5]]]]]]];
      try assumption.
    exists d. do 5 eexists.
    repeat (split; [eassumption|]).
    repeat split; apply zero_where_sum_zero_zip.
  - repeat split; try exact guarded_nd_epsilon.
Qed.

Lemma C1_zero_denominator_witness :
  hyperspectral_zero_policy (fun _ => NaN) (fun _ => NaN) sample_bands
    [Fin 0.5; Fin 0; Fin 0.05] [Fin 0.25; Fin 0; Fin 0.07]
    [Fin (-0.5); Fin 0; Fin 0.65] [Fin (-0.25); Fin 0; Fin 0.1]
  /\ standalone_epsilon_policy.
Proof.
  apply (C1_zero_denominator (fun _ => NaN) (fun _ => NaN) sample_bands
           _ _ _ _ 3); try reflexivity; lia.
Defined.

(** C2, as stated, fails for the hyperspectral computation, which has no
    clamp: the finite bands red = -1, nir = 2 give NDVI = (2+1)/(2-1) = 3. *)
Lemma C2_counterexample :
  exists d,
    Hyperspectral.calculate_spectral_indices (fun _ => NaN) (fun _ => NaN)
      unclamped_bands None = Ok d
    /\ Forall all_finite (map snd unclamped_bands)
    /\ values_of d "ndvi" = Some [Fin 3]
    /\ ~ in_unit_range [Fin 3].
Proof.
  eexists. split; [reflexivity|]. split.
  - repeat constructor.
  - split; [reflexivity|]. intros H. inversion H as [|x l Hx _]; subst.
    destruct Hx as [_ Hle]. revert Hle. unfold Qle. simpl. lia.
Qed.

(** C2 (amended).  For equal-length, elementwise finite band arrays every
    output element of the standalone functions (NDVI, NDWI, MNDWI, NDSI) is
    a finite value in [-1, 1], by their clamp.  The hyperspectral
    computation does not clamp: each of its five outputs is, pixel by
    pixel, the unclamped formula value (p - m) / (p + m), or 0 where p + m
    is 0.  These values are finite and in [-1, 1] when the band values are
    non-negative and at most 1e300, so that no sum or product overflows. *)
Theorem C2_unit_range
  (np_std np_median : ndarray -> float) (data : dict ndarray)
  (red green nir swir : ndarray) (n : nat) :
  get_default data "red" [] = red ->
  get_default data "green" [] = green ->
  get_default data "nir" [] = nir ->
  get_default data "swir" [] = swir ->
  (0 < n)%nat ->
  List.length red = n -> List.length green = n ->
  List.length nir = n -> List.length swir = n ->
  standalone_clamp
  /\ hyperspectral_unclamped np_std np_median data red green nir swir
  /\ (all_moderate red -> all_moderate green ->
      all_moderate nir -> all_moderate swir ->
      hyperspectral_in_unit_range np_std np_median data n).
Proof.
  intros Hr Hg Hn Hs Hpos Lr Lg Ln Ls.
  destruct (calculate_spectral_indices_ok np_std np_median data
              red green nir swir n)
    as [d [Hd [Hk [V1 [V2 [V3 [V4 V5]]]]]]]; try assumption.
  split; [repeat split; exact guarded_nd_clamps|]. split.
  - exists d. repeat split; assumption.
  - intros Mr Mg Mn Ms.
    assert (Hnn : forall a, all_moderate a -> all_nonneg a).
    { intros a Ha. unfold all_moderate in Ha. unfold all_nonneg.
      eapply Forall_impl; [|exact Ha]. intros [q| | |] Hq; try contradiction.
      exists q. split; [reflexivity | exact (proj1 Hq)]. }
    apply Hnn in Mr, Mg, Mn, Ms.
    exists d. split; [exact Hd|]. split; [exact Hk|].
    assert (Hz : forall p m, List.length p = n -> List.length m = n ->
                   all_nonneg p -> all_nonneg m ->
                   List.length (zip_with where_pixel p m) = n
                   /\ in_unit_range (zip_with where_pixel p m)).
    { intros p m Lp Lm Np Nm. split.
      - rewrite zip_with_length; congruence.
      - unfold in_unit_range. eapply Forall_zip_with; [|exact Np|exact Nm].
        intros x y Hx Hy. apply where_pixel_nonneg; assumption. }
    intros name Hin. rewrite Hk in Hin.
    assert (Hq1 : 0 <= 1.1) by (unfold Qle; simpl; lia).
    assert (Hq2 : 0 <= 0.9) by (unfold Qle; simpl; lia).
    simpl in Hin.
    destruct Hin as [<-|[<-|[<-|[<-|[<-|[]]]]]]; eexists;
      (split; [eassumption|]); apply Hz; auto;
      try (unfold np_scale; rewrite length_map; assumption);
      apply np_scale_nonneg; assumption.
Qed.

Lemma all_moderate_intro (l : list Q) :
  forallb (fun q => Qle_bool 0 q && Qle_bool q 1e300) l = true ->
  all_moderate (map Fin l).
Proof.
  induction l as [|q l IH]; simpl; intros H; constructor.
  - apply andb_true_iff in H as [H _]. apply andb_true_iff in H as [H1 H2].
    split; apply Qle_bool_iff; assumption.
  - apply andb_true_iff in H as [_ H]. apply IH. exact H.
Qed.

Lemma C2_unit_range_witness :
  standalone_clamp
  /\ hyperspectral_in_unit_range (fun _ => NaN) (fun _ => NaN)
       physical_bands 2.
Proof.
  destruct (C2_unit_range (fun _ => NaN) (fun _ => NaN) physical_bands
              (map Fin [0.05; 0.06]) (map Fin [0.07; 0.08])
              (map Fin [0.6; 0.7]) (map Fin [0.1; 0.12]) 2
              eq_refl eq_refl eq_refl eq_refl
              (le_S 1 1 (le_n 1)) eq_refl eq_refl eq_refl eq_refl)
    as [Hs [_ Hh]].
  split; [exact Hs|].
  apply Hh; apply all_moderate_intro; reflexivity.
Defined.

(** C3, as stated, fails for the standalone [calculate_ndsi], which follows
    its docstring NDSI = (GREEN - SWIR) / (GREEN + SWIR): green = 0.25 and
    swir = 0.75 give -0.5, a negative value although swir exceeds green. *)
Lemma C3_counterexample :
  ~ computes_swir_minus_green
      (fun swir green => Ndvi.calculate_ndsi green swir).
Proof.
  intros H.
  destruct (H [Fin 0.75] [Fin 0.25]) as [out [Hout Hpix]];
    [reflexivity| |].
  - intros [|i] s g Hs Hg; simpl in Hs, Hg.
    + injection Hs as <-. injection Hg as <-. reflexivity.
    + destruct i; discriminate.
  - destruct (Hpix 0%nat (Fin 0.75) (Fin 0.25) eq_refl eq_refl)
      as [o [Ho Hsame]].
    vm_compute in Hout. injection Hout as <-.
    injection Ho as <-. vm_compute in Hsame. discriminate Hsame.
Qed.

(** C3 (amended).  For equal-length swir and green arrays with nonzero
    elementwise sums, the NDSI of the hyperspectral computation is
    (swir - green) / (swir + green) at each pixel, positive where swir
    exceeds green, the sum is positive and both values have a magnitude of
    at most 1e300 (so that the sum does not overflow); the standalone
    [calculate_ndsi(green, swir)] computes the opposite convention
    (green - swir) / (green + swir), clamped to [-1, 1]. *)
Theorem C3_ndsi_formula
  (np_std np_median : ndarray -> float) (data : dict ndarray)
  (red green nir swir : ndarray) (n : nat) :
  get_default data "red" [] = red ->
  get_default data "green" [] = green ->
  get_default data "nir" [] = nir ->
  get_default data "swir" [] = swir ->
  (0 < n)%nat ->
  List.length red = n -> List.length green = n ->
  List.length nir = n -> List.length swir = n ->
  ndsi_conventions np_std np_median data green swir.
Proof.
  intros Hr Hg Hn Hs Hpos Lr Lg Ln Ls. split.
  - destruct (calculate_spectral_indices_ok np_std np_median data
                red green nir swir n)
      as [d [Hd [_ [_ [_ [_ [V4 _]]]]]]]; try assumption.
    exists d, (zip_with where_pixel swir green).
    split; [exact Hd|]. split; [exact V4|]. split.
    + intros i s g Hsi Hgi Hne. rewrite nth_error_zip_with, Hsi, Hgi.
      rewrite where_pixel_nonzero by assumption. reflexivity.
    + intros i s g Hsi Hgi _ _ Hlt Hsum.
      rewrite nth_error_zip_with, Hsi, Hgi.
      destruct (where_pixel_positive s g Hlt Hsum) as [q [-> Hq]].
      exists q. split; [reflexivity | exact Hq].
  - exists (zip_with nd_pixel green swir). split.
    + apply guarded_nd_ok. congruence.
    + intros i s g Hsi Hgi Hne. rewrite nth_error_zip_with, Hgi, Hsi.
      rewrite nd_pixel_nonzero by assumption. reflexivity.
Qed.

Lemma C3_ndsi_formula_witness :
  ndsi_conventions (fun _ => NaN) (fun _ => NaN) physical_bands
    [Fin 0.07; Fin 0.08] [Fin 0.1; Fin 0.12].
Proof.
  apply (C3_ndsi_formula (fun _ => NaN) (fun _ => NaN) physical_bands
           [Fin 0.05; Fin 0.06] _ [Fin 0.6; Fin 0.7] _ 2);
    try reflexivity; lia.
Defined.

(** C7, as stated, fails: with both bands empty [calculate_ndvi] returns an
    empty array; nothing is raised and no failure kind is signalled. *)
Lemma C7_counterexample :
  Ndvi.calculate_ndvi [] [] = Ok []
  /\ ~ signals_failure (Ndvi.calculate_ndvi [] []).
Proof.
  split; [reflexivity|]. intros [e H]. discriminate H.
Qed.

(** C7 (amended).  When a required band array is empty, a standalone index
    function returns an empty array and the hyperspectral computation
    returns an empty mapping; neither raises, and no failure kind exists. *)
Theorem C7_empty_bands :
  (forall a b,
     a = [] \/ b = [] ->
     Ndvi.calculate_ndvi a b = Ok [] /\ Ndvi.calculate_ndwi a b = Ok []
     /\ Ndvi.calculate_mndwi a b = Ok [] /\ Ndvi.calculate_ndsi a b = Ok [])
  /\ (forall np_std np_median data real_ndvi,
        get_default data "red" [] = [] \/ get_default data "nir" [] = [] ->
        Hyperspectral.calculate_spectral_indices np_std np_median data
          real_ndvi = Ok [])
  /\ (forall f a b,
        In f [Ndvi.calculate_ndvi; Ndvi.calculate_ndwi;
              Ndvi.calculate_mndwi; Ndvi.calculate_ndsi] ->
        ~ signals_failure (f a b)).
Proof.
  split; [|split].
  - intros a b [-> | ->]; repeat split;
      first [apply guarded_nd_empty_l | apply guarded_nd_empty_r].
  - intros. apply calculate_spectral_indices_insufficient. assumption.
  - intros f a b Hin [e He].
    assert (Hg : forall p m,
               Ndvi.guarded (Ndvi.normalized_difference p m) <> Raise e).
    { intros p m. unfold Ndvi.guarded, try_except.
      destruct (Ndvi.normalized_difference p m); discriminate. }
    simpl in Hin.
    destruct Hin as [<-|[<-|[<-|[<-|[]]]]]; exact (Hg _ _ He).
Qed.

Lemma C7_empty_bands_witness :
  Ndvi.calculate_ndvi [] [Fin 0.6; Fin 0.7] = Ok []
  /\ Hyperspectral.calculate_spectral_indices (fun _ => NaN) (fun _ => NaN)
       [("red"%string, []); ("nir"%string, [Fin 0.6])] None = Ok [].
Proof.
  split.
  - apply (proj1 C7_empty_bands [] [Fin 0.6; Fin 0.7]). left. reflexivity.
  - apply (proj1 (proj2 C7_empty_bands)). left. reflexivity.
Defined.

(** ** The land-cover classifier: claims C4 and C10 *)

Lemma classify_pixel_spec (ndvi ndwi mndwi ndsi : ndarray) (i : nat)
  (v w m s : float) :
  nth_error ndvi i = Some v -> nth_error ndwi i = Some w ->
  nth_error mndwi i = Some m -> nth_error ndsi i = Some s ->
  Ndvi.classify_pixel ndvi ndwi mndwi ndsi i
  = Ok (label_code (decide_label v w m s)).
Proof.
  intros Hv Hw Hm Hs. unfold Ndvi.classify_pixel, Ndvi.getitem, decide_label.
  rewrite Hs. cbn [bind]. destruct (fgt s (Fin 0.4)); [reflexivity|].
  rewrite Hm. cbn [bind]. destruct (fgt m (Fin 0.3)); cbn [bind orb].
  - reflexivity.
  - rewrite Hw. cbn [bind]. destruct (fgt w (Fin 0.3)); [reflexivity|].
    rewrite Hv. cbn [bind].
    destruct (fgt v (Fin 0.6)); [reflexivity|].
    destruct (fgt v (Fin 0.2)); [reflexivity|].
    destruct (flt v (Fin (-0.1))); reflexivity.
Qed.

Lemma decide_label_classified (v w m s : float) :
  In (decide_label v w m s) classified_labels.
Proof.
  unfold decide_label, classified_labels.
  destruct (fgt s (Fin 0.4)); [simpl; tauto|].
  destruct (fgt m (Fin 0.3) || fgt w (Fin 0.3)); [simpl; tauto|].
  destruct (fgt v (Fin 0.6)); [simpl; tauto|].
  destruct (fgt v (Fin 0.2)); [simpl; tauto|].
  destruct (flt v (Fin (-0.1))); simpl; tauto.
Qed.

Lemma setitem_ok {A : Type} (a : list A) (i : nat) (v : A) :
  (i < List.length a)%nat ->
  exists a',
    Ndvi.setitem a i v = Ok a'
    /\ List.length a' = List.length a
    /\ nth_error a' i = Some v
    /\ forall j, j <> i -> nth_error a' j = nth_error a j.
Proof.
  revert i. induction a as [|x a IH]; intros i Hi; simpl in Hi; [lia|].
  destruct i as [|i].
  - exists (v :: a). repeat split. intros [|j] Hj; [congruence|reflexivity].
  - destruct (IH i) as [a' [E [L [N O]]]]; [lia|].
    exists (x :: a'). cbn [Ndvi.setitem]. rewrite E. cbn [bind].
    repeat split; simpl; auto.
    intros [|j] Hj; [reflexivity|]. simpl. apply O. congruence.
Qed.

Section ClassifyLoop.

Variable s : Ndvi.index_stack.
Let n := Ndvi.st_length s.

Hypothesis Lndvi : List.length (Ndvi.st_ndvi s) = n.
Hypothesis Lndwi : List.length (Ndvi.st_ndwi s) = n.
Hypothesis Lmndwi : List.length (Ndvi.st_mndwi s) = n.
Hypothesis Lndsi : List.length (Ndvi.st_ndsi s) = n.

Lemma classify_pixel_in_range (i : nat) :
  (i < n)%nat ->
  Ndvi.classify_pixel (Ndvi.st_ndvi s) (Ndvi.st_ndwi s) (Ndvi.st_mndwi s)
    (Ndvi.st_ndsi s) i
  = Ok (label_code (pixel_label s i)).
Proof.
  intros Hi. apply classify_pixel_spec; apply nth_error_nth'; lia.
Qed.

(** The loop invariant: positions of the range hold their label, the other
    positions are untouched. *)
Lemma classify_loop_spec (range : list nat) :
  NoDup range -> (forall i, In i range -> (i < n)%nat) ->
  forall lc, List.length lc = n ->
  exists lc',
    Ndvi.classify_loop (Ndvi.st_ndvi s) (Ndvi.st_ndwi s) (Ndvi.st_mndwi s)
      (Ndvi.st_ndsi s) range lc = Ok lc'
    /\ List.length lc' = n
    /\ (forall i, In i range ->
          nth_error lc' i = Some (label_code (pixel_label s i)))
    /\ (forall i, ~ In i range -> nth_error lc' i = nth_error lc i).
Proof.
  induction range as [|i range IH]; intros Hnd Hlt lc Hlc.
  - exists lc. repeat split; auto. intros i [].
  - inversion Hnd as [|? ? Hnotin Hnd']; subst.
    cbn [Ndvi.classify_loop].
    rewrite classify_pixel_in_range by (apply Hlt; left; reflexivity).
    cbn [bind].
    destruct (setitem_ok lc i (label_code (pixel_label s i)))
      as [lc1 [E1 [L1 [N1 O1]]]].
    { rewrite Hlc. apply Hlt. left. reflexivity. }
    rewrite E1. cbn [bind].
    destruct (IH Hnd' (fun j Hj => Hlt j (or_intror Hj)) lc1)
      as [lc' [E [L [N O]]]]; [congruence|].
    exists lc'. split; [exact E|]. split; [exact L|]. split.
    + intros j [<-|Hj].
      * rewrite O by assumption. exact N1.
      * apply N. exact Hj.
    + intros j Hj. rewrite O by (intros H; apply Hj; right; exact H).
      apply O1. intros ->. apply Hj. left. reflexivity.
Qed.

Lemma classify_stack_ok :
  exists lc,
    Ndvi.classify_stack s = Ok lc
    /\ List.length lc = n
    /\ forall i, (i < n)%nat ->
         nth_error lc i = Some (label_code (pixel_label s i)).
Proof.
  unfold Ndvi.classify_stack.
  destruct (classify_loop_spec (seq 0 n)) with (lc := repeat 0%nat n)
    as [lc [E [L [N _]]]].
  - apply seq_NoDup.
  - intros i Hi. apply in_seq in Hi. lia.
  - apply repeat_length.
  - exists lc. split; [exact E|]. split; [exact L|].
    intros i Hi. apply N. apply in_seq. lia.
Qed.

End ClassifyLoop.

(** *** The common length *)

Lemma fold_min_spec (l : list nat) (x : nat) :
  (fold_left Nat.min l x <= x)%nat
  /\ (forall y, In y l -> (fold_left Nat.min l x <= y)%nat)
  /\ In (fold_left Nat.min l x) (x :: l).
Proof.
  revert x. induction l as [|y l IH]; intros x; cbn [fold_left].
  - split; [lia|]. split; [intros y []|]. left. reflexivity.
  - destruct (IH (Nat.min x y)) as [H1 [H2 H3]].
    split; [lia|]. split.
    + intros z [<-|Hz]; [lia|]. apply H2. exact Hz.
    + destruct H3 as [H3|H3]; [|right; right; exact H3].
      destruct (Nat.min_spec x y) as [[_ E]|[_ E]].
      * left. transitivity (Nat.min x y); [symmetry; exact E | exact H3].
      * right. left.
        transitivity (Nat.min x y); [symmetry; exact E | exact H3].
Qed.

Lemma py_min_list_spec (l : list nat) (m : nat) :
  Ndvi.py_min_list l = Ok m ->
  In m l /\ forall y, In y l -> (m <= y)%nat.
Proof.
  destruct l as [|x l]; [discriminate|]. simpl. intros H.
  injection H as <-. destruct (fold_min_spec l x) as [H1 [H2 H3]].
  split; [exact H3|]. intros y [<-|Hy]; auto.
Qed.

Lemma or_full_length (arrs : list ndarray) (m : nat) (arr : ndarray)
  (fill : float) :
  Ndvi.py_min_list
    (map (@List.length float)
       (filter (fun arr => (0 <? List.length arr)%nat) arrs)) = Ok m ->
  In arr arrs ->
  List.length (Ndvi.or_full arr m fill) = m.
Proof.
  intros Hm Hin. unfold Ndvi.or_full.
  destruct (0 <? List.length arr)%nat eqn:E.
  - rewrite length_firstn. apply py_min_list_spec in Hm as [_ Hle].
    assert (m <= List.length arr)%nat; [|lia].
    apply Hle. apply in_map. apply filter_In. split; assumption.
  - apply repeat_length.
Qed.

Lemma min_length_positive (arrs : list ndarray) (m : nat) :
  Ndvi.py_min_list
    (map (@List.length float)
       (filter (fun arr => (0 <? List.length arr)%nat) arrs)) = Ok m ->
  (0 < m)%nat.
Proof.
  intros Hm. apply py_min_list_spec in Hm as [Hin _].
  apply in_map_iff in Hin as [arr [<- Harr]].
  apply filter_In in Harr as [_ H]. apply Nat.ltb_lt. exact H.
Qed.

Lemma prepare_stack_lengths (indices : dict ndarray) (s : Ndvi.index_stack) :
  Ndvi.prepare_stack indices = Ok s ->
  (0 < Ndvi.st_length s)%nat
  /\ List.length (Ndvi.st_ndvi s) = Ndvi.st_length s
  /\ List.length (Ndvi.st_ndwi s) = Ndvi.st_length s
  /\ List.length (Ndvi.st_mndwi s) = Ndvi.st_length s
  /\ List.length (Ndvi.st_ndsi s) = Ndvi.st_length s.
Proof.
  unfold Ndvi.prepare_stack. cbv zeta.
  destruct (Ndvi.py_min_list _) as [m|e] eqn:Hm; [|discriminate].
  cbn [bind]. intros H. injection H as <-. cbn [Ndvi.st_length
    Ndvi.st_ndvi Ndvi.st_ndwi Ndvi.st_mndwi Ndvi.st_ndsi].
  split; [eapply min_length_positive; exact Hm|].
  repeat split; eapply or_full_length; try exact Hm; simpl; tauto.
Qed.

(** Some index array present and non-empty: the stack is prepared. *)
Lemma prepare_stack_total (indices : dict ndarray) :
  (exists k, In k ["ndvi"; "ndwi"; "mndwi"; "ndsi"]%string
             /\ get_default indices k [] <> []) ->
  exists s, Ndvi.prepare_stack indices = Ok s.
Proof.
  intros [k [Hk Hne]]. unfold Ndvi.prepare_stack. cbv zeta.
  destruct (Ndvi.py_min_list _) as [m|e] eqn:Hm.
  - cbn [bind]. eauto.
  - exfalso. unfold Ndvi.py_min_list in Hm.
    destruct (map _ _) as [|x l] eqn:E; [|discriminate].
    apply map_eq_nil in E.
    assert (Hin : In (get_default indices k [])
                     (filter (fun arr => (0 <? List.length arr)%nat)
                        [get_default indices "ndvi" [];
                         get_default indices "ndwi" [];
                         get_default indices "mndwi" [];
                         get_default indices "ndsi" []])).
    { apply filter_In. split.
      - simpl in Hk. simpl.
        destruct Hk as [<-|[<-|[<-|[<-|[]]]]]; tauto.
      - apply Nat.ltb_lt. destruct (get_default indices k []);
          [congruence|simpl; lia]. }
    rewrite E in Hin. exact Hin.
Qed.

(** *** The statistics loop *)

Lemma dict_set_keys {V : Type} (d : dict V) (k : string) (v : V) (k0 : string) :
  In k0 (dict_keys (dict_set d k v)) <-> k0 = k \/ In k0 (dict_keys d).
Proof.
  unfold dict_keys. induction d as [|[k' v'] d IH]; simpl.
  - intuition.
  - destruct (String.eqb k k') eqn:E; simpl.
    + apply String.eqb_eq in E. subst. intuition.
    + rewrite IH. intuition.
Qed.

Lemma stats_loop_spec (counts : list nat) (total : nat) (range : list nat) :
  (forall i, In i range -> (i < 7)%nat) -> List.length counts = 7%nat ->
  forall acc,
  exists out,
    Ndvi.stats_loop counts total range acc = Ok out
    /\ forall k, In k (dict_keys out) ->
         In k (dict_keys acc)
         \/ exists i c name color,
              In i range /\ nth_error counts i = Some c /\ (0 < c)%nat
              /\ Ndvi.map_getitem Ndvi.land_cover_map i = Ok (name, color)
              /\ k = name.
Proof.
  intros Hr Hc. induction range as [|i range IH]; intros acc.
  - exists acc. split; [reflexivity|]. auto.
  - cbn [Ndvi.stats_loop]. unfold Ndvi.getitem.
    assert (Hi : (i < 7)%nat) by (apply Hr; left; reflexivity).
    destruct (nth_error counts i) as [c|] eqn:Ec;
      [|apply nth_error_None in Ec; lia].
    cbn [bind].
    assert (IH' := IH (fun j Hj => Hr j (or_intror Hj))).
    destruct (0 <? c)%nat eqn:Epos.
    + assert (Hm : exists name color,
                 Ndvi.map_getitem Ndvi.land_cover_map i = Ok (name, color)).
      { do 7 (destruct i as [|i]; [simpl; eauto|]). lia. }
      destruct Hm as [name [color Hm]]. rewrite Hm. cbn [bind].
      destruct (IH' (dict_set acc name
                       (Ndvi.mk_cover_stat
                          (py_round
                             (fmul (fdiv (Ndvi.of_int (Z.of_nat c))
                                         (Ndvi.of_int (Z.of_nat total)))
                                   (Ndvi.of_int 100)) 1) c color)))
        as [out [E Hk]].
      exists out. split; [exact E|].
      intros k Hin. destruct (Hk k Hin) as [H|H].
      * apply dict_set_keys in H as [->|H]; [|left; exact H].
        right. exists i, c, name, color.
        repeat split; auto; [left; reflexivity | apply Nat.ltb_lt; exact Epos].
      * right. destruct H as [j [c' [n' [col' [Hj H]]]]].
        exists j, c', n', col'. split; [right; exact Hj | exact H].
    + destruct (IH' acc) as [out [E Hk]].
      exists out. split; [exact E|].
      intros k Hin. destruct (Hk k Hin) as [H|H]; [left; exact H|].
      right. destruct H as [j [c' [n' [col' [Hj H]]]]].
      exists j, c', n', col'. split; [right; exact Hj | exact H].
Qed.

Lemma np_bincount_small (a : list nat) :
  Forall (fun l => (l <= 6)%nat) a ->
  Ndvi.np_bincount a 7 = map (fun k => count_occ Nat.eq_dec a k) (seq 0 7).
Proof.
  intros H. unfold Ndvi.np_bincount.
  replace (Nat.max 7 match a with [] => 0 | _ => S (list_max a) end)%nat
    with 7%nat; [reflexivity|].
  destruct a as [|x a]; [reflexivity|].
  assert (list_max (x :: a) <= 6)%nat by (apply list_max_le; exact H).
  lia.
Qed.

Lemma label_map_agrees (l : land_cover_label) :
  exists color,
    Ndvi.map_getitem Ndvi.land_cover_map (label_code l)
    = Ok (label_name l, color).
Proof. destruct l; simpl; eauto. Qed.

Lemma classified_code_bounds (c : nat) :
  classified_code c -> (1 <= c <= 6)%nat.
Proof.
  intros [l [Hl ->]]. simpl in Hl.
  destruct Hl as [<-|[<-|[<-|[<-|[<-|[<-|[]]]]]]]; simpl; lia.
Qed.

Lemma classify_stack_labels (s : Ndvi.index_stack) :
  List.length (Ndvi.st_ndvi s) = Ndvi.st_length s ->
  List.length (Ndvi.st_ndwi s) = Ndvi.st_length s ->
  List.length (Ndvi.st_mndwi s) = Ndvi.st_length s ->
  List.length (Ndvi.st_ndsi s) = Ndvi.st_length s ->
  exists lc,
    Ndvi.classify_stack s = Ok lc
    /\ List.length lc = Ndvi.st_length s
    /\ Forall classified_code lc.
Proof.
  intros L1 L2 L3 L4.
  destruct (classify_stack_ok s L1 L2 L3 L4) as [lc [E [L N]]].
  exists lc. split; [exact E|]. split; [exact L|].
  apply Forall_forall. intros c Hc.
  apply In_nth_error in Hc as [i Hi].
  assert (Hlt : (i < Ndvi.st_length s)%nat).
  { rewrite <- L. apply nth_error_Some. congruence. }
  rewrite (N i Hlt) in Hi. injection Hi as <-.
  eexists. split; [apply decide_label_classified | reflexivity].
Qed.

(** The whole function on a prepared stack: it returns the aggregate
    result, and every key of the statistics names a label that occurs in
    the classified array. *)
Lemma create_index_stack_analysis_ok (indices : dict ndarray)
  (s : Ndvi.index_stack) :
  Ndvi.prepare_stack indices = Ok s ->
  exists lc stats,
    Ndvi.classify_stack s = Ok lc
    /\ List.length lc = Ndvi.st_length s
    /\ (0 < List.length lc)%nat
    /\ Forall classified_code lc
    /\ Ndvi.create_index_stack_analysis indices
       = Ok (Ndvi.Analysis
               (Ndvi.mk_analysis stats (List.length lc)
                  (Ndvi.dominant_of stats)))
    /\ forall k, In k (dict_keys stats) ->
         exists l, In (label_code l) lc /\ k = label_name l.
Proof.
  intros Hs.
  destruct (prepare_stack_lengths _ _ Hs) as [Hpos [L1 [L2 [L3 L4]]]].
  destruct (classify_stack_labels s L1 L2 L3 L4) as [lc [E [L F]]].
  assert (Hb : Ndvi.np_bincount lc 7
               = map (fun k => count_occ Nat.eq_dec lc k) (seq 0 7)).
  { apply np_bincount_small. eapply Forall_impl; [|exact F].
    intros c Hc. apply classified_code_bounds in Hc. lia. }
  destruct (stats_loop_spec (Ndvi.np_bincount lc 7) (List.length lc)
              (seq 0 7)) with (acc := @nil (string * Ndvi.cover_stat))
    as [out [Eo Hk]].
  { intros i Hi. apply in_seq in Hi. lia. }
  { rewrite Hb. reflexivity. }
  exists lc, out. split; [exact E|]. split; [exact L|].
  split; [lia|]. split; [exact F|]. split.
  - unfold Ndvi.create_index_stack_analysis. rewrite Hs. cbn [bind].
    replace (Ndvi.st_length s =? 0)%nat with false
      by (symmetry; apply Nat.eqb_neq; lia).
    rewrite E. cbn [bind]. rewrite Eo. reflexivity.
  - intros k Hin. destruct (Hk k Hin) as [[]|H].
    destruct H as [i [c [name [color [Hi [Hc [Hpos' [Hm ->]]]]]]]].
    rewrite Hb in Hc.
    assert (Hlt : (i < 7)%nat) by (apply in_seq in Hi; lia).
    rewrite nth_error_map, nth_error_seq in Hc.
    replace (i <? 7)%nat with true in Hc
      by (symmetry; apply Nat.ltb_lt; exact Hlt).
    simpl in Hc. injection Hc as <-.
    apply count_occ_In in Hpos'.
    assert (Hcode := proj1 (Forall_forall _ _) F i Hpos').
    destruct Hcode as [l [_ ->]]. exists l. split; [exact Hpos'|].
    destruct (label_map_agrees l) as [color' Hl].
    rewrite Hl in Hm. congruence.
Qed.

(** Every input with a non-empty index array is classified: the function
    returns an aggregate result, never the error entry. *)
Lemma create_index_stack_analysis_total (indices : dict ndarray) :
  (exists k, In k ["ndvi"; "ndwi"; "mndwi"; "ndsi"]%string
             /\ get_default indices k [] <> []) ->
  exists a, Ndvi.create_index_stack_analysis indices = Ok (Ndvi.Analysis a).
Proof.
  intros H. destruct (prepare_stack_total _ H) as [s Hs].
  destruct (create_index_stack_analysis_ok _ _ Hs)
    as [lc [stats [_ [_ [_ [_ [E _]]]]]]].
  eauto.
Qed.

(** C10.  Whenever the classifier returns an aggregate result, there is at
    least one pixel, every pixel of the classified array holds one of the
    codes 1..6 (Water, Snow/Ice, Dense Vegetation, Sparse Vegetation,
    Bare Soil/Rock, Urban/Built-up), the code 0 is never stored, and the
    keys of the land-cover statistics are names of those six labels, so
    that "Unknown" is not among them. *)
Theorem C10_unknown_never_assigned (indices : dict ndarray)
  (a : Ndvi.analysis) :
  Ndvi.create_index_stack_analysis indices = Ok (Ndvi.Analysis a) ->
  exists s land_cover,
    Ndvi.prepare_stack indices = Ok s
    /\ Ndvi.classify_stack s = Ok land_cover
    /\ (0 < List.length land_cover)%nat
    /\ Ndvi.total_pixels a = List.length land_cover
    /\ Forall classified_code land_cover
    /\ ~ In (label_code Unknown) land_cover
    /\ ~ In (label_name Unknown) (dict_keys (Ndvi.land_cover_stats a))
    /\ forall k, In k (dict_keys (Ndvi.land_cover_stats a)) ->
         In k (map label_name classified_labels).
Proof.
  intros Ha.
  destruct (Ndvi.prepare_stack indices) as [s|e] eqn:Hs.
  - destruct (create_index_stack_analysis_ok _ _ Hs)
      as [lc [stats [E [L [Hpos [F [Hc Hk]]]]]]].
    rewrite Hc in Ha. injection Ha as <-.
    assert (H0 : ~ In (label_code Unknown) lc).
    { intros Hin. apply (proj1 (Forall_forall _ _) F) in Hin.
      apply classified_code_bounds in Hin. simpl in Hin. lia. }
    assert (Hnames : forall k, In k (dict_keys stats) ->
                       In k (map label_name classified_labels)).
    { intros k Hin. destruct (Hk k Hin) as [l [Hl ->]].
      apply in_map. apply (proj1 (Forall_forall _ _) F) in Hl.
      destruct Hl as [l' [Hl' El]].
      assert (l = l') by (destruct l, l'; simpl in El; congruence).
      subst. exact Hl'. }
    exists s, lc. cbn [Ndvi.total_pixels Ndvi.land_cover_stats].
    repeat split; auto.
    intros Hin. apply Hnames in Hin. simpl in Hin.
    destruct Hin as [H|[H|[H|[H|[H|[H|[]]]]]]]; discriminate H.
  - exfalso. unfold Ndvi.create_index_stack_analysis in Ha.
    rewrite Hs in Ha. simpl in Ha. discriminate Ha.
Qed.

Lemma C10_unknown_never_assigned_witness :
  exists a,
    Ndvi.create_index_stack_analysis sample_indices = Ok (Ndvi.Analysis a)
    /\ ~ In (label_name Unknown) (dict_keys (Ndvi.land_cover_stats a)).
Proof.
  eexists. split; [reflexivity|].
  destruct (C10_unknown_never_assigned sample_indices _ eq_refl)
    as [s [lc [_ [_ [_ [_ [_ [_ [H _]]]]]]]]].
  exact H.
Defined.

(** ** Interpretation: claims C5 and C6 *)

Lemma confidence_bounds (a : float) :
  let c := py_min (Ndvi.of_int 95) (py_max (Ndvi.of_int 60) a) in
  fle (Ndvi.of_int 60) c = true /\ fle c (Ndvi.of_int 95) = true.
Proof.
  destruct a as [z| | |]; try (split; reflexivity).
  unfold py_min, py_max, fgt, Ndvi.of_int. cbn [flt].
  destruct (Qlt_bool (inject_Z 60) z) eqn:E1.
  - cbn [flt]. destruct (Qlt_bool z (inject_Z 95)) eqn:E2; cbn [fle].
    + apply Qlt_bool_iff in E1, E2. split; apply Qle_bool_iff; lra.
    + split; reflexivity.
  - split; reflexivity.
Qed.

(** C5.  For every finite NDVI scalar the cascade of the code (strict upper
    bounds, lowest first) gives the status and score of the table read as
    inclusive lower bounds, highest first; the value 0.4 exactly fails the
    [< 0.4] check, falls through to [< 0.6], and is Good with score 75, not
    Moderate. *)
Theorem C5_ndvi_cascade :
  (forall q : Q,
     exists r,
       Ndvi.interpret_ndvi (Ndvi.PyFloat (Fin q)) = Ok r
       /\ (Ndvi.status r, Ndvi.score r) = ndvi_band q)
  /\ (exists r,
        Ndvi.interpret_ndvi (Ndvi.PyFloat (Fin 0.4)) = Ok r
        /\ Ndvi.status r = "Good"%string /\ Ndvi.score r = 75%Z
        /\ Ndvi.status r <> "Moderate"%string
        /\ flt (Fin 0.4) (Fin 0.4) = false /\ flt (Fin 0.4) (Fin 0.6) = true).
Proof.
  split.
  - intros q.
    unfold Ndvi.interpret_ndvi, ndvi_band, Ndvi.py_lt, Ndvi.py_round_obj.
    cbn [bind flt]. unfold Qlt_bool.
    destruct (Qle_bool 0 q) eqn:E0; cbn [negb bind];
    destruct (Qle_bool 0.2 q) eqn:E2; cbn [negb bind];
    destruct (Qle_bool 0.4 q) eqn:E4; cbn [negb bind];
    destruct (Qle_bool 0.6 q) eqn:E6; cbn [negb bind try_except];
    try (eexists; split; reflexivity);
    exfalso;
    repeat match goal with
      | H : Qle_bool _ _ = true |- _ => apply Qle_bool_iff in H
      | H : Qle_bool _ _ = false |- _ => apply Qle_bool_false in H
      end; lra.
  - eexists. split; [reflexivity|]. cbn.
    repeat split; try reflexivity. discriminate.
Qed.

(** C6, as stated, fails on its own example: a non-finite input is not an
    interpretation failure.  Every comparison with NaN is false, so
    [interpret_ndvi] falls through to its last branch, [round(nan, 3)] is
    nan, nothing is raised, and the result is Excellent with score 90 and
    confidence 90, not the placeholder. *)
Lemma C6_counterexample :
  is_finite NaN = false
  /\ Ndvi.interpret_ndvi (Ndvi.PyFloat NaN)
     = Ok (Ndvi.mk_interpretation (Ndvi.PyFloat NaN) "Excellent"
             "Dense, very healthy vegetation" 90 "#44AA44" (Ndvi.of_int 90))
  /\ ~ (exists r, Ndvi.interpret_ndvi (Ndvi.PyFloat NaN) = Ok r
                  /\ is_placeholder r).
Proof.
  split; [reflexivity|]. split; [reflexivity|].
  intros [r [Hr [Hs _]]]. vm_compute in Hr. injection Hr as <-.
  discriminate Hs.
Qed.

Ltac interpret_float :=
  cbn [bind try_except]; eexists; split; [reflexivity|];
  split; [cbn; discriminate | apply confidence_bounds].

(** C6 (amended).  For every float argument, finite or not, each
    interpretation function (NDVI, NDWI, NDSI) succeeds with a confidence
    of at least 60 and at most 95.  Interpretation fails only on an
    argument that is not a number (None, a string); the function then
    returns the neutral placeholder with status Unknown, score 50 and
    confidence 50 rather than raising. *)
Theorem C6_confidence_and_placeholder :
  (interprets_every_float Ndvi.interpret_ndvi
   /\ interprets_every_float Ndvi.interpret_ndwi
   /\ interprets_every_float Ndvi.interpret_ndsi)
  /\ (placeholder_on_non_number Ndvi.interpret_ndvi
      /\ placeholder_on_non_number Ndvi.interpret_ndwi
      /\ placeholder_on_non_number Ndvi.interpret_ndsi).
Proof.
  split; [split; [|split] | split; [|split]].
  - intros x. unfold Ndvi.interpret_ndvi, Ndvi.py_lt, Ndvi.py_round_obj.
    cbn [bind].
    destruct (flt x (Fin 0)); [interpret_float|]. cbn [bind].
    destruct (flt x (Fin 0.2)); [interpret_float|]. cbn [bind].
    destruct (flt x (Fin 0.4)); [interpret_float|]. cbn [bind].
    destruct (flt x (Fin 0.6)); interpret_float.
  - intros x. unfold Ndvi.interpret_ndwi, Ndvi.py_gt, Ndvi.py_round_obj,
      Ndvi.py_abs. cbn [bind].
    destruct (fgt x (Fin 0.3)); [interpret_float|]. cbn [bind].
    destruct (fgt x (Fin 0.1)); [interpret_float|]. cbn [bind].
    destruct (fgt x (Fin (-0.1))); interpret_float.
  - intros x. unfold Ndvi.interpret_ndsi, Ndvi.py_gt, Ndvi.py_round_obj,
      Ndvi.py_abs. cbn [bind].
    destruct (fgt x (Fin 0.4)); [interpret_float|]. cbn [bind].
    destruct (fgt x (Fin 0.1)); [interpret_float|]. cbn [bind].
    destruct (fgt x (Fin (-0.1))); interpret_float.
  - split; [|intros s]; eexists; (split; [reflexivity|]);
      repeat split; reflexivity.
  - split; [|intros s]; eexists; (split; [reflexivity|]);
      repeat split; reflexivity.
  - split; [|intros s]; eexists; (split; [reflexivity|]);
      repeat split; reflexivity.
Qed.

(** ** Pest risk: claim C8 *)

(** C8, as stated, fails: the specific-pest risks scale the unweighted mean
    of the three factors, not the weighted overall risk.  For rice at
    28 degrees, humidity 85, latitude 10 in January with a healthy canopy
    the factors are 0.9, 0 and 0.4: the overall risk is 0.46 and the
    brown-planthopper risk is 0.9 * (1.3 / 3) = 0.39, not 0.9 * 0.46. *)
Lemma C8_counterexample :
  exists r,
    dict_get (Hyperspectral.specific_pests sample_assessment)
      "brown_planthopper" = Some r
    /\ fgt (Fin 85) (Fin 80) = true
    /\ same_float (Hyperspectral.overall_risk sample_assessment) (Fin 0.46)
    /\ same_float r (Fin 0.39)
    /\ ~ same_float r
         (fmul (Hyperspectral.overall_risk sample_assessment) (Fin 0.9)).
Proof.
  eexists. split; [reflexivity|]. split; [reflexivity|].
  split; [reflexivity|]. split; [reflexivity|].
  vm_compute. discriminate.
Qed.

(** C8 (amended).  For every crop type, humidity and temperature, each
    specific-pest risk is the unweighted mean of the environmental,
    spectral-stress and seasonal factors scaled by the crop/pest-specific
    multiplier; for rice the brown-planthopper risk is 0.9 times that mean
    when humidity > 80 and 0.6 times it otherwise.  The overall risk is the
    0.4/0.35/0.25-weighted combination, capped at 1. *)
Theorem C8_specific_pest_risks :
  (forall rf crop_type temp humidity,
     Hyperspectral._calculate_specific_pest_risks rf crop_type temp humidity
     = map (fun pm => (fst pm, fmul (mean_risk rf) (snd pm)))
           (pest_table crop_type temp humidity))
  /\ (forall rf temp humidity,
        dict_get
          (Hyperspectral._calculate_specific_pest_risks rf "rice" temp humidity)
          "brown_planthopper"
        = Some (fmul (mean_risk rf)
                     (if fgt humidity (Fin 80) then Fin 0.9 else Fin 0.6)))
  /\ (forall rf,
        Hyperspectral._calculate_overall_pest_risk rf
        = py_min (weighted_risk rf) (Fin 1.0))
  /\ (forall month indices weather_data field_coords crop_type,
        let a := Hyperspectral.assess_pest_risk month indices weather_data
                   field_coords crop_type in
        Hyperspectral.overall_risk a
        = Hyperspectral._calculate_overall_pest_risk (Hyperspectral.factors a)
        /\ Hyperspectral.specific_pests a
           = Hyperspectral._calculate_specific_pest_risks
               (Hyperspectral.factors a) crop_type
               (get_default weather_data "temperature" (Fin 25))
               (get_default weather_data "humidity" (Fin 60))).
Proof.
  assert (Htable : forall rf crop_type temp humidity,
     Hyperspectral._calculate_specific_pest_risks rf crop_type temp humidity
     = map (fun pm => (fst pm, fmul (mean_risk rf) (snd pm)))
           (pest_table crop_type temp humidity)).
  { intros rf crop_type temp humidity.
    unfold Hyperspectral._calculate_specific_pest_risks, pest_table.
    change (np_mean (Hyperspectral.risk_values rf)) with (mean_risk rf).
    cbv zeta.
    destruct (String.eqb crop_type "rice");
      [|destruct (String.eqb crop_type "cotton");
        [|destruct (String.eqb crop_type "wheat")]];
      cbn [map fst snd];
      repeat match goal with
        | |- context [if ?c then _ else _] => destruct c
        end; reflexivity. }
  split; [exact Htable|]. split; [|split].
  - intros rf temp humidity. rewrite Htable. unfold pest_table.
    cbn [String.eqb Ascii.eqb Bool.eqb map fst snd dict_get].
    destruct (fgt humidity (Fin 80)); reflexivity.
  - intros rf. reflexivity.
  - intros month indices weather_data [latitude longitude] crop_type.
    split; reflexivity.
Qed.

(** ** The prediction ensemble: claim C9 *)

(** C9, as stated, fails: in the Untrained state the exception raised
    inside [predict] is caught by its own handler; the call does not fail,
    and the returned dictionary carries a health score of 50.0. *)
Lemma C9_counterexample :
  RealModel.model RealModel.init = None
  /\ ~ signals_failure (RealModel.predict RealModel.init canonical_features)
  /\ exists d,
       RealModel.predict RealModel.init canonical_features
       = Ok (RealModel.Single d)
       /\ dict_get d "health_score" = Some (RealModel.VFloat (Fin 50.0)).
Proof.
  split; [reflexivity|]. split.
  - intros [e H]. discriminate H.
  - eexists. split; reflexivity.
Qed.

(** C9 (amended).  For every feature array, [predict] in the Untrained
    state raises nothing to its caller: it returns a single placeholder
    result whose [error] entry is "Model not trained. Call train_model()
    first.", with health score 50.0, status Unknown and confidence 50;
    [train_model] leaves the Untrained state. *)
Theorem C9_untrained_predict
  (self : RealModel.model_state) (feats : RealModel.features) :
  RealModel.model self = None ->
  RealModel.predict self feats = Ok (RealModel.Single untrained_result)
  /\ dict_get untrained_result "error"
     = Some (RealModel.VStr "Model not trained. Call train_model() first.")
  /\ dict_get untrained_result "status" = Some (RealModel.VStr "Unknown")
  /\ (forall sc rf gb,
        RealModel.model (RealModel.train_model sc rf gb self) <> None).
Proof.
  intros H. unfold RealModel.predict. rewrite H.
  repeat split. intros sc rf gb. discriminate.
Qed.

Lemma C9_untrained_predict_witness :
  RealModel.predict RealModel.init canonical_features
  = Ok (RealModel.Single untrained_result).
Proof.
  exact (proj1 (C9_untrained_predict RealModel.init canonical_features
                  eq_refl)).
Defined.

(** ** Further properties *)

Lemma in_range_finite_in (lo hi : Q) (x : float) :
  in_range lo hi x = true <-> finite_in lo hi x.
Proof.
  unfold in_range. destruct x as [q| | |]; simpl; split;
    try tauto; try discriminate.
  - intros H. apply andb_true_iff in H as [H1 H2].
    split; apply Qle_bool_iff; assumption.
  - intros [H1 H2]. apply andb_true_iff.
    split; apply Qle_bool_iff; assumption.
Qed.

(** *** Sums and means of finite values *)

Lemma inject_Z_S (n : nat) :
  inject_Z (Z.of_nat (S n)) == inject_Z (Z.of_nat n) + 1.
Proof.
  rewrite Nat2Z.inj_succ. unfold Z.succ. rewrite inject_Z_plus. reflexivity.
Qed.

Lemma inject_Z_nat_pos (n : nat) : (0 < n)%nat -> 0 < inject_Z (Z.of_nat n).
Proof.
  intros H. change 0 with (inject_Z 0). rewrite <- Zlt_Qlt. lia.
Qed.

Lemma fold_fadd_bounds (lo hi : Q) (l : ndarray) :
  Forall (finite_in lo hi) l ->
  forall a : Q,
  exists s,
    fold_left fadd l (Fin a) = Fin s
    /\ a + inject_Z (Z.of_nat (List.length l)) * lo <= s
    /\ s <= a + inject_Z (Z.of_nat (List.length l)) * hi.
Proof.
  induction 1 as [|x l Hx Hl IH]; intros a.
  - exists a. split; [reflexivity|]. cbn [List.length].
    change (inject_Z (Z.of_nat 0)) with 0.
    assert (E : forall c, a + 0 * c == a) by (intros; ring).
    rewrite !E. split; apply Qle_refl.
  - destruct x as [q| | |]; try contradiction. destruct Hx as [H1 H2].
    cbn [fold_left fadd]. destruct (IH (a + q)) as [s [E [L U]]].
    exists s. split; [exact E|].
    cbn [List.length]. rewrite inject_Z_S.
    set (N := inject_Z (Z.of_nat (List.length l))) in *.
    assert (E1 : (N + 1) * lo == N * lo + lo) by ring.
    assert (E2 : (N + 1) * hi == N * hi + hi) by ring.
    rewrite E1, E2. split; lra.
Qed.

(** The mean of a non-empty array of values of an interval lies in it. *)
Lemma np_mean_bounds (lo hi : Q) (l : ndarray) :
  l <> [] -> Forall (finite_in lo hi) l -> finite_in lo hi (np_mean l).
Proof.
  intros Hne Hl. unfold np_mean, np_sum.
  destruct (fold_fadd_bounds lo hi l Hl 0) as [s [-> [L U]]].
  assert (Hpos : 0 < inject_Z (Z.of_nat (List.length l))).
  { apply inject_Z_nat_pos. destruct l; [congruence|simpl; lia]. }
  cbn [fdiv].
  replace (Qeq_bool (inject_Z (Z.of_nat (List.length l))) 0) with false
    by (symmetry; apply Qeq_bool_false; lra).
  cbn [finite_in]. set (N := inject_Z (Z.of_nat (List.length l))) in *.
  assert (E1 : lo * N == N * lo) by ring.
  assert (E2 : hi * N == N * hi) by ring.
  split.
  - apply Qle_shift_div_l; [exact Hpos|]. rewrite E1. lra.
  - apply Qle_shift_div_r; [exact Hpos|]. rewrite E2. lra.
Qed.

Lemma fold_fadd_repeat (q : Q) (n : nat) (a : Q) :
  exists s,
    fold_left fadd (repeat (Fin q) n) (Fin a) = Fin s
    /\ s == a + inject_Z (Z.of_nat n) * q.
Proof.
  revert a. induction n as [|n IH]; intros a.
  - exists a. split; [reflexivity|].
    change (inject_Z (Z.of_nat 0)) with 0. ring.
  - cbn [repeat fold_left fadd]. destruct (IH (a + q)) as [s [E H]].
    exists s. split; [exact E|]. rewrite H, inject_Z_S. ring.
Qed.

Lemma np_mean_repeat (q : Q) (n : nat) :
  (0 < n)%nat ->
  exists m, np_mean (repeat (Fin q) n) = Fin m /\ m == q.
Proof.
  intros Hn. unfold np_mean, np_sum.
  destruct (fold_fadd_repeat q n 0) as [s [-> Hs]].
  rewrite repeat_length.
  assert (Hpos := inject_Z_nat_pos n Hn).
  cbn [fdiv].
  replace (Qeq_bool (inject_Z (Z.of_nat n)) 0) with false
    by (symmetry; apply Qeq_bool_false; lra).
  eexists. split; [reflexivity|]. rewrite Hs. field. lra.
Qed.

(** *** NDVI of a data dictionary *)

Ltac split_on_mean :=
  repeat match goal with
    | |- context [if ?c then _ else _] =>
        match c with context [np_mean] => destruct c end
    end.

Lemma estimate_ndvi_spec (data : dict ndarray) :
  exists v,
    Ndvi.estimate_ndvi_from_features data
    = Ok (v, "estimated_from_features"%string)
    /\ finite_in 0 0.9 v
    /\ (dict_get data "temperature" = None ->
        dict_get data "soil_moisture" = None ->
        dict_get data "humidity" = None ->
        dict_get data "ph" = None -> v = Fin 0.5).
Proof.
  unfold Ndvi.estimate_ndvi_from_features. cbn [try_except].
  destruct (dict_get data "temperature") as [t|];
  destruct (dict_get data "soil_moisture") as [m|];
  destruct (dict_get data "humidity") as [h|];
  destruct (dict_get data "ph") as [p|];
  split_on_mean;
  (eexists; split; [reflexivity|]; split;
   [vm_compute; split; discriminate
   | intros; try discriminate; reflexivity]).
Qed.

(** X1.  Whatever readings the data dictionary holds (1-D float arrays),
    the estimate from environmental features never fails and is a finite
    value between 0 and 0.9: the baseline and the four bonuses add up to
    0.85 plus the rounding error of the sum, so that the upper limit 1 of
    the final clamp is never reached.  Without any of the four feature keys
    the estimate is the baseline 0.5. *)
Theorem estimate_ndvi_bounded (data : dict ndarray) :
  exists v,
    Ndvi.estimate_ndvi_from_features data
    = Ok (v, "estimated_from_features"%string)
    /\ finite_in 0 0.9 v
    /\ (dict_get data "temperature" = None ->
        dict_get data "soil_moisture" = None ->
        dict_get data "humidity" = None ->
        dict_get data "ph" = None -> v = Fin 0.5).
Proof. exact (estimate_ndvi_spec data). Qed.

Lemma estimate_ndvi_bounded_witness :
  exists v,
    Ndvi.estimate_ndvi_from_features [("humidity"%string, [Fin 20])]
    = Ok (v, "estimated_from_features"%string)
    /\ finite_in 0 0.9 v.
Proof.
  destruct (estimate_ndvi_bounded [("humidity"%string, [Fin 20])])
    as [v [E [H _]]].
  exists v. split; [exact E | exact H].
Defined.

Lemma guarded_always_ok (body : result ndarray) :
  exists v, Ndvi.guarded body = Ok v.
Proof. destruct body; simpl; eauto. Qed.

(** Operands that cannot be broadcast: the body raises and the handler
    returns an empty array. *)
Lemma guarded_nd_mismatch (a b : ndarray) :
  List.length a <> List.length b ->
  List.length a <> 1%nat -> List.length b <> 1%nat ->
  Ndvi.guarded (Ndvi.normalized_difference a b) = Ok [].
Proof.
  intros Hne Ha Hb. unfold Ndvi.normalized_difference, np_add, np_binop.
  replace (List.length a =? List.length b)%nat with false
    by (symmetry; apply Nat.eqb_neq; exact Hne).
  destruct a as [|x [|x' a]], b as [|y [|y' b]]; simpl in *;
    try congruence; reflexivity.
Qed.

Lemma nd_zip_in_range (a b : ndarray) :
  all_finite a -> all_finite b -> in_unit_range (zip_with nd_pixel a b).
Proof.
  intros Ha Hb. unfold in_unit_range.
  eapply Forall_zip_with; [|exact Ha|exact Hb].
  intros x y Hx Hy. apply nd_pixel_in_range; assumption.
Qed.

(** X2.  What the status tells the caller, for a data dictionary of 1-D
    float arrays.  "estimated_from_features": there is neither an [ndvi]
    nor a [vegetation_index] entry and the value is between 0 and 0.9.
    "estimated_from_vi": there is no [ndvi] entry and the value is the mean
    of the [vegetation_index] array.  "success": the value is the mean of
    the [ndvi] entry when there is one (it takes precedence over everything
    else and is not validated), and otherwise the mean of the non-empty
    NDVI array computed from the [red] and [nir] entries. *)
Theorem ndvi_from_data_status (data : dict ndarray) (v : float)
  (st : string) :
  Ndvi.calculate_ndvi_from_data data = Ok (v, st) ->
  (st = "estimated_from_features"%string ->
     dict_get data "ndvi" = None
     /\ dict_get data "vegetation_index" = None
     /\ finite_in 0 0.9 v)
  /\ (st = "estimated_from_vi"%string ->
      dict_get data "ndvi" = None
      /\ exists vi, dict_get data "vegetation_index" = Some vi
                    /\ v = np_mean vi)
  /\ (st = "success"%string ->
      (exists nd, dict_get data "ndvi" = Some nd /\ v = np_mean nd)
      \/ (dict_get data "ndvi" = None
          /\ exists red nir out,
               dict_get data "red" = Some red
               /\ dict_get data "nir" = Some nir
               /\ Ndvi.calculate_ndvi red nir = Ok out
               /\ out <> [] /\ v = np_mean out)).
Proof.
  unfold Ndvi.calculate_ndvi_from_data.
  destruct (dict_get data "ndvi") as [nd|] eqn:End.
  { cbn [try_except]. intros H. injection H as <- <-.
    split; [discriminate|]. split; [discriminate|].
    intros _. left. exists nd. split; reflexivity. }
  assert (Hrest : forall v' st',
    match dict_get data "vegetation_index" with
    | Some vi_values => Ok (np_mean vi_values, "estimated_from_vi"%string)
    | None => Ndvi.estimate_ndvi_from_features data
    end = Ok (v', st') ->
    (st' = "estimated_from_features"%string ->
       @None ndarray = None
       /\ dict_get data "vegetation_index" = None
       /\ finite_in 0 0.9 v')
    /\ (st' = "estimated_from_vi"%string ->
        @None ndarray = None
        /\ exists vi, dict_get data "vegetation_index" = Some vi
                      /\ v' = np_mean vi)
    /\ st' <> "success"%string).
  { intros v' st'. destruct (dict_get data "vegetation_index") as [vi|].
    - intros H. injection H as <- <-.
      split; [discriminate|]. split; [|discriminate].
      intros _. split; [reflexivity|]. exists vi. split; reflexivity.
    - destruct (estimate_ndvi_spec data) as [v0 [E [H0 _]]].
      rewrite E. intros H. injection H as <- <-.
      split; [intros _; repeat split; exact H0|].
      split; discriminate. }
  assert (Hfall : forall r : result (float * string),
    r = match dict_get data "vegetation_index" with
        | Some vi_values => Ok (np_mean vi_values, "estimated_from_vi"%string)
        | None => Ndvi.estimate_ndvi_from_features data
        end ->
    try_except r (fun e => Ok (Fin 0.5, ("error: " ++ exn_str e)%string))
    = Ok (v, st) ->
    (st = "estimated_from_features"%string ->
       @None ndarray = None
       /\ dict_get data "vegetation_index" = None
       /\ finite_in 0 0.9 v)
    /\ (st = "estimated_from_vi"%string ->
        @None ndarray = None
        /\ exists vi, dict_get data "vegetation_index" = Some vi
                      /\ v = np_mean vi)
    /\ st <> "success"%string).
  { intros r -> H. apply Hrest.
    destruct (dict_get data "vegetation_index") as [vi|].
    - exact H.
    - destruct (estimate_ndvi_spec data) as [v0 [E _]].
      rewrite E in *. exact H. }
  destruct (dict_get data "red") as [red|] eqn:Er,
           (dict_get data "nir") as [nir|] eqn:Ei; cbn [bind];
    try (intros H; destruct (Hfall _ eq_refl H) as [H1 [H2 H3]];
         split; [exact H1|]; split; [exact H2|];
         intros Hs; contradiction).
  destruct (Ndvi.calculate_ndvi red nir) as [out|e] eqn:Eo.
  - cbn [bind]. destruct (0 <? List.length out)%nat eqn:El; cbn [bind].
    + cbn [try_except]. intros H. injection H as <- <-.
      split; [discriminate|]. split; [discriminate|].
      intros _. right. split; [reflexivity|].
      exists red, nir, out.
      split; [reflexivity|]. split; [reflexivity|].
      split; [first [reflexivity | exact Eo]|]. split; [|reflexivity].
      intros ->. discriminate El.
    + intros H; destruct (Hfall _ eq_refl H) as [H1 [H2 H3]].
      split; [exact H1|]. split; [exact H2|].
      intros Hs; contradiction.
  - exfalso. unfold Ndvi.calculate_ndvi in Eo.
    destruct (guarded_always_ok (Ndvi.normalized_difference nir red))
      as [out Ho]. rewrite Ho in Eo. discriminate Eo.
Qed.

Lemma ndvi_from_data_status_witness :
  dict_get [("vegetation_index"%string, [Fin 0.4; Fin 0.6])] "ndvi" = None
  /\ exists vi,
       dict_get [("vegetation_index"%string, [Fin 0.4; Fin 0.6])]
         "vegetation_index" = Some vi
       /\ np_mean [Fin 0.4; Fin 0.6] = np_mean vi.
Proof.
  exact (proj1 (proj2 (ndvi_from_data_status
                         [("vegetation_index"%string, [Fin 0.4; Fin 0.6])]
                         _ _ eq_refl)) eq_refl).
Defined.

(** X3.  Without an [ndvi] entry, finite red and nir bands of one positive
    length give the status "success" and an average NDVI that is a finite
    value in [-1, 1]. *)
Theorem ndvi_from_bands_in_range (data : dict ndarray) (red nir : ndarray) :
  dict_get data "ndvi" = None ->
  dict_get data "red" = Some red -> dict_get data "nir" = Some nir ->
  List.length red = List.length nir -> red <> [] ->
  all_finite red -> all_finite nir ->
  exists v,
    Ndvi.calculate_ndvi_from_data data = Ok (v, "success"%string)
    /\ finite_in (-1) 1 v.
Proof.
  intros Hn Hr Hi Hlen Hne Fr Fi. unfold Ndvi.calculate_ndvi_from_data.
  rewrite Hn, Hr, Hi. unfold Ndvi.calculate_ndvi.
  rewrite guarded_nd_ok by congruence. cbn [bind].
  assert (Hz : zip_with nd_pixel nir red <> []).
  { destruct nir, red; simpl in *; congruence. }
  replace (0 <? List.length (zip_with nd_pixel nir red))%nat with true.
  - cbn [bind try_except]. eexists. split; [reflexivity|].
    apply np_mean_bounds; [exact Hz|]. apply nd_zip_in_range; assumption.
  - symmetry. apply Nat.ltb_lt.
    destruct (zip_with nd_pixel nir red); [congruence|simpl; lia].
Qed.

Lemma ndvi_from_bands_in_range_witness :
  exists v,
    Ndvi.calculate_ndvi_from_data physical_bands = Ok (v, "success"%string)
    /\ finite_in (-1) 1 v.
Proof.
  apply (ndvi_from_bands_in_range physical_bands
           (map Fin [0.05; 0.06]) (map Fin [0.6; 0.7]));
    try reflexivity; try discriminate; repeat constructor.
Defined.

(** X4.  Without [ndvi] and [vegetation_index] entries, red and nir bands
    whose lengths differ and cannot be broadcast do not fail the call: the
    function silently falls back to the estimate from environmental
    features, a value between 0 and 0.9. *)
Theorem ndvi_from_mismatched_bands (data : dict ndarray) (red nir : ndarray) :
  dict_get data "ndvi" = None ->
  dict_get data "vegetation_index" = None ->
  dict_get data "red" = Some red -> dict_get data "nir" = Some nir ->
  List.length red <> List.length nir ->
  List.length red <> 1%nat -> List.length nir <> 1%nat ->
  Ndvi.calculate_ndvi_from_data data = Ndvi.estimate_ndvi_from_features data
  /\ exists v,
       Ndvi.calculate_ndvi_from_data data
       = Ok (v, "estimated_from_features"%string)
       /\ finite_in 0 0.9 v.
Proof.
  intros Hn Hv Hr Hi Hlen H1 H2.
  assert (E : Ndvi.calculate_ndvi_from_data data
              = Ndvi.estimate_ndvi_from_features data).
  { unfold Ndvi.calculate_ndvi_from_data.
    rewrite Hn, Hr, Hi, Hv. unfold Ndvi.calculate_ndvi.
    rewrite guarded_nd_mismatch by auto. cbn [bind List.length Nat.ltb Nat.leb].
    destruct (estimate_ndvi_spec data) as [v [-> _]]. reflexivity. }
  split; [exact E|]. rewrite E.
  destruct (estimate_ndvi_spec data) as [v [Ev [H _]]].
  exists v. split; [exact Ev | exact H].
Qed.

Lemma ndvi_from_mismatched_bands_witness :
  exists v,
    Ndvi.calculate_ndvi_from_data
      [("red"%string, [Fin 0.05; Fin 0.06]);
       ("nir"%string, [Fin 0.6; Fin 0.7; Fin 0.8])]
    = Ok (v, "estimated_from_features"%string)
    /\ finite_in 0 0.9 v.
Proof.
  apply (ndvi_from_mismatched_bands
           [("red"%string, [Fin 0.05; Fin 0.06]);
            ("nir"%string, [Fin 0.6; Fin 0.7; Fin 0.8])]
           [Fin 0.05; Fin 0.06] [Fin 0.6; Fin 0.7; Fin 0.8]);
    try reflexivity; simpl; lia.
Defined.

(** *** Validation *)

Lemma existsb_false_in {A : Type} (f : A -> bool) (l : list A) (x : A) :
  existsb f l = false -> In x l -> f x = false.
Proof.
  intros H Hin. destruct (f x) eqn:E; [|reflexivity].
  assert (existsb f l = true) by (apply existsb_exists; eauto). congruence.
Qed.

Lemma existsb_repeat_false {A : Type} (f : A -> bool) (x : A) (n : nat) :
  f x = false -> existsb f (repeat x n) = false.
Proof.
  intros H. induction n as [|n IH]; simpl; [reflexivity|].
  rewrite H, IH. reflexivity.
Qed.

(** X5.  Validation never raises, and an array it accepts is non-empty, has
    only finite values in [-1, 1], and has a mean of at least -0.5. *)
Theorem validate_ndvi_sound (ndvi_values : ndarray) :
  (exists ok msg, Ndvi.validate_ndvi_data ndvi_values = Ok (ok, msg))
  /\ forall msg,
       Ndvi.validate_ndvi_data ndvi_values = Ok (true, msg) ->
       msg = "NDVI data is valid"%string
       /\ ndvi_values <> []
       /\ in_unit_range ndvi_values
       /\ finite_in (-0.5) 1 (np_mean ndvi_values).
Proof.
  unfold Ndvi.validate_ndvi_data.
  destruct (List.length ndvi_values =? 0)%nat eqn:E0;
    [cbn [try_except]; split; [eauto|intros msg H; discriminate H]|].
  destruct (Ndvi.np_any_lt ndvi_values (Fin (-1))
            || Ndvi.np_any_gt ndvi_values (Fin 1)) eqn:E1;
    [cbn [try_except]; split; [eauto|intros msg H; discriminate H]|].
  cbv zeta.
  destruct (flt (np_mean ndvi_values) (Fin (-0.5))) eqn:E2;
    [cbn [try_except]; split; [eauto|intros msg H; discriminate H]|].
  destruct (Ndvi.np_std_lt ndvi_values 0.001
            && (10 <? List.length ndvi_values)%nat);
    [cbn [try_except]; split; [eauto|intros msg H; discriminate H]|].
  destruct (Ndvi.np_any_isnan ndvi_values
            || Ndvi.np_any_isinf ndvi_values) eqn:E3;
    [cbn [try_except]; split; [eauto|intros msg H; discriminate H]|].
  cbn [try_except]. split; [eauto|]. intros msg H. injection H as <-.
  split; [reflexivity|].
  assert (Hne : ndvi_values <> []).
  { intros ->. discriminate E0. }
  apply orb_false_iff in E1 as [Elt Egt].
  apply orb_false_iff in E3 as [Enan _].
  assert (Hr : in_unit_range ndvi_values).
  { apply Forall_forall. intros x Hin.
    pose proof (existsb_false_in _ _ x Elt Hin) as H1.
    pose proof (existsb_false_in _ _ x Egt Hin) as H2.
    pose proof (existsb_false_in _ _ x Enan Hin) as H3.
    destruct x as [q| | |]; try discriminate.
    unfold fgt in H2. cbn [flt] in H1, H2.
    apply Qlt_bool_false in H1, H2. simpl. split; assumption. }
  split; [exact Hne|]. split; [exact Hr|].
  pose proof (np_mean_bounds (-1) 1 ndvi_values Hne Hr) as Hm.
  destruct (np_mean ndvi_values) as [m| | |]; try contradiction.
  cbn [flt] in E2. apply Qlt_bool_false in E2.
  destruct Hm as [_ Hm]. simpl. split; assumption.
Qed.

Lemma validate_ndvi_sound_witness :
  in_unit_range [Fin 0.8; Fin 0.3].
Proof.
  exact (proj1 (proj2 (proj2
    (proj2 (validate_ndvi_sound [Fin 0.8; Fin 0.3]) _ eq_refl)))).
Defined.

Lemma np_var_repeat (q : Q) (n : nat) :
  (0 < n)%nat ->
  exists v, Ndvi.np_var (repeat (Fin q) n) = Fin v /\ v == 0.
Proof.
  intros Hn. unfold Ndvi.np_var.
  destruct (np_mean_repeat q n Hn) as [m [-> Hm]]. cbv zeta.
  rewrite map_repeat. cbn [fsub fopp fadd fmul].
  destruct (np_mean_repeat ((q + - m) * (q + - m)) n Hn) as [v [-> Hv]].
  exists v. split; [reflexivity|]. rewrite Hv, Hm. ring.
Qed.

(** X6.  An array of equal values in [-0.5, 1] passes validation when it
    has at most 10 elements and is rejected as showing no variation when it
    has more: a perfectly uniform field of 11 pixels is reported as a data
    quality issue. *)
Theorem validate_uniform_array (q : Q) (n : nat) :
  -0.5 <= q -> q <= 1 -> (0 < n)%nat ->
  Ndvi.validate_ndvi_data (repeat (Fin q) n)
  = if (10 <? n)%nat
    then Ok (false,
             "NDVI data shows no variation, possible data quality issue"%string)
    else Ok (true, "NDVI data is valid"%string).
Proof.
  intros Hlo Hhi Hn. unfold Ndvi.validate_ndvi_data.
  rewrite repeat_length.
  replace (n =? 0)%nat with false by (symmetry; apply Nat.eqb_neq; lia).
  unfold Ndvi.np_any_lt, Ndvi.np_any_gt, Ndvi.np_any_isnan,
    Ndvi.np_any_isinf.
  rewrite !existsb_repeat_false; try reflexivity.
  - cbn [orb]. cbv zeta.
    destruct (np_mean_repeat q n Hn) as [m [-> Hm]]. cbn [flt].
    replace (Qlt_bool m (-0.5)) with false
      by (symmetry; apply Qlt_bool_false; lra).
    unfold Ndvi.np_std_lt.
    destruct (np_var_repeat q n Hn) as [v [-> Hv]]. cbn [flt].
    replace (Qlt_bool v (0.001 * 0.001)) with true.
    + cbn [andb]. destruct (10 <? n)%nat; reflexivity.
    + symmetry. apply Qlt_bool_iff. rewrite Hv. reflexivity.
  - unfold fgt. cbn [flt]. apply Qlt_bool_false. exact Hhi.
  - cbn [flt]. apply Qlt_bool_false. lra.
Qed.

Lemma validate_uniform_array_witness :
  Ndvi.validate_ndvi_data (repeat (Fin 0.5) 11)
  = Ok (false,
        "NDVI data shows no variation, possible data quality issue"%string).
Proof.
  apply (validate_uniform_array 0.5 11); [lra | lra | lia].
Defined.

(** *** The batch entry point *)

(** X7.  The batch entry point never raises; an index is present in its
    result exactly when both of its bands are non-empty (it is absent, not
    defaulted, otherwise); and the [ndsi] entry always equals the [mndwi]
    entry, the two being computed by the same formula from the same bands. *)
Theorem all_indices_keys (data : dict ndarray) :
  let nonempty k := (0 <? List.length (get_default data k []))%nat in
  exists d,
    Ndvi.calculate_all_indices data = Ok d
    /\ Ndvi.dict_has d "ndvi" = nonempty "red"%string && nonempty "nir"%string
    /\ Ndvi.dict_has d "ndwi" = nonempty "nir"%string && nonempty "swir"%string
    /\ Ndvi.dict_has d "mndwi"
       = nonempty "green"%string && nonempty "swir"%string
    /\ dict_get d "ndsi" = dict_get d "mndwi".
Proof.
  cbv zeta. unfold Ndvi.calculate_all_indices. cbv zeta.
  unfold Ndvi.calculate_ndvi, Ndvi.calculate_ndwi, Ndvi.calculate_mndwi,
    Ndvi.calculate_ndsi.
  destruct (guarded_always_ok
              (Ndvi.normalized_difference (get_default data "nir" [])
                 (get_default data "red" []))) as [v1 ->].
  destruct (guarded_always_ok
              (Ndvi.normalized_difference (get_default data "nir" [])
                 (get_default data "swir" []))) as [v2 ->].
  destruct (guarded_always_ok
              (Ndvi.normalized_difference (get_default data "green" [])
                 (get_default data "swir" []))) as [v3 ->].
  destruct (0 <? List.length (get_default data "red" []))%nat;
  destruct (0 <? List.length (get_default data "nir" []))%nat;
  destruct (0 <? List.length (get_default data "green" []))%nat;
  destruct (0 <? List.length (get_default data "swir" []))%nat;
  cbn; eexists; repeat split.
Qed.

(** *** Scores of the interpretation cascades *)

Ltac split_on_Qle :=
  repeat (match goal with
          | |- context [Qle_bool ?x ?y] => destruct (Qle_bool x y) eqn:?
          end; cbn [negb bind try_except]).

Ltac Qle_props :=
  repeat match goal with
    | H : Qle_bool _ _ = true |- _ => apply Qle_bool_iff in H
    | H : Qle_bool _ _ = false |- _ => apply Qle_bool_false in H
    end.

Ltac monotone_cases :=
  cbn [bind flt fgt]; unfold Qlt_bool; split_on_Qle;
  do 2 eexists; (split; [reflexivity|]); (split; [reflexivity|]);
  cbn [Ndvi.score]; first [ lia | exfalso; Qle_props; lra ].

(** X8.  The score of each interpretation function (health score for NDVI,
    water score for NDWI, snow score for NDSI) never decreases when the
    finite value interpreted increases. *)
Theorem interpretation_scores_monotone (a b : Q) :
  a <= b ->
  (exists ra rb,
     Ndvi.interpret_ndvi (Ndvi.PyFloat (Fin a)) = Ok ra
     /\ Ndvi.interpret_ndvi (Ndvi.PyFloat (Fin b)) = Ok rb
     /\ (Ndvi.score ra <= Ndvi.score rb)%Z)
  /\ (exists ra rb,
        Ndvi.interpret_ndwi (Ndvi.PyFloat (Fin a)) = Ok ra
        /\ Ndvi.interpret_ndwi (Ndvi.PyFloat (Fin b)) = Ok rb
        /\ (Ndvi.score ra <= Ndvi.score rb)%Z)
  /\ (exists ra rb,
        Ndvi.interpret_ndsi (Ndvi.PyFloat (Fin a)) = Ok ra
        /\ Ndvi.interpret_ndsi (Ndvi.PyFloat (Fin b)) = Ok rb
        /\ (Ndvi.score ra <= Ndvi.score rb)%Z).
Proof.
  intros Hab. split; [|split].
  - unfold Ndvi.interpret_ndvi, Ndvi.py_lt, Ndvi.py_round_obj.
    monotone_cases.
  - unfold Ndvi.interpret_ndwi, Ndvi.py_gt, Ndvi.py_round_obj, Ndvi.py_abs.
    monotone_cases.
  - unfold Ndvi.interpret_ndsi, Ndvi.py_gt, Ndvi.py_round_obj, Ndvi.py_abs.
    monotone_cases.
Qed.

Lemma interpretation_scores_monotone_witness :
  exists ra rb,
    Ndvi.interpret_ndwi (Ndvi.PyFloat (Fin 0.05)) = Ok ra
    /\ Ndvi.interpret_ndwi (Ndvi.PyFloat (Fin 0.3)) = Ok rb
    /\ (Ndvi.score ra <= Ndvi.score rb)%Z.
Proof.
  apply (proj1 (proj2 (interpretation_scores_monotone 0.05 0.3
                         ltac:(unfold Qle; simpl; lia)))).
Defined.

(** *** The land-cover statistics, exactly *)

Lemma dict_set_fresh {V : Type} (d : dict V) (k : string) (v : V) :
  ~ In k (dict_keys d) -> dict_set d k v = d ++ [(k, v)].
Proof.
  unfold dict_keys. induction d as [|[k' v'] d IH]; simpl; intros H.
  - reflexivity.
  - destruct (String.eqb k k') eqn:E.
    + apply String.eqb_eq in E. subst. exfalso. apply H. left. reflexivity.
    + rewrite IH; [reflexivity|]. intros Hin. apply H. right. exact Hin.
Qed.

Lemma label_name_of_code (i : nat) (name color : string) :
  Ndvi.map_getitem Ndvi.land_cover_map i = Ok (name, color) ->
  exists l, i = label_code l /\ name = label_name l.
Proof.
  do 7 (destruct i as [|i];
        [simpl; intros H; injection H as <- _;
         first [ exists Unknown; split; reflexivity
               | exists Water; split; reflexivity
               | exists SnowIce; split; reflexivity
               | exists DenseVegetation; split; reflexivity
               | exists SparseVegetation; split; reflexivity
               | exists BareSoilRock; split; reflexivity
               | exists UrbanBuiltUp; split; reflexivity ]|]).
  simpl. discriminate.
Qed.

Lemma label_name_inj (l l' : land_cover_label) :
  label_name l = label_name l' -> l = l'.
Proof. destruct l, l'; simpl; intros H; try reflexivity; discriminate H. Qed.

Lemma expected_stat_keys (counts : list nat) (total i : nat) (k : string) :
  In k (dict_keys (expected_stat counts total i)) ->
  exists l c, i = label_code l /\ k = label_name l
              /\ nth_error counts i = Some c /\ (0 < c)%nat.
Proof.
  unfold expected_stat.
  destruct (nth_error counts i) as [c|]; [|intros []].
  destruct (Ndvi.map_getitem Ndvi.land_cover_map i) as [[name color]|e] eqn:E;
    [|intros []].
  destruct (0 <? c)%nat eqn:Ec; [|intros []].
  simpl. intros [<-|[]].
  destruct (label_name_of_code _ _ _ E) as [l [-> ->]].
  exists l, c. repeat split. apply Nat.ltb_lt. exact Ec.
Qed.

Lemma expected_stat_eq (counts : list nat) (total i c : nat)
  (name color : string) :
  nth_error counts i = Some c ->
  Ndvi.map_getitem Ndvi.land_cover_map i = Ok (name, color) ->
  expected_stat counts total i
  = if (0 <? c)%nat then
      [(name,
        Ndvi.mk_cover_stat
          (py_round
             (fmul (fdiv (Ndvi.of_int (Z.of_nat c))
                         (Ndvi.of_int (Z.of_nat total)))
                   (Ndvi.of_int 100)) 1)
          c color)]
    else [].
Proof. intros H1 H2. unfold expected_stat. rewrite H1, H2. reflexivity. Qed.

Lemma stats_loop_exact (counts : list nat) (total : nat) (range : list nat) :
  NoDup range -> (forall i, In i range -> (i < 7)%nat) ->
  List.length counts = 7%nat ->
  forall acc,
    (forall i k, In i range -> In k (dict_keys (expected_stat counts total i))
                 -> ~ In k (dict_keys acc)) ->
    Ndvi.stats_loop counts total range acc
    = Ok (acc ++ flat_map (expected_stat counts total) range).
Proof.
  intros Hnd Hr Hc. induction range as [|i range IH]; intros acc Hfresh.
  - simpl. rewrite app_nil_r. reflexivity.
  - inversion Hnd as [|? ? Hnotin Hnd']; subst.
    assert (Hi : (i < 7)%nat) by (apply Hr; left; reflexivity).
    assert (IH' := IH Hnd' (fun j Hj => Hr j (or_intror Hj))).
    cbn [Ndvi.stats_loop flat_map]. unfold Ndvi.getitem.
    destruct (nth_error counts i) as [c|] eqn:Ec;
      [|apply nth_error_None in Ec; lia].
    cbn [bind].
    assert (Hm : exists name color,
               Ndvi.map_getitem Ndvi.land_cover_map i = Ok (name, color)).
    { clear - Hi. do 7 (destruct i as [|i]; [simpl; eauto|]). lia. }
    destruct Hm as [name [color Hm]].
    pose proof (expected_stat_eq counts total i c name color Ec Hm) as Ei.
    rewrite Ei. rewrite Hm.
    destruct (0 <? c)%nat eqn:Epos.
    + cbn [bind].
      rewrite dict_set_fresh.
      * rewrite IH'.
        -- rewrite <- app_assoc. reflexivity.
        -- intros j k Hj Hk Hin. unfold dict_keys in Hin.
           rewrite map_app in Hin. apply in_app_or in Hin as [Hin|Hin].
           ++ revert Hin. apply (Hfresh j k); [right; exact Hj | exact Hk].
           ++ simpl in Hin. destruct Hin as [<-|[]].
              apply expected_stat_keys in Hk as [l [c' [-> [Hn _]]]].
              destruct (label_name_of_code _ _ _ Hm) as [l' [-> Hn']].
              rewrite Hn' in Hn. apply label_name_inj in Hn. subst.
              apply Hnotin. exact Hj.
      * apply (Hfresh i name); [left; reflexivity|].
        rewrite Ei. simpl. left. reflexivity.
    + cbn [app]. rewrite IH'; [reflexivity|].
      intros j k Hj Hk. apply (Hfresh j k); [right; exact Hj | exact Hk].
Qed.

Lemma total_count_app (a b : dict Ndvi.cover_stat) :
  total_count (a ++ b) = (total_count a + total_count b)%nat.
Proof. unfold total_count. rewrite map_app, list_sum_app. reflexivity. Qed.

Lemma total_count_expected (counts : list nat) (total : nat)
  (range : list nat) :
  (forall i, In i range -> (i < 7)%nat) -> List.length counts = 7%nat ->
  total_count (flat_map (expected_stat counts total) range)
  = list_sum (map (fun i => nth i counts 0%nat) range).
Proof.
  intros Hr Hc. induction range as [|i range IH]; [reflexivity|].
  cbn [flat_map map list_sum]. rewrite total_count_app.
  rewrite IH by (intros j Hj; apply Hr; right; exact Hj). f_equal.
  assert (Hi : (i < 7)%nat) by (apply Hr; left; reflexivity).
  destruct (nth_error counts i) as [c|] eqn:Ec;
    [|apply nth_error_None in Ec; lia].
  rewrite (nth_error_nth _ _ _ Ec).
  assert (Hm : exists name color,
             Ndvi.map_getitem Ndvi.land_cover_map i = Ok (name, color)).
  { clear - Hi. do 7 (destruct i as [|i]; [simpl; eauto|]). lia. }
  destruct Hm as [name [color Hm]].
  rewrite (expected_stat_eq counts total i c name color Ec Hm).
  destruct (0 <? c)%nat eqn:E.
  - unfold total_count. simpl. lia.
  - apply Nat.ltb_ge in E. unfold total_count. simpl. lia.
Qed.

Lemma count_codes_sum (lc : list nat) :
  Forall (fun c => (c <= 6)%nat) lc ->
  list_sum (map (fun k => count_occ Nat.eq_dec lc k) (seq 0 7))
  = List.length lc.
Proof.
  induction 1 as [|x lc Hx Hlc IH]; [reflexivity|].
  cbn [seq map] in *. unfold list_sum in *. cbn [fold_right] in *.
  cbn [count_occ List.length].
  repeat match goal with
    | |- context [Nat.eq_dec x ?k] => destruct (Nat.eq_dec x k)
    end; lia.
Qed.

(** The whole function on a prepared stack, with its statistics spelled
    out. *)
Lemma create_index_stack_analysis_exact (indices : dict ndarray)
  (s : Ndvi.index_stack) :
  Ndvi.prepare_stack indices = Ok s ->
  exists lc,
    Ndvi.classify_stack s = Ok lc
    /\ List.length lc = Ndvi.st_length s
    /\ (0 < List.length lc)%nat
    /\ Forall classified_code lc
    /\ (forall i, (i < Ndvi.st_length s)%nat ->
          nth_error lc i = Some (label_code (pixel_label s i)))
    /\ let counts := map (fun k => count_occ Nat.eq_dec lc k) (seq 0 7) in
       let stats :=
         flat_map (expected_stat counts (List.length lc)) (seq 0 7) in
       Ndvi.create_index_stack_analysis indices
       = Ok (Ndvi.Analysis
               (Ndvi.mk_analysis stats (List.length lc)
                  (Ndvi.dominant_of stats))).
Proof.
  intros Hs.
  destruct (prepare_stack_lengths _ _ Hs) as [Hpos [L1 [L2 [L3 L4]]]].
  destruct (classify_stack_ok s L1 L2 L3 L4) as [lc [E [L N]]].
  destruct (classify_stack_labels s L1 L2 L3 L4) as [lc' [E' [_ F]]].
  rewrite E in E'. injection E' as <-.
  exists lc. split; [exact E|]. split; [exact L|]. split; [lia|].
  split; [exact F|]. split; [exact N|]. cbv zeta.
  assert (Hb : Ndvi.np_bincount lc 7
               = map (fun k => count_occ Nat.eq_dec lc k) (seq 0 7)).
  { apply np_bincount_small. eapply Forall_impl; [|exact F].
    intros c Hc. apply classified_code_bounds in Hc. lia. }
  unfold Ndvi.create_index_stack_analysis. rewrite Hs. cbn [bind].
  replace (Ndvi.st_length s =? 0)%nat with false
    by (symmetry; apply Nat.eqb_neq; lia).
  rewrite E. cbn [bind]. rewrite Hb.
  rewrite stats_loop_exact.
  - reflexivity.
  - apply seq_NoDup.
  - intros i Hi. apply in_seq in Hi. lia.
  - reflexivity.
  - intros i k _ _ [].
Qed.

Lemma dict_keys_flat_map {A V : Type} (f : A -> dict V) (l : list A)
  (k : string) :
  In k (dict_keys (flat_map f l)) <->
  exists j, In j l /\ In k (dict_keys (f j)).
Proof.
  unfold dict_keys. induction l as [|x l IH]; simpl.
  - split; [intros []|intros [j [[] _]]].
  - rewrite map_app, in_app_iff, IH. split.
    + intros [H|[j [Hj H]]]; [exists x; auto|exists j; auto].
    + intros [j [[<-|Hj] H]]; [left; exact H|right; exists j; auto].
Qed.

Lemma expected_stat_NoDup (counts : list nat) (total : nat)
  (range : list nat) :
  NoDup range ->
  NoDup (dict_keys (flat_map (expected_stat counts total) range)).
Proof.
  induction 1 as [|i range Hnotin Hnd IH]; [constructor|].
  cbn [flat_map]. unfold dict_keys in *. rewrite map_app.
  apply NoDup_app.
  - unfold expected_stat.
    destruct (nth_error counts i); [|constructor].
    destruct (Ndvi.map_getitem Ndvi.land_cover_map i) as [[nm col]|];
      [|constructor].
    destruct (0 <? _)%nat; simpl; repeat constructor. intros [].
  - exact IH.
  - intros k Hk Hin.
    apply (expected_stat_keys counts total i k) in Hk
      as [l [c [-> [-> _]]]].
    apply (dict_keys_flat_map (expected_stat counts total)) in Hin
      as [j [Hj Hk]].
    apply expected_stat_keys in Hk as [l' [c' [-> [Hn _]]]].
    apply label_name_inj in Hn. subst. contradiction.
Qed.

(** X9.  In every aggregate result the keys of the land-cover statistics
    are pairwise distinct, every entry counts at least one pixel, and the
    pixel counts add up to the reported total number of pixels. *)
Theorem land_cover_counts_add_up (indices : dict ndarray)
  (a : Ndvi.analysis) :
  Ndvi.create_index_stack_analysis indices = Ok (Ndvi.Analysis a) ->
  NoDup (dict_keys (Ndvi.land_cover_stats a))
  /\ Forall (fun p => (0 < Ndvi.pixel_count (snd p))%nat)
            (Ndvi.land_cover_stats a)
  /\ total_count (Ndvi.land_cover_stats a) = Ndvi.total_pixels a
  /\ (0 < Ndvi.total_pixels a)%nat.
Proof.
  intros Ha.
  destruct (Ndvi.prepare_stack indices) as [s|e] eqn:Hs.
  2:{ exfalso. unfold Ndvi.create_index_stack_analysis in Ha.
      rewrite Hs in Ha. simpl in Ha. discriminate Ha. }
  destruct (create_index_stack_analysis_exact _ _ Hs)
    as [lc [E [L [Hpos [F [_ Hc]]]]]].
  cbv zeta in Hc.
  remember (map (fun k => count_occ Nat.eq_dec lc k) (seq 0 7)) as counts
    eqn:Ecounts.
  remember (flat_map (expected_stat counts (List.length lc)) (seq 0 7))
    as stats eqn:Estats.
  rewrite Hc in Ha. injection Ha as <-.
  change (NoDup (dict_keys stats)
          /\ Forall (fun p => (0 < Ndvi.pixel_count (snd p))%nat) stats
          /\ total_count stats = List.length lc
          /\ (0 < List.length lc)%nat).
  rewrite Estats.
  split; [apply expected_stat_NoDup, seq_NoDup|]. split; [|split].
  - apply Forall_forall. intros [k st] Hin.
    apply in_flat_map in Hin as [i [_ Hin]]. unfold expected_stat in Hin.
    destruct (nth_error _ i); [|destruct Hin].
    destruct (Ndvi.map_getitem Ndvi.land_cover_map i) as [[nm col]|];
      [|destruct Hin].
    destruct (0 <? _)%nat eqn:E0; [|destruct Hin].
    destruct Hin as [Hin|[]]. injection Hin as <- <-.
    simpl. apply Nat.ltb_lt. exact E0.
  - rewrite total_count_expected.
    + rewrite <- (count_codes_sum lc).
      * rewrite Ecounts. clear. cbn [seq map nth]. reflexivity.
      * eapply Forall_impl; [|exact F].
        intros c Hcode. apply classified_code_bounds in Hcode. lia.
    + intros i Hi. apply in_seq in Hi. lia.
    + rewrite Ecounts. reflexivity.
  - exact Hpos.
Qed.

Lemma land_cover_counts_add_up_witness :
  exists a,
    Ndvi.create_index_stack_analysis sample_indices = Ok (Ndvi.Analysis a)
    /\ total_count (Ndvi.land_cover_stats a) = Ndvi.total_pixels a.
Proof.
  eexists. split; [reflexivity|].
  exact (proj1 (proj2 (proj2
    (land_cover_counts_add_up sample_indices _ eq_refl)))).
Defined.

(** What an aggregate result is made of. *)
Lemma analysis_inv (indices : dict ndarray) (a : Ndvi.analysis) :
  Ndvi.create_index_stack_analysis indices = Ok (Ndvi.Analysis a) ->
  exists s lc,
    Ndvi.prepare_stack indices = Ok s
    /\ List.length lc = Ndvi.st_length s
    /\ (0 < List.length lc)%nat
    /\ Forall classified_code lc
    /\ (forall i, (i < Ndvi.st_length s)%nat ->
          nth_error lc i = Some (label_code (pixel_label s i)))
    /\ Ndvi.land_cover_stats a
       = flat_map
           (expected_stat
              (map (fun k => count_occ Nat.eq_dec lc k) (seq 0 7))
              (List.length lc))
           (seq 0 7)
    /\ Ndvi.total_pixels a = List.length lc
    /\ Ndvi.dominant_land_cover a = Ndvi.dominant_of (Ndvi.land_cover_stats a).
Proof.
  intros Ha.
  destruct (Ndvi.prepare_stack indices) as [s|e] eqn:Hs.
  2:{ exfalso. unfold Ndvi.create_index_stack_analysis in Ha.
      rewrite Hs in Ha. simpl in Ha. discriminate Ha. }
  destruct (create_index_stack_analysis_exact _ _ Hs)
    as [lc [E [L [Hpos [F [N Hc]]]]]].
  cbv zeta in Hc.
  remember (flat_map
              (expected_stat
                 (map (fun k => count_occ Nat.eq_dec lc k) (seq 0 7))
                 (List.length lc)) (seq 0 7)) as stats eqn:Estats.
  rewrite Hc in Ha. injection Ha as <-.
  exists s, lc. repeat split; auto.
Qed.

Lemma label_code_inj (l l' : land_cover_label) :
  label_code l = label_code l' -> l = l'.
Proof. destruct l, l'; simpl; intros H; try reflexivity; discriminate H. Qed.

(** The keys of the statistics are the names of the labels that occur. *)
Lemma stats_keys_occur (lc : list nat) (total : nat) (k : string) :
  Forall classified_code lc ->
  In k (dict_keys
          (flat_map
             (expected_stat
                (map (fun k => count_occ Nat.eq_dec lc k) (seq 0 7)) total)
             (seq 0 7))) ->
  exists l, In l classified_labels /\ In (label_code l) lc
            /\ k = label_name l.
Proof.
  intros F Hin.
  apply (dict_keys_flat_map (expected_stat _ total)) in Hin as [i [Hi Hk]].
  apply expected_stat_keys in Hk as [l [c [-> [-> [Hc Hpos]]]]].
  apply in_seq in Hi.
  rewrite nth_error_map, nth_error_seq in Hc.
  replace (label_code l <? 7)%nat with true in Hc
    by (symmetry; apply Nat.ltb_lt; lia).
  simpl in Hc. injection Hc as <-. apply count_occ_In in Hpos.
  exists l. split; [|split; [exact Hpos|reflexivity]].
  destruct (proj1 (Forall_forall _ _) F _ Hpos) as [l' [Hl' El]].
  apply label_code_inj in El. subst. exact Hl'.
Qed.

Lemma stats_nonempty (lc : list nat) (total : nat) :
  Forall classified_code lc -> lc <> [] ->
  flat_map
    (expected_stat (map (fun k => count_occ Nat.eq_dec lc k) (seq 0 7)) total)
    (seq 0 7) <> [].
Proof.
  intros F Hne Hnil. destruct lc as [|c lc]; [congruence|].
  inversion F as [|? ? Hc _]; subst.
  pose proof (classified_code_bounds _ Hc) as Hb.
  destruct Hc as [l [_ ->]].
  assert (Hin : In (label_name l)
                  (dict_keys
                     (flat_map
                        (expected_stat
                           (map (fun k => count_occ Nat.eq_dec
                                            (label_code l :: lc) k)
                                (seq 0 7)) total) (seq 0 7)))).
  { apply (dict_keys_flat_map (expected_stat _ total)).
    exists (label_code l). split; [apply in_seq; lia|].
    destruct (label_map_agrees l) as [color Hm].
    erewrite expected_stat_eq; [| |exact Hm].
    2:{ rewrite nth_error_map, nth_error_seq.
        replace (label_code l <? 7)%nat with true
          by (symmetry; apply Nat.ltb_lt; lia).
        reflexivity. }
    cbv beta.
    destruct (0 <? _)%nat eqn:E0.
    - simpl. left. reflexivity.
    - exfalso. apply Nat.ltb_ge in E0.
      rewrite count_occ_cons_eq in E0 by reflexivity. lia. }
  rewrite Hnil in Hin. exact Hin.
Qed.

Lemma expected_stat_finite (counts : list nat) (total i : nat) (k : string)
  (st : Ndvi.cover_stat) :
  (0 < total)%nat -> In (k, st) (expected_stat counts total i) ->
  is_finite (Ndvi.percentage st) = true.
Proof.
  intros Hpos Hin. unfold expected_stat in Hin.
  destruct (nth_error counts i) as [c|]; [|destruct Hin].
  destruct (Ndvi.map_getitem Ndvi.land_cover_map i) as [[nm col]|];
    [|destruct Hin].
  destruct (0 <? c)%nat; [|destruct Hin].
  destruct Hin as [Hin|[]]. injection Hin as _ <-.
  cbn [Ndvi.percentage]. unfold Ndvi.of_int. cbn [fdiv].
  replace (Qeq_bool (inject_Z (Z.of_nat total)) 0) with false.
  - reflexivity.
  - symmetry. apply Qeq_bool_false.
    pose proof (inject_Z_nat_pos total Hpos). lra.
Qed.

Lemma fle_fin_total (a b : Q) :
  fgt (Fin a) (Fin b) = false -> fle (Fin a) (Fin b) = true.
Proof.
  unfold fgt. cbn [flt fle]. intros H. apply Qlt_bool_false in H.
  apply Qle_bool_iff. exact H.
Qed.

(** The fold of [max(..., key=percentage)]: an item of the list that no
    item exceeds. *)
Lemma dominant_fold_spec (items : dict Ndvi.cover_stat)
  (best : string * Ndvi.cover_stat) :
  Forall (fun x => is_finite (Ndvi.percentage (snd x)) = true)
         (best :: items) ->
  let r := fold_left
             (fun best x =>
                if fgt (Ndvi.percentage (snd x)) (Ndvi.percentage (snd best))
                then x else best)
             items best in
  In r (best :: items)
  /\ forall x, In x (best :: items) ->
       fle (Ndvi.percentage (snd x)) (Ndvi.percentage (snd r)) = true.
Proof.
  revert best. induction items as [|y items IH]; intros best F; cbv zeta.
  - inversion F as [|? ? Hb _]; subst. split; [left; reflexivity|].
    intros x [<-|[]]. cbn [fold_left].
    destruct (Ndvi.percentage (snd best)); try discriminate.
    cbn [fle]. apply Qle_bool_iff. apply Qle_refl.
  - inversion F as [|? ? Hb F']; subst.
    inversion F' as [|? ? Hy F'']; subst.
    cbn [fold_left].
    set (best' := if fgt (Ndvi.percentage (snd y))
                         (Ndvi.percentage (snd best)) then y else best).
    assert (Hfin' : is_finite (Ndvi.percentage (snd best')) = true).
    { unfold best'. destruct (fgt _ _); assumption. }
    destruct (IH best' (Forall_cons _ Hfin' F'')) as [Hin Hmax].
    cbv zeta in Hin, Hmax. split.
    + destruct Hin as [Hin|Hin]; [|right; right; exact Hin].
      rewrite <- Hin. unfold best'. destruct (fgt _ _); simpl; auto.
    + assert (Hbest' : fle (Ndvi.percentage (snd best))
                           (Ndvi.percentage (snd best')) = true
                       /\ fle (Ndvi.percentage (snd y))
                              (Ndvi.percentage (snd best')) = true).
      { unfold best'.
        destruct (Ndvi.percentage (snd best)) as [pb| | |] eqn:Eb;
          try discriminate.
        destruct (Ndvi.percentage (snd y)) as [py| | |] eqn:Ey;
          try discriminate.
        destruct (fgt (Fin py) (Fin pb)) eqn:E; rewrite ?Eb, ?Ey.
        - unfold fgt in E. cbn [flt] in E. apply Qlt_bool_iff in E.
          cbn [fle]. split; apply Qle_bool_iff; lra.
        - split; [cbn [fle]; apply Qle_bool_iff; apply Qle_refl|].
          apply fle_fin_total. exact E. }
      pose proof (Hmax best' (or_introl eq_refl)) as Hr.
      assert (Htrans : forall p,
                 fle p (Ndvi.percentage (snd best')) = true ->
                 fle p (Ndvi.percentage (snd (fold_left
                   (fun best x =>
                      if fgt (Ndvi.percentage (snd x))
                             (Ndvi.percentage (snd best)) then x else best)
                   items best'))) = true).
      { intros p Hp.
        assert (Hfr : is_finite (Ndvi.percentage (snd (fold_left
                   (fun best x =>
                      if fgt (Ndvi.percentage (snd x))
                             (Ndvi.percentage (snd best)) then x else best)
                   items best'))) = true).
        { apply (proj1 (Forall_forall _ _) (Forall_cons _ Hfin' F'') _ Hin). }
        destruct (Ndvi.percentage (snd best')) as [q1| | |];
          try discriminate Hfin'.
        destruct (Ndvi.percentage (snd (fold_left _ items best')))
          as [q2| | |]; try discriminate Hfr.
        destruct p as [q0| | |]; try discriminate Hp; [|reflexivity].
        cbn [fle] in *. apply Qle_bool_iff in Hp, Hr.
        apply Qle_bool_iff. lra. }
      intros x [<-|[<-|Hx]].
      * apply Htrans. apply Hbest'.
      * apply Htrans. apply Hbest'.
      * apply Hmax. right. exact Hx.
Qed.

(** X10.  In every aggregate result the dominant land cover is a key of the
    statistics, names one of the six classified labels (never "Unknown"),
    and no entry has a larger percentage. *)
Theorem dominant_land_cover_maximal (indices : dict ndarray)
  (a : Ndvi.analysis) :
  Ndvi.create_index_stack_analysis indices = Ok (Ndvi.Analysis a) ->
  exists st,
    In (Ndvi.dominant_land_cover a, st) (Ndvi.land_cover_stats a)
    /\ In (Ndvi.dominant_land_cover a) (map label_name classified_labels)
    /\ forall k st', In (k, st') (Ndvi.land_cover_stats a) ->
         fle (Ndvi.percentage st') (Ndvi.percentage st) = true.
Proof.
  intros Ha.
  destruct (analysis_inv _ _ Ha)
    as [s [lc [Hs [L [Hpos [F [N [Est [Et Ed]]]]]]]]].
  assert (Hne : Ndvi.land_cover_stats a <> []).
  { rewrite Est. apply stats_nonempty; [exact F|].
    destruct lc; [simpl in Hpos; lia|congruence]. }
  assert (Hfin : Forall (fun x => is_finite (Ndvi.percentage (snd x)) = true)
                        (Ndvi.land_cover_stats a)).
  { rewrite Est. apply Forall_forall. intros [k st] Hin.
    apply in_flat_map in Hin as [i [_ Hin]].
    eapply expected_stat_finite; [exact Hpos | exact Hin]. }
  assert (Hkeys : forall k, In k (dict_keys (Ndvi.land_cover_stats a)) ->
                    In k (map label_name classified_labels)).
  { intros k Hk. rewrite Est in Hk.
    apply stats_keys_occur in Hk as [l [Hl [_ ->]]]; [|exact F].
    apply in_map. exact Hl. }
  rewrite Ed. destruct (Ndvi.land_cover_stats a) as [|it items];
    [congruence|].
  destruct (dominant_fold_spec items it Hfin) as [Hin Hmax].
  cbv zeta in Hin, Hmax. unfold Ndvi.dominant_of.
  set (r := fold_left _ items it) in *.
  exists (snd r). split; [|split].
  - destruct r as [k st]. exact Hin.
  - apply Hkeys. unfold dict_keys. apply in_map. exact Hin.
  - intros k st' Hk. apply (Hmax (k, st')). exact Hk.
Qed.

Lemma dominant_land_cover_maximal_witness :
  exists a,
    Ndvi.create_index_stack_analysis sample_indices = Ok (Ndvi.Analysis a)
    /\ In (Ndvi.dominant_land_cover a) (map label_name classified_labels).
Proof.
  eexists. split; [reflexivity|].
  destruct (dominant_land_cover_maximal sample_indices _ eq_refl)
    as [st [_ [H _]]].
  exact H.
Defined.

(** X11.  The classifier never raises and never returns the message
    "No valid index data provided": with all four arrays absent or empty it
    returns the error entry built from the exception of [min] on an empty
    list, and with any non-empty array it returns an aggregate result. *)
Theorem land_cover_error_entry (indices : dict ndarray) :
  Ndvi.create_index_stack_analysis indices
  <> Ok (Ndvi.AnalysisError "No valid index data provided")
  /\ ((forall k, In k stack_keys -> get_default indices k [] = []) ->
      Ndvi.create_index_stack_analysis indices
      = Ok (Ndvi.AnalysisError
              "Failed to create index stack analysis: min() arg is an empty sequence"))
  /\ ((exists k, In k stack_keys /\ get_default indices k [] <> []) ->
      exists a,
        Ndvi.create_index_stack_analysis indices = Ok (Ndvi.Analysis a)).
Proof.
  split; [|split].
  - destruct (Ndvi.prepare_stack indices) as [s|e] eqn:Hs.
    + destruct (create_index_stack_analysis_ok _ _ Hs)
        as [lc [stats [_ [_ [_ [_ [E _]]]]]]].
      rewrite E. discriminate.
    + unfold Ndvi.create_index_stack_analysis. rewrite Hs.
      cbn [bind try_except]. intros H. injection H as H.
      cbn in H. discriminate H.
  - intros Hall. unfold Ndvi.create_index_stack_analysis, Ndvi.prepare_stack.
    cbv zeta. unfold stack_keys in Hall.
    rewrite (Hall "ndvi"%string), (Hall "ndwi"%string),
      (Hall "mndwi"%string), (Hall "ndsi"%string) by (simpl; tauto).
    reflexivity.
  - apply create_index_stack_analysis_total.
Qed.

Lemma land_cover_error_entry_witness :
  Ndvi.create_index_stack_analysis [("ndvi"%string, [])]
  = Ok (Ndvi.AnalysisError
          "Failed to create index stack analysis: min() arg is an empty sequence").
Proof.
  apply (proj1 (proj2 (land_cover_error_entry [("ndvi"%string, [])]))).
  intros k Hk. simpl in Hk.
  destruct Hk as [<-|[<-|[<-|[<-|[]]]]]; reflexivity.
Defined.

Lemma land_cover_common_prefix_spec (indices : dict ndarray)
  (a : Ndvi.analysis) :
  Ndvi.create_index_stack_analysis indices = Ok (Ndvi.Analysis a) ->
  (forall k, In k stack_keys -> get_default indices k [] <> [] ->
     (Ndvi.total_pixels a <= List.length (get_default indices k []))%nat)
  /\ exists k, In k stack_keys
               /\ Ndvi.total_pixels a
                  = List.length (get_default indices k []).
Proof.
  intros Ha.
  destruct (analysis_inv _ _ Ha) as [s [lc [Hs [L [_ [_ [_ [_ [Et _]]]]]]]]].
  rewrite Et, L. clear Ha Et L lc.
  unfold Ndvi.prepare_stack in Hs. cbv zeta in Hs.
  destruct (Ndvi.py_min_list _) as [m|e] eqn:Hm; [|discriminate Hs].
  cbn [bind] in Hs. injection Hs as <-. cbn [Ndvi.st_length].
  apply py_min_list_spec in Hm as [Hin Hle]. split.
  - intros k Hk Hne. apply Hle. apply in_map. apply filter_In. split.
    + unfold stack_keys in Hk. simpl in Hk. simpl.
      destruct Hk as [<-|[<-|[<-|[<-|[]]]]]; tauto.
    + apply Nat.ltb_lt. destruct (get_default indices k []);
        [congruence|simpl; lia].
  - apply in_map_iff in Hin as [arr [<- Harr]].
    apply filter_In in Harr as [Harr _]. unfold stack_keys. simpl in Harr.
    destruct Harr as [<-|[<-|[<-|[<-|[]]]]];
      [exists "ndvi"%string | exists "ndwi"%string
      | exists "mndwi"%string | exists "ndsi"%string];
      (split; [simpl; tauto | reflexivity]).
Qed.

Lemma land_cover_common_prefix_aux (indices : dict ndarray)
  (a : Ndvi.analysis) :
  Ndvi.create_index_stack_analysis indices = Ok (Ndvi.Analysis a) ->
  exists k, In k stack_keys
            /\ Ndvi.total_pixels a = List.length (get_default indices k []).
Proof. intros Ha. exact (proj2 (land_cover_common_prefix_spec _ _ Ha)). Qed.

(** X12.  The number of classified pixels is the length of the shortest
    non-empty index array: it is at most the length of every non-empty
    array and equal to the length of one of them. *)
Theorem land_cover_common_prefix (indices : dict ndarray)
  (a : Ndvi.analysis) :
  Ndvi.create_index_stack_analysis indices = Ok (Ndvi.Analysis a) ->
  (forall k, In k stack_keys -> get_default indices k [] <> [] ->
     (Ndvi.total_pixels a <= List.length (get_default indices k []))%nat)
  /\ exists k, In k stack_keys
               /\ Ndvi.total_pixels a
                  = List.length (get_default indices k []).
Proof. exact (land_cover_common_prefix_spec indices a). Qed.

Lemma land_cover_common_prefix_witness :
  exists a,
    Ndvi.create_index_stack_analysis sample_indices = Ok (Ndvi.Analysis a)
    /\ exists k, In k stack_keys
                 /\ Ndvi.total_pixels a
                    = List.length (get_default sample_indices k []).
Proof.
  eexists. split; [reflexivity|].
  exact (proj2 (land_cover_common_prefix sample_indices _ eq_refl)).
Defined.

(** *** Missing index arrays *)

Lemma prepare_stack_arrays (indices : dict ndarray) (s : Ndvi.index_stack) :
  Ndvi.prepare_stack indices = Ok s ->
  Ndvi.st_ndvi s
  = Ndvi.or_full (get_default indices "ndvi" []) (Ndvi.st_length s) (Fin 0.5)
  /\ Ndvi.st_ndwi s
     = Ndvi.or_full (get_default indices "ndwi" []) (Ndvi.st_length s)
         (Fin 0.0)
  /\ Ndvi.st_mndwi s
     = Ndvi.or_full (get_default indices "mndwi" []) (Ndvi.st_length s)
         (Fin 0.0)
  /\ Ndvi.st_ndsi s
     = Ndvi.or_full (get_default indices "ndsi" []) (Ndvi.st_length s)
         (Fin 0.0).
Proof.
  unfold Ndvi.prepare_stack. cbv zeta.
  destruct (Ndvi.py_min_list _) as [m|e]; [|discriminate].
  cbn [bind]. intros H. injection H as <-. repeat split.
Qed.

Lemma nth_or_full_empty (m i : nat) (fill : float) :
  (i < m)%nat -> nth i (Ndvi.or_full [] m fill) NaN = fill.
Proof.
  intros H. unfold Ndvi.or_full. cbn [List.length Nat.ltb Nat.leb].
  rewrite (nth_indep _ NaN fill) by (rewrite repeat_length; exact H).
  apply nth_repeat.
Qed.

(** The labels that occur in an aggregate result are labels of pixels. *)
Lemma stats_keys_pixels (indices : dict ndarray) (a : Ndvi.analysis)
  (k : string) :
  Ndvi.create_index_stack_analysis indices = Ok (Ndvi.Analysis a) ->
  In k (dict_keys (Ndvi.land_cover_stats a)) ->
  exists s i,
    Ndvi.prepare_stack indices = Ok s /\ (i < Ndvi.st_length s)%nat
    /\ k = label_name (pixel_label s i).
Proof.
  intros Ha Hk.
  destruct (analysis_inv _ _ Ha) as [s [lc [Hs [L [_ [F [N [Est _]]]]]]]].
  rewrite Est in Hk. apply stats_keys_occur in Hk as [l [_ [Hin ->]]];
    [|exact F].
  apply In_nth_error in Hin as [i Hi].
  assert (Hlt : (i < Ndvi.st_length s)%nat).
  { rewrite <- L. apply nth_error_Some. congruence. }
  rewrite (N i Hlt) in Hi. injection Hi as Hi.
  apply label_code_inj in Hi. exists s, i. subst. auto.
Qed.

(** X13.  With only an NDVI array (the three water and snow indices absent
    or empty and backfilled with 0.0) every pixel of the NDVI array is
    classified and no pixel is Water or Snow/Ice.  With the NDVI array
    absent or empty (backfilled with 0.5) every pixel is Water, Snow/Ice or
    Sparse Vegetation. *)
Theorem land_cover_backfill (indices : dict ndarray) (a : Ndvi.analysis) :
  Ndvi.create_index_stack_analysis indices = Ok (Ndvi.Analysis a) ->
  (get_default indices "ndwi" [] = [] ->
   get_default indices "mndwi" [] = [] ->
   get_default indices "ndsi" [] = [] ->
   Ndvi.total_pixels a = List.length (get_default indices "ndvi" [])
   /\ forall k, In k (dict_keys (Ndvi.land_cover_stats a)) ->
        In k ["Dense Vegetation"; "Sparse Vegetation"; "Bare Soil/Rock";
              "Urban/Built-up"]%string)
  /\ (get_default indices "ndvi" [] = [] ->
      forall k, In k (dict_keys (Ndvi.land_cover_stats a)) ->
        In k ["Water"; "Snow/Ice"; "Sparse Vegetation"]%string).
Proof.
  intros Ha. split.
  - intros Hw Hm Hd. split.
    + destruct (land_cover_common_prefix_aux indices a Ha) as [k [Hk E]].
      rewrite E. unfold stack_keys in Hk. simpl in Hk.
      destruct Hk as [<-|[<-|[<-|[<-|[]]]]]; try reflexivity;
        exfalso;
        destruct (analysis_inv _ _ Ha)
          as [s [lc [_ [_ [Hpos [_ [_ [_ [Et _]]]]]]]]];
        rewrite Et in E; rewrite ?Hw, ?Hm, ?Hd in E; simpl in E; lia.
    + intros k Hk.
      destruct (stats_keys_pixels _ _ _ Ha Hk) as [s [i [Hs [Hi ->]]]].
      destruct (prepare_stack_arrays _ _ Hs) as [_ [E2 [E3 E4]]].
      unfold pixel_label. rewrite E2, E3, E4, Hw, Hm, Hd.
      rewrite !nth_or_full_empty by exact Hi.
      unfold decide_label.
      change (fgt (Fin 0.0) (Fin 0.4)) with false.
      change (fgt (Fin 0.0) (Fin 0.3)) with false. cbn [orb].
      destruct (fgt _ (Fin 0.6)); [simpl; tauto|].
      destruct (fgt _ (Fin 0.2)); [simpl; tauto|].
      destruct (flt _ (Fin (-0.1))); simpl; tauto.
  - intros Hv k Hk.
    destruct (stats_keys_pixels _ _ _ Ha Hk) as [s [i [Hs [Hi ->]]]].
    destruct (prepare_stack_arrays _ _ Hs) as [E1 _].
    unfold pixel_label. rewrite E1, Hv.
    rewrite nth_or_full_empty by exact Hi.
    unfold decide_label.
    destruct (fgt _ (Fin 0.4)); [simpl; tauto|].
    destruct (fgt _ (Fin 0.3) || fgt _ (Fin 0.3)); [simpl; tauto|].
    change (fgt (Fin 0.5) (Fin 0.6)) with false.
    change (fgt (Fin 0.5) (Fin 0.2)) with true. simpl. tauto.
Qed.

Lemma land_cover_backfill_witness :
  exists a,
    Ndvi.create_index_stack_analysis
      [("ndvi"%string, [Fin 0.9; Fin 0.7; Fin 0.1])] = Ok (Ndvi.Analysis a)
    /\ Ndvi.total_pixels a = 3%nat.
Proof.
  eexists. split; [reflexivity|].
  exact (proj1 (proj1 (land_cover_backfill
                         [("ndvi"%string, [Fin 0.9; Fin 0.7; Fin 0.1])]
                         _ eq_refl) eq_refl eq_refl eq_refl)).
Defined.

(** *** The hyperspectral indices against each other *)

Lemma where_pixel_swap (s g : Q) :
  same_float (where_pixel (Fin s) (Fin g))
             (fopp (where_pixel (Fin g) (Fin s))).
Proof.
  unfold where_pixel, fneb. cbn [fadd feqb].
  destruct (Qeq_bool (s + g) 0) eqn:E1, (Qeq_bool (g + s) 0) eqn:E2;
    cbn [negb].
  - simpl. reflexivity.
  - apply Qeq_bool_iff in E1. apply Qeq_bool_false in E2.
    exfalso. apply E2. rewrite <- E1. ring.
  - apply Qeq_bool_iff in E2. apply Qeq_bool_false in E1.
    exfalso. apply E1. rewrite <- E2. ring.
  - cbn [fsub fopp fadd fdiv]. rewrite E1, E2. cbn [fopp same_float].
    apply Qeq_bool_false in E1, E2. field.
    first [ split; assumption | assumption ].
Qed.

Lemma zip_with_swap_negated (a b : ndarray) :
  List.length a = List.length b -> all_finite a -> all_finite b ->
  Forall2 (fun x y => same_float x (fopp y))
          (zip_with where_pixel a b) (zip_with where_pixel b a).
Proof.
  intros Hlen Ha. revert b Hlen.
  induction Ha as [|x a Hx Ha IH]; intros [|y b] Hlen Hb;
    try discriminate Hlen; [constructor|].
  inversion Hb as [|? ? Hy Hb']; subst. cbn [zip_with]. constructor.
  - destruct x as [s| | |], y as [g| | |]; try discriminate.
    apply where_pixel_swap.
  - apply IH; [now injection Hlen | exact Hb'].
Qed.

Section AnalyzerRelations.

Variable np_std : ndarray -> float.
Variable np_median : ndarray -> float.

(** X14.  In the hyperspectral computation the NDSI array is, pixel by
    pixel, the negation of the MNDWI array: for finite bands the two carry
    the same information with opposite sign. *)
Theorem hyperspectral_ndsi_negates_mndwi
  (data : dict ndarray) (red green nir swir : ndarray) (n : nat) :
  get_default data "red" [] = red ->
  get_default data "green" [] = green ->
  get_default data "nir" [] = nir ->
  get_default data "swir" [] = swir ->
  (0 < n)%nat ->
  List.length red = n -> List.length green = n ->
  List.length nir = n -> List.length swir = n ->
  all_finite green -> all_finite swir ->
  exists d mndwi ndsi,
    Hyperspectral.calculate_spectral_indices np_std np_median data None = Ok d
    /\ values_of d "mndwi" = Some mndwi
    /\ values_of d "ndsi" = Some ndsi
    /\ Forall2 (fun s m => same_float s (fopp m)) ndsi mndwi.
Proof.
  intros Hr Hg Hn Hs Hpos Lr Lg Ln Ls Fg Fs.
  destruct (calculate_spectral_indices_ok np_std np_median data
              red green nir swir n)
    as [d [Hd [_ [_ [_ [V3 [V4 _]]]]]]]; try assumption.
  exists d. do 2 eexists. split; [exact Hd|]. split; [exact V3|].
  split; [exact V4|]. apply zip_with_swap_negated; congruence.
Qed.

Lemma calculate_spectral_indices_override
  (data : dict ndarray) (red green nir swir : ndarray) (n : nat) (v : float) :
  get_default data "red" [] = red ->
  get_default data "green" [] = green ->
  get_default data "nir" [] = nir ->
  get_default data "swir" [] = swir ->
  (0 < n)%nat ->
  List.length red = n -> List.length green = n ->
  List.length nir = n -> List.length swir = n ->
  exists d s,
    Hyperspectral.calculate_spectral_indices np_std np_median data (Some v)
    = Ok d
    /\ dict_keys d = ["ndvi"; "ndwi"; "mndwi"; "ndsi"; "red_edge_ndvi"]%string
    /\ dict_get d "ndvi" = Some s
    /\ Hyperspectral.values s = repeat v n
    /\ np_min (repeat v n) = Ok (Hyperspectral.min s)
    /\ np_max (repeat v n) = Ok (Hyperspectral.max s)
    /\ values_of d "ndwi" = Some (zip_with where_pixel nir swir)
    /\ values_of d "mndwi" = Some (zip_with where_pixel green swir)
    /\ values_of d "ndsi" = Some (zip_with where_pixel swir green)
    /\ values_of d "red_edge_ndvi" =
       Some (zip_with where_pixel (np_scale nir (Fin 1.1))
                                  (np_scale red (Fin 0.9))).
Proof.
  intros Hr Hg Hn Hs Hpos Lr Lg Ln Ls.
  unfold Hyperspectral.calculate_spectral_indices,
    Hyperspectral.calculate_spectral_indices_body.
  rewrite Hr, Hg, Hn, Hs.
  replace ((List.length red =? 0)%nat || (List.length nir =? 0)%nat)
    with false
    by (symmetry; apply orb_false_iff; split; apply Nat.eqb_neq; lia).
  replace (0 <? List.length red)%nat with true
    by (symmetry; apply Nat.ltb_lt; lia).
  rewrite Lr.
  rewrite !index_where_ok
    by (unfold np_scale; rewrite ?length_map; congruence).
  cbn [bind].
  assert (Hrep : repeat v n <> []) by (destruct n; [lia|simpl; congruence]).
  unfold Hyperspectral.get_stats at 1.
  destruct (np_min_nonempty _ Hrep) as [mn Emn].
  destruct (np_max_nonempty _ Hrep) as [mx Emx].
  rewrite Emn, Emx. cbn [bind].
  destruct (get_stats_ok np_std np_median (zip_with where_pixel nir swir))
    as [s2 [-> V2]]; [apply zip_with_nonempty; lia|].
  destruct (get_stats_ok np_std np_median (zip_with where_pixel green swir))
    as [s3 [-> V3]]; [apply zip_with_nonempty; lia|].
  destruct (get_stats_ok np_std np_median (zip_with where_pixel swir green))
    as [s4 [-> V4]]; [apply zip_with_nonempty; lia|].
  destruct (get_stats_ok np_std np_median
              (zip_with where_pixel (np_scale nir (Fin 1.1))
                 (np_scale red (Fin 0.9)))) as [s5 [-> V5]];
    [apply zip_with_nonempty; unfold np_scale; rewrite ?length_map; lia|].
  cbn [bind try_except]. do 2 eexists. split; [reflexivity|].
  split; [reflexivity|]. split; [cbn; reflexivity|].
  split; [reflexivity|]. split; [reflexivity|]. split; [reflexivity|].
  unfold values_of. cbn. rewrite V2, V3, V4, V5. repeat split.
Qed.

Lemma fold_fmin_repeat (q : Q) (k : nat) :
  fold_left np_fmin (repeat (Fin q) k) (Fin q) = Fin q.
Proof.
  induction k as [|k IH]; [reflexivity|].
  cbn [repeat fold_left]. replace (np_fmin (Fin q) (Fin q)) with (Fin q);
    [exact IH|].
  unfold np_fmin. cbn. unfold Qlt_bool.
  replace (Qle_bool q q) with true; [reflexivity|].
  symmetry. apply Qle_bool_iff. apply Qle_refl.
Qed.

Lemma fold_fmax_repeat (q : Q) (k : nat) :
  fold_left np_fmax (repeat (Fin q) k) (Fin q) = Fin q.
Proof.
  induction k as [|k IH]; [reflexivity|].
  cbn [repeat fold_left]. replace (np_fmax (Fin q) (Fin q)) with (Fin q);
    [exact IH|].
  unfold np_fmax. cbn. unfold Qlt_bool.
  replace (Qle_bool q q) with true; [reflexivity|].
  symmetry. apply Qle_bool_iff. apply Qle_refl.
Qed.

(** X15.  A [real_ndvi] override replaces the NDVI array by the constant
    array of that value, one element per red sample, whose minimum and
    maximum are the value itself when it is finite; the four other indices
    are still computed from the bands, exactly as without the override. *)
Theorem real_ndvi_override
  (data : dict ndarray) (red green nir swir : ndarray) (n : nat) (q : Q) :
  get_default data "red" [] = red ->
  get_default data "green" [] = green ->
  get_default data "nir" [] = nir ->
  get_default data "swir" [] = swir ->
  (0 < n)%nat ->
  List.length red = n -> List.length green = n ->
  List.length nir = n -> List.length swir = n ->
  exists d d0 s,
    Hyperspectral.calculate_spectral_indices np_std np_median data
      (Some (Fin q)) = Ok d
    /\ Hyperspectral.calculate_spectral_indices np_std np_median data None
       = Ok d0
    /\ dict_get d "ndvi" = Some s
    /\ Hyperspectral.values s = repeat (Fin q) n
    /\ Hyperspectral.min s = Fin q
    /\ Hyperspectral.max s = Fin q
    /\ forall name,
         In name ["ndwi"; "mndwi"; "ndsi"; "red_edge_ndvi"]%string ->
         values_of d name = values_of d0 name.
Proof.
  intros Hr Hg Hn Hs Hpos Lr Lg Ln Ls.
  destruct (calculate_spectral_indices_override data red green nir swir n
              (Fin q))
    as [d [s [Hd [_ [Hs1 [Hv [Hmn [Hmx [V2 [V3 [V4 V5]]]]]]]]]]];
    try assumption.
  destruct (calculate_spectral_indices_ok np_std np_median data
              red green nir swir n)
    as [d0 [Hd0 [_ [_ [W2 [W3 [W4 W5]]]]]]]; try assumption.
  exists d, d0, s. split; [exact Hd|]. split; [exact Hd0|].
  split; [exact Hs1|]. split; [exact Hv|].
  destruct n as [|k]; [lia|]. cbn [repeat np_min np_max] in Hmn, Hmx.
  rewrite fold_fmin_repeat in Hmn. rewrite fold_fmax_repeat in Hmx.
  split; [congruence|]. split; [congruence|].
  intros name Hin. simpl in Hin.
  destruct Hin as [<-|[<-|[<-|[<-|[]]]]]; congruence.
Qed.

End AnalyzerRelations.

Lemma hyperspectral_ndsi_negates_mndwi_witness :
  exists d mndwi ndsi,
    Hyperspectral.calculate_spectral_indices (fun _ => NaN) (fun _ => NaN)
      physical_bands None = Ok d
    /\ values_of d "mndwi" = Some mndwi
    /\ values_of d "ndsi" = Some ndsi
    /\ Forall2 (fun s m => same_float s (fopp m)) ndsi mndwi.
Proof.
  apply (hyperspectral_ndsi_negates_mndwi (fun _ => NaN) (fun _ => NaN)
           physical_bands (map Fin [0.05; 0.06]) (map Fin [0.07; 0.08])
           (map Fin [0.6; 0.7]) (map Fin [0.1; 0.12]) 2);
    try reflexivity; try lia; repeat constructor.
Defined.

Lemma real_ndvi_override_witness :
  exists d s,
    Hyperspectral.calculate_spectral_indices (fun _ => NaN) (fun _ => NaN)
      physical_bands (Some (Fin 0.42)) = Ok d
    /\ dict_get d "ndvi" = Some s
    /\ Hyperspectral.values s = [Fin 0.42; Fin 0.42].
Proof.
  destruct (real_ndvi_override (fun _ => NaN) (fun _ => NaN)
              physical_bands (map Fin [0.05; 0.06]) (map Fin [0.07; 0.08])
              (map Fin [0.6; 0.7]) (map Fin [0.1; 0.12]) 2 0.42
              eq_refl eq_refl eq_refl eq_refl
              (le_S 1 1 (le_n 1)) eq_refl eq_refl eq_refl eq_refl)
    as [d [d0 [s [Hd [_ [Hs [Hv _]]]]]]].
  exists d, s. split; [exact Hd|]. split; [exact Hs | exact Hv].
Defined.

(** *** Counters *)

Lemma dict_get_set_same {V : Type} (d : dict V) (k : string) (v : V) :
  dict_get (dict_set d k v) k = Some v.
Proof.
  induction d as [|[k' v'] d IH]; simpl.
  - rewrite String.eqb_refl. reflexivity.
  - destruct (String.eqb k k') eqn:E; simpl; rewrite ?E; auto.
Qed.

Lemma dict_get_set_other {V : Type} (d : dict V) (k k0 : string) (v : V) :
  k0 <> k -> dict_get (dict_set d k v) k0 = dict_get d k0.
Proof.
  intros Hne. induction d as [|[k' v'] d IH]; simpl.
  - replace (String.eqb k0 k) with false
      by (symmetry; apply String.eqb_neq; exact Hne).
    reflexivity.
  - destruct (String.eqb k k') eqn:E; simpl.
    + apply String.eqb_eq in E. subst.
      replace (String.eqb k0 k') with false
        by (symmetry; apply String.eqb_neq; exact Hne).
      reflexivity.
    + rewrite IH. reflexivity.
Qed.

Lemma dict_set_keys_NoDup {V : Type} (d : dict V) (k : string) (v : V) :
  NoDup (dict_keys d) -> NoDup (dict_keys (dict_set d k v)).
Proof.
  unfold dict_keys. induction d as [|[k' v'] d IH]; simpl; intros H.
  - repeat constructor. intros [].
  - inversion H as [|? ? Hnotin Hnd]; subst.
    destruct (String.eqb k k') eqn:E; simpl.
    + constructor; assumption.
    + constructor; [|apply IH; exact Hnd].
      intros Hin. apply (dict_set_keys d k v k') in Hin as [Hin|Hin].
      * subst. rewrite String.eqb_refl in E. discriminate.
      * apply Hnotin. exact Hin.
Qed.

Lemma dict_set_sum (d : dict nat) (k : string) :
  list_sum (map snd (dict_set d k (S (get_default d k 0%nat))))
  = S (list_sum (map snd d)).
Proof.
  unfold get_default. induction d as [|[k' v'] d IH]; simpl.
  - reflexivity.
  - destruct (String.eqb k k') eqn:E; simpl.
    + reflexivity.
    + rewrite IH. lia.
Qed.

Lemma counter_spec (l : list string) (c : dict nat) :
  NoDup (dict_keys c) ->
  let r := fold_left Hyperspectral.counter_add l c in
  NoDup (dict_keys r)
  /\ (forall k, get_default r k 0%nat
                = (get_default c k 0 + count_label l k)%nat)
  /\ (forall k, In k (dict_keys r) <-> In k (dict_keys c) \/ In k l)
  /\ list_sum (map snd r) = (list_sum (map snd c) + List.length l)%nat.
Proof.
  revert c. induction l as [|x l IH]; intros c Hnd; cbv zeta.
  - cbn [fold_left]. split; [exact Hnd|].
    split; [intros k; unfold count_label; simpl; lia|].
    split; [intros k; simpl; tauto|]. simpl. lia.
  - cbn [fold_left].
    destruct (IH (Hyperspectral.counter_add c x)) as [H1 [H2 [H3 H4]]].
    { apply dict_set_keys_NoDup. exact Hnd. }
    cbv zeta in H1, H2, H3, H4. split; [exact H1|]. split; [|split].
    + intros k. rewrite H2. unfold count_label. cbn [count_occ].
      unfold Hyperspectral.counter_add, get_default at 1.
      destruct (string_dec x k) as [->|Hne].
      * rewrite dict_get_set_same. lia.
      * rewrite dict_get_set_other by congruence.
        fold (get_default c k 0%nat). lia.
    + intros k. rewrite H3. unfold Hyperspectral.counter_add.
      rewrite dict_set_keys. simpl. intuition.
    + rewrite H4. unfold Hyperspectral.counter_add.
      rewrite dict_set_sum. simpl. lia.
Qed.

Lemma report_is_histogram (score : dict nat -> float) (labels : list string) :
  is_histogram (Hyperspectral.report_of score labels).
Proof.
  unfold is_histogram, Hyperspectral.report_of.
  cbn [Hyperspectral.statistics Hyperspectral.classifications].
  unfold Hyperspectral.Counter.
  destruct (counter_spec labels []) as [H1 [H2 [H3 H4]]]; [constructor|].
  cbv zeta in *. split; [exact H1|]. split; [|split].
  - intros k. rewrite H2. reflexivity.
  - intros k. rewrite H3. simpl. tauto.
  - rewrite H4. reflexivity.
Qed.

(** *** The loop over pixels *)

Lemma zones_loop_spec (th : float) (ndvi ndwi ndsi : ndarray) (m : nat) :
  forall k crop soil,
    (k + m <= List.length ndvi)%nat ->
    (k + m <= List.length ndwi)%nat ->
    (k + m <= List.length ndsi)%nat ->
    Hyperspectral.zones_loop th ndvi ndwi ndsi (seq k m) crop soil
    = Ok (crop ++ map (fun i => Hyperspectral.classify_crop_health th
                                  (nth i ndvi NaN) (nth i ndwi NaN))
                      (seq k m),
          soil ++ map (fun i => Hyperspectral.classify_soil_health
                                  (nth i ndvi NaN) (nth i ndsi NaN))
                      (seq k m)).
Proof.
  induction m as [|m IH]; intros k crop soil H1 H2 H3.
  - simpl. rewrite !app_nil_r. reflexivity.
  - cbn [seq Hyperspectral.zones_loop map]. unfold Ndvi.getitem.
    rewrite (nth_error_nth' ndvi NaN) by lia.
    rewrite (nth_error_nth' ndwi NaN) by lia.
    rewrite (nth_error_nth' ndsi NaN) by lia. cbn [bind].
    rewrite IH by lia. rewrite <- !app_assoc. reflexivity.
Qed.

Lemma map_nth_zip_with {A : Type} (f : float -> float -> A)
  (a b : ndarray) :
  List.length a = List.length b ->
  map (fun i => f (nth i a NaN) (nth i b NaN)) (seq 0 (List.length a))
  = zip_with f a b.
Proof.
  revert b. induction a as [|x a IH]; intros [|y b] H;
    try discriminate H; [reflexivity|].
  cbn [List.length seq map zip_with nth]. f_equal.
  rewrite <- seq_shift, map_map. cbn [nth]. apply IH. now injection H.
Qed.

(** The loop raises when the NDWI or the NDSI array is shorter than the
    NDVI array. *)
Lemma zones_loop_short (th : float) (ndvi ndwi ndsi : ndarray) (m : nat) :
  forall k crop soil,
    (k + m <= List.length ndvi)%nat ->
    (k <= List.length ndwi)%nat -> (k <= List.length ndsi)%nat ->
    (List.length ndwi < k + m \/ List.length ndsi < k + m)%nat ->
    exists e,
      Hyperspectral.zones_loop th ndvi ndwi ndsi (seq k m) crop soil
      = Raise e.
Proof.
  induction m as [|m IH]; intros k crop soil H1 Hw Hd H2.
  - exfalso. destruct H2; lia.
  - cbn [seq Hyperspectral.zones_loop]. unfold Ndvi.getitem.
    rewrite (nth_error_nth' ndvi NaN) by lia. cbn [bind].
    destruct (nth_error ndwi k) as [w|] eqn:Ew; [|cbn [bind]; eauto].
    cbn [bind].
    destruct (nth_error ndsi k) as [d|] eqn:Ed; [|cbn [bind]; eauto].
    cbn [bind].
    assert (k < List.length ndwi)%nat by (apply nth_error_Some; congruence).
    assert (k < List.length ndsi)%nat by (apply nth_error_Some; congruence).
    apply IH; lia.
Qed.

(** *** Health zones *)

Lemma analyze_health_zones_ok (indices : dict Hyperspectral.stats)
  (crop_type : string) (ndvi ndwi ndsi : ndarray) :
  zone_inputs indices = (ndvi, ndwi, ndsi) ->
  List.length ndwi = List.length ndvi ->
  List.length ndsi = List.length ndvi ->
  let crop := crop_labels (healthy_ndvi_of crop_type) ndvi ndwi in
  let soil := soil_labels ndvi ndsi in
  let crop_report :=
    Hyperspectral.report_of Hyperspectral._calculate_health_score crop in
  let soil_report :=
    Hyperspectral.report_of Hyperspectral._calculate_soil_score soil in
  Hyperspectral.analyze_health_zones indices crop_type
  = Ok (Some (Hyperspectral.mk_health_zones crop_report soil_report
                (Hyperspectral.variability
                   (Hyperspectral.statistics crop_report) crop)
                (Hyperspectral.variability
                   (Hyperspectral.statistics soil_report) soil))).
Proof.
  intros Hin Lw Ld. unfold zone_inputs in Hin. injection Hin as Hv Hw Hd.
  cbv zeta. unfold Hyperspectral.analyze_health_zones. cbv zeta.
  rewrite Hv, Hw, Hd.
  rewrite zones_loop_spec by (simpl; lia). cbn [bind app try_except].
  fold (healthy_ndvi_of crop_type).
  rewrite (map_nth_zip_with
             (Hyperspectral.classify_crop_health (healthy_ndvi_of crop_type)))
    by congruence.
  rewrite (map_nth_zip_with Hyperspectral.classify_soil_health)
    by congruence.
  reflexivity.
Qed.

(** X16.  For index entries whose value arrays have one length, the
    health-zone analysis labels every pixel (one crop label and one soil
    label per NDVI value), and the statistics of each report are exactly
    the histogram of its labels: distinct keys, the count of each label,
    and counts that add up to the number of pixels. *)
Theorem health_zones_histogram (indices : dict Hyperspectral.stats)
  (crop_type : string) (ndvi ndwi ndsi : ndarray) :
  zone_inputs indices = (ndvi, ndwi, ndsi) ->
  List.length ndwi = List.length ndvi ->
  List.length ndsi = List.length ndvi ->
  exists hz,
    Hyperspectral.analyze_health_zones indices crop_type = Ok (Some hz)
    /\ Hyperspectral.classifications (Hyperspectral.crop_health hz)
       = crop_labels (healthy_ndvi_of crop_type) ndvi ndwi
    /\ Hyperspectral.classifications (Hyperspectral.soil_health hz)
       = soil_labels ndvi ndsi
    /\ List.length
         (Hyperspectral.classifications (Hyperspectral.crop_health hz))
       = List.length ndvi
    /\ List.length
         (Hyperspectral.classifications (Hyperspectral.soil_health hz))
       = List.length ndvi
    /\ is_histogram (Hyperspectral.crop_health hz)
    /\ is_histogram (Hyperspectral.soil_health hz).
Proof.
  intros Hin Lw Ld.
  pose proof (analyze_health_zones_ok indices crop_type ndvi ndwi ndsi
                Hin Lw Ld) as E. cbv zeta in E.
  eexists. split; [exact E|].
  cbn [Hyperspectral.crop_health Hyperspectral.soil_health].
  split; [reflexivity|]. split; [reflexivity|].
  split; [unfold crop_labels; cbn; apply zip_with_length; congruence|].
  split; [unfold soil_labels; cbn; apply zip_with_length; congruence|].
  split; apply report_is_histogram.
Qed.

Lemma health_zones_histogram_witness :
  exists hz,
    Hyperspectral.analyze_health_zones sample_zone_indices "rice"
    = Ok (Some hz)
    /\ is_histogram (Hyperspectral.crop_health hz).
Proof.
  destruct (health_zones_histogram sample_zone_indices "rice"
              _ _ _ eq_refl eq_refl eq_refl)
    as [hz [E [_ [_ [_ [_ [H _]]]]]]].
  exists hz. split; [exact E | exact H].
Defined.

(** X17.  When the NDWI or the NDSI value array is shorter than the NDVI
    value array the analysis does not fail: the index error of the loop is
    caught and the function returns the empty dictionary. *)
Theorem health_zones_short_array (indices : dict Hyperspectral.stats)
  (crop_type : string) (ndvi ndwi ndsi : ndarray) :
  zone_inputs indices = (ndvi, ndwi, ndsi) ->
  (List.length ndwi < List.length ndvi
   \/ List.length ndsi < List.length ndvi)%nat ->
  Hyperspectral.analyze_health_zones indices crop_type = Ok None.
Proof.
  intros Hin Hshort. unfold zone_inputs in Hin. injection Hin as Hv Hw Hd.
  unfold Hyperspectral.analyze_health_zones. cbv zeta.
  rewrite Hv, Hw, Hd.
  destruct (zones_loop_short
              (get_default Hyperspectral.crop_thresholds crop_type (Fin 0.7))
              ndvi ndwi ndsi (List.length ndvi) 0 [] [])
    as [e ->]; simpl; try lia.
  reflexivity.
Qed.

Lemma health_zones_short_array_witness :
  Hyperspectral.analyze_health_zones
    [("ndvi"%string,
      Hyperspectral.mk_stats NaN NaN NaN NaN NaN [Fin 0.9; Fin 0.1])]
    "rice" = Ok None.
Proof.
  apply (health_zones_short_array _ "rice" [Fin 0.9; Fin 0.1] [] []);
    [reflexivity | left; simpl; lia].
Defined.

(** *** Zone scores *)

Lemma fold_left_add_list_sum (l : list nat) (a : nat) :
  fold_left Nat.add l a = (a + list_sum l)%nat.
Proof.
  revert a. induction l as [|x l IH]; intros a; simpl; [lia|].
  rewrite IH. lia.
Qed.

Lemma crop_labels_statuses (th : float) (ndvi ndwi : ndarray) :
  Forall (fun k => In k crop_statuses) (crop_labels th ndvi ndwi).
Proof.
  unfold crop_labels. revert ndwi.
  induction ndvi as [|v ndvi IH]; intros [|w ndwi]; simpl; constructor;
    [|apply IH].
  unfold Hyperspectral.classify_crop_health, crop_statuses.
  destruct (_ && _); [simpl; tauto|].
  destruct (_ && _); [simpl; tauto|].
  destruct (_ && _); simpl; tauto.
Qed.

Lemma soil_labels_statuses (ndvi ndsi : ndarray) :
  Forall (fun k => In k soil_statuses) (soil_labels ndvi ndsi).
Proof.
  unfold soil_labels. revert ndsi.
  induction ndvi as [|v ndvi IH]; intros [|d ndsi]; simpl; constructor;
    [|apply IH].
  unfold Hyperspectral.classify_soil_health, soil_statuses.
  destruct (_ && _); [simpl; tauto|].
  destruct (_ && _); simpl; tauto.
Qed.

Lemma count_crop_sum (labels : list string) :
  Forall (fun k => In k crop_statuses) labels ->
  (count_label labels "excellent" + count_label labels "good"
   + count_label labels "moderate" + count_label labels "poor")%nat
  = List.length labels.
Proof.
  unfold count_label.
  induction 1 as [|x labels Hx Hl IH]; [reflexivity|].
  cbn [count_occ List.length]. unfold crop_statuses in Hx. simpl in Hx.
  destruct Hx as [<-|[<-|[<-|[<-|[]]]]];
    repeat match goal with
      | |- context [string_dec ?a ?b] =>
          destruct (string_dec a b); try congruence
      end; lia.
Qed.

Lemma count_soil_sum (labels : list string) :
  Forall (fun k => In k soil_statuses) labels ->
  (count_label labels "healthy" + count_label labels "moderate"
   + count_label labels "degraded")%nat
  = List.length labels.
Proof.
  unfold count_label.
  induction 1 as [|x labels Hx Hl IH]; [reflexivity|].
  cbn [count_occ List.length]. unfold soil_statuses in Hx. simpl in Hx.
  destruct Hx as [<-|[<-|[<-|[]]]];
    repeat match goal with
      | |- context [string_dec ?a ?b] =>
          destruct (string_dec a b); try congruence
      end; lia.
Qed.

Lemma inject_nat_nonneg (n : nat) : 0 <= inject_Z (Z.of_nat n).
Proof. change 0 with (inject_Z 0). rewrite <- Zle_Qle. lia. Qed.

Lemma counter_total (labels : list string) :
  fold_left Nat.add (map snd (Hyperspectral.Counter labels)) 0%nat
  = List.length labels.
Proof.
  rewrite fold_left_add_list_sum. unfold Hyperspectral.Counter.
  destruct (counter_spec labels []) as [_ [_ [_ H]]]; [constructor|].
  cbv zeta in H. rewrite H. reflexivity.
Qed.

Lemma counter_get (labels : list string) (k : string) :
  get_default (Hyperspectral.Counter labels) k 0%nat = count_label labels k.
Proof.
  unfold Hyperspectral.Counter.
  destruct (counter_spec labels []) as [_ [H _]]; [constructor|].
  cbv zeta in H. rewrite H. reflexivity.
Qed.

Lemma crop_score_bounds (labels : list string) :
  labels <> [] -> Forall (fun k => In k crop_statuses) labels ->
  finite_in 0.25 1
    (Hyperspectral._calculate_health_score (Hyperspectral.Counter labels)).
Proof.
  intros Hne Hl.
  unfold Hyperspectral._calculate_health_score, Hyperspectral.weighted_score.
  cbv zeta. rewrite counter_total.
  assert (Hpos : (0 < List.length labels)%nat)
    by (destruct labels; [congruence|simpl; lia]).
  replace (List.length labels =? 0)%nat with false
    by (symmetry; apply Nat.eqb_neq; lia).
  cbn [map fst snd fold_left fadd fmul]. rewrite !counter_get.
  pose proof (count_crop_sum labels Hl) as Hsum.
  pose proof (inject_Z_nat_pos _ Hpos) as HT.
  cbn [fdiv].
  replace (Qeq_bool (inject_Z (Z.of_nat (List.length labels))) 0) with false
    by (symmetry; apply Qeq_bool_false; lra).
  cbn [finite_in].
  assert (ET : inject_Z (Z.of_nat (List.length labels))
               == inject_Z (Z.of_nat (count_label labels "excellent"))
                  + inject_Z (Z.of_nat (count_label labels "good"))
                  + inject_Z (Z.of_nat (count_label labels "moderate"))
                  + inject_Z (Z.of_nat (count_label labels "poor"))).
  { rewrite <- Hsum. rewrite !Nat2Z.inj_add, !inject_Z_plus. reflexivity. }
  pose proof (inject_nat_nonneg (count_label labels "excellent")).
  pose proof (inject_nat_nonneg (count_label labels "good")).
  pose proof (inject_nat_nonneg (count_label labels "moderate")).
  pose proof (inject_nat_nonneg (count_label labels "poor")).
  split.
  - apply Qle_shift_div_l; [exact HT|]. rewrite ET. lra.
  - apply Qle_shift_div_r; [exact HT|]. rewrite ET. lra.
Qed.

Lemma soil_score_bounds (labels : list string) :
  labels <> [] -> Forall (fun k => In k soil_statuses) labels ->
  finite_in 0.19 1
    (Hyperspectral._calculate_soil_score (Hyperspectral.Counter labels)).
Proof.
  intros Hne Hl.
  unfold Hyperspectral._calculate_soil_score, Hyperspectral.weighted_score.
  cbv zeta. rewrite counter_total.
  assert (Hpos : (0 < List.length labels)%nat)
    by (destruct labels; [congruence|simpl; lia]).
  replace (List.length labels =? 0)%nat with false
    by (symmetry; apply Nat.eqb_neq; lia).
  cbn [map fst snd fold_left fadd fmul]. rewrite !counter_get.
  pose proof (count_soil_sum labels Hl) as Hsum.
  pose proof (inject_Z_nat_pos _ Hpos) as HT.
  cbn [fdiv].
  replace (Qeq_bool (inject_Z (Z.of_nat (List.length labels))) 0) with false
    by (symmetry; apply Qeq_bool_false; lra).
  cbn [finite_in].
  assert (ET : inject_Z (Z.of_nat (List.length labels))
               == inject_Z (Z.of_nat (count_label labels "healthy"))
                  + inject_Z (Z.of_nat (count_label labels "moderate"))
                  + inject_Z (Z.of_nat (count_label labels "degraded"))).
  { rewrite <- Hsum. rewrite !Nat2Z.inj_add, !inject_Z_plus. reflexivity. }
  pose proof (inject_nat_nonneg (count_label labels "healthy")).
  pose proof (inject_nat_nonneg (count_label labels "moderate")).
  pose proof (inject_nat_nonneg (count_label labels "degraded")).
  split.
  - apply Qle_shift_div_l; [exact HT|]. rewrite ET. lra.
  - apply Qle_shift_div_r; [exact HT|]. rewrite ET. lra.
Qed.

(** X18.  For index entries of one positive length the overall crop score
    is a finite value between 0.25 and 1 and the overall soil score a
    finite value between 0.19 and 1 (its lowest weight is 0.2, which the
    quotient of the weighted sum by the pixel count reaches only up to
    rounding); without any pixel both scores are the neutral 0.5 and both
    dominant zones are "unknown". *)
Theorem health_zone_scores (indices : dict Hyperspectral.stats)
  (crop_type : string) (ndvi ndwi ndsi : ndarray) :
  zone_inputs indices = (ndvi, ndwi, ndsi) ->
  List.length ndwi = List.length ndvi ->
  List.length ndsi = List.length ndvi ->
  exists hz,
    Hyperspectral.analyze_health_zones indices crop_type = Ok (Some hz)
    /\ (ndvi <> [] ->
        finite_in 0.25 1
          (Hyperspectral.overall_score (Hyperspectral.crop_health hz))
        /\ finite_in 0.19 1
             (Hyperspectral.overall_score (Hyperspectral.soil_health hz)))
    /\ (ndvi = [] ->
        Hyperspectral.overall_score (Hyperspectral.crop_health hz) = Fin 0.5
        /\ Hyperspectral.overall_score (Hyperspectral.soil_health hz)
           = Fin 0.5
        /\ Hyperspectral.dominant_zone (Hyperspectral.crop_health hz)
           = "unknown"%string
        /\ Hyperspectral.dominant_zone (Hyperspectral.soil_health hz)
           = "unknown"%string).
Proof.
  intros Hin Lw Ld.
  pose proof (analyze_health_zones_ok indices crop_type ndvi ndwi ndsi
                Hin Lw Ld) as E. cbv zeta in E.
  eexists. split; [exact E|].
  cbn [Hyperspectral.crop_health Hyperspectral.soil_health].
  unfold Hyperspectral.report_of.
  cbn [Hyperspectral.overall_score Hyperspectral.dominant_zone]. split.
  - intros Hne. split.
    + apply crop_score_bounds; [|apply crop_labels_statuses].
      unfold crop_labels. destruct ndvi, ndwi; simpl in *; congruence.
    + apply soil_score_bounds; [|apply soil_labels_statuses].
      unfold soil_labels. destruct ndvi, ndsi; simpl in *; congruence.
  - intros ->. repeat split.
Qed.

Lemma health_zone_scores_witness :
  exists hz,
    Hyperspectral.analyze_health_zones sample_zone_indices "rice"
    = Ok (Some hz)
    /\ finite_in 0.25 1
         (Hyperspectral.overall_score (Hyperspectral.crop_health hz)).
Proof.
  destruct (health_zone_scores sample_zone_indices "rice"
              _ _ _ eq_refl eq_refl eq_refl) as [hz [E [H _]]].
  exists hz. split; [exact E|]. apply H. discriminate.
Defined.

(** *** Dominant zone *)

Lemma most_common_fold_spec (items : dict nat) (best : string * nat) :
  let r := fold_left
             (fun best x => if (snd best <? snd x)%nat then x else best)
             items best in
  In r (best :: items)
  /\ forall x, In x (best :: items) -> (snd x <= snd r)%nat.
Proof.
  revert best. induction items as [|y items IH]; intros best; cbv zeta.
  - split; [left; reflexivity|]. intros x [<-|[]]. simpl. lia.
  - cbn [fold_left].
    set (best' := if (snd best <? snd y)%nat then y else best).
    destruct (IH best') as [Hin Hmax]. cbv zeta in Hin, Hmax.
    assert (Hb : (snd best <= snd best')%nat /\ (snd y <= snd best')%nat).
    { unfold best'. destruct (snd best <? snd y)%nat eqn:E.
      - apply Nat.ltb_lt in E. lia.
      - apply Nat.ltb_ge in E. lia. }
    pose proof (Hmax best' (or_introl eq_refl)) as Hr. split.
    + destruct Hin as [Hin|Hin]; [|right; right; exact Hin].
      rewrite <- Hin. unfold best'. destruct (_ <? _)%nat; simpl; auto.
    + intros x [<-|[<-|Hx]]; [lia | lia | apply Hmax; right; exact Hx].
Qed.

Lemma dict_get_in {V : Type} (d : dict V) (k : string) (v : V) :
  NoDup (dict_keys d) -> In (k, v) d -> dict_get d k = Some v.
Proof.
  unfold dict_keys. induction d as [|[k' v'] d IH]; simpl; intros Hnd Hin;
    [destruct Hin|].
  inversion Hnd as [|? ? Hnotin Hnd']; subst.
  destruct Hin as [Hin|Hin].
  - injection Hin as -> ->. rewrite String.eqb_refl. reflexivity.
  - destruct (String.eqb k k') eqn:E.
    + apply String.eqb_eq in E. subst. exfalso. apply Hnotin.
      apply (in_map fst) in Hin. exact Hin.
    + apply IH; assumption.
Qed.

Lemma most_common_spec (labels : list string) :
  labels <> [] ->
  let k := Hyperspectral.most_common_key (Hyperspectral.Counter labels)
             "unknown" in
  In k labels
  /\ forall k', (count_label labels k' <= count_label labels k)%nat.
Proof.
  intros Hne. cbv zeta.
  pose proof (report_is_histogram (fun _ => NaN) labels) as
    [Hnd [Hget [Hkeys Hsum]]].
  unfold Hyperspectral.report_of in *.
  cbn [Hyperspectral.statistics Hyperspectral.classifications] in *.
  destruct (Hyperspectral.Counter labels) as [|it items] eqn:Ec.
  { exfalso. destruct labels as [|x labels]; [congruence|].
    apply (proj2 (Hkeys x)). left. reflexivity. }
  unfold Hyperspectral.most_common_key.
  destruct (most_common_fold_spec items it) as [Hin Hmax].
  cbv zeta in Hin, Hmax. set (r := fold_left _ items it) in *.
  assert (Hr : get_default (it :: items) (fst r) 0%nat = snd r).
  { unfold get_default. rewrite (dict_get_in _ (fst r) (snd r) Hnd);
      [reflexivity|]. destruct r. exact Hin. }
  split.
  - apply Hkeys. unfold dict_keys. apply in_map. exact Hin.
  - intros k'. rewrite <- !Hget. rewrite Hr.
    unfold get_default. destruct (dict_get (it :: items) k') as [c|] eqn:Ek;
      [|lia].
    assert (Hk : In (k', c) (it :: items)).
    { clear - Ek. induction (it :: items) as [|[k0 v0] d IH];
        simpl in *; [discriminate|].
      destruct (String.eqb k' k0) eqn:E.
      - apply String.eqb_eq in E. injection Ek as <-. subst. left.
        reflexivity.
      - right. apply IH. exact Ek. }
    apply (Hmax (k', c)). exact Hk.
Qed.

(** X19.  For index entries of one positive length the dominant crop zone
    and the dominant soil zone are labels that occur among the pixels, and
    no label occurs more often than the dominant one. *)
Theorem health_zone_dominant (indices : dict Hyperspectral.stats)
  (crop_type : string) (ndvi ndwi ndsi : ndarray) :
  zone_inputs indices = (ndvi, ndwi, ndsi) ->
  List.length ndwi = List.length ndvi ->
  List.length ndsi = List.length ndvi ->
  ndvi <> [] ->
  exists hz,
    Hyperspectral.analyze_health_zones indices crop_type = Ok (Some hz)
    /\ (let r := Hyperspectral.crop_health hz in
        In (Hyperspectral.dominant_zone r) (Hyperspectral.classifications r)
        /\ forall k,
             (count_label (Hyperspectral.classifications r) k
              <= count_label (Hyperspectral.classifications r)
                   (Hyperspectral.dominant_zone r))%nat)
    /\ (let r := Hyperspectral.soil_health hz in
        In (Hyperspectral.dominant_zone r) (Hyperspectral.classifications r)
        /\ forall k,
             (count_label (Hyperspectral.classifications r) k
              <= count_label (Hyperspectral.classifications r)
                   (Hyperspectral.dominant_zone r))%nat).
Proof.
  intros Hin Lw Ld Hne.
  pose proof (analyze_health_zones_ok indices crop_type ndvi ndwi ndsi
                Hin Lw Ld) as E. cbv zeta in E.
  eexists. split; [exact E|].
  cbn [Hyperspectral.crop_health Hyperspectral.soil_health].
  unfold Hyperspectral.report_of. cbv zeta.
  cbn [Hyperspectral.dominant_zone Hyperspectral.classifications]. split.
  - apply most_common_spec. unfold crop_labels.
    destruct ndvi, ndwi; simpl in *; congruence.
  - apply most_common_spec. unfold soil_labels.
    destruct ndvi, ndsi; simpl in *; congruence.
Qed.

Lemma health_zone_dominant_witness :
  exists hz,
    Hyperspectral.analyze_health_zones sample_zone_indices "rice"
    = Ok (Some hz)
    /\ In (Hyperspectral.dominant_zone (Hyperspectral.crop_health hz))
          (Hyperspectral.classifications (Hyperspectral.crop_health hz)).
Proof.
  destruct (health_zone_dominant sample_zone_indices "rice"
              _ _ _ eq_refl eq_refl eq_refl ltac:(discriminate))
    as [hz [E [[H _] _]]].
  exists hz. split; [exact E | exact H].
Defined.

(** *** Crop thresholds *)

Lemma healthy_ndvi_range (crop_type : string) :
  exists q, healthy_ndvi_of crop_type = Fin q /\ 0.7 <= q /\ q <= 0.85.
Proof.
  unfold healthy_ndvi_of, get_default, Hyperspectral.crop_thresholds.
  cbn [dict_get].
  destruct (String.eqb crop_type "rice");
    [eexists; split; [reflexivity|]; lra|].
  destruct (String.eqb crop_type "wheat");
    [eexists; split; [reflexivity|]; lra|].
  destruct (String.eqb crop_type "cotton");
    [eexists; split; [reflexivity|]; lra|].
  destruct (String.eqb crop_type "sugarcane");
    [eexists; split; [reflexivity|]; lra|].
  destruct (String.eqb crop_type "maize");
    eexists; (split; [reflexivity|]); lra.
Qed.

Lemma fgt_weaken (x : float) (a b : Q) :
  b <= a -> fgt x (Fin a) = true -> fgt x (Fin b) = true.
Proof.
  intros Hab. unfold fgt. destruct x as [q| | |]; cbn [flt]; auto.
  intros H. apply Qlt_bool_iff in H. apply Qlt_bool_iff. lra.
Qed.

(** X20.  Whatever the crop type, its threshold only separates "excellent"
    from "good": a pixel is "excellent" or "good" exactly when ndvi > 0.5
    and ndwi > 0.2, "poor" exactly when it fails ndvi > 0.3 and
    ndwi > 0.1, and "moderate" in between; an unknown crop type uses the
    threshold 0.7. *)
Theorem crop_type_splits_top_classes (crop_type : string) (ndvi ndwi : float) :
  let label :=
    Hyperspectral.classify_crop_health (healthy_ndvi_of crop_type)
      ndvi ndwi in
  let good := fgt ndvi (Fin 0.5) && fgt ndwi (Fin 0.2) in
  let fair := fgt ndvi (Fin 0.3) && fgt ndwi (Fin 0.1) in
  (In label ["excellent"; "good"]%string <-> good = true)
  /\ (label = "moderate"%string <-> good = false /\ fair = true)
  /\ (label = "poor"%string <-> fair = false)
  /\ (dict_get Hyperspectral.crop_thresholds crop_type = None ->
      healthy_ndvi_of crop_type = Fin 0.7).
Proof.
  cbv zeta. destruct (healthy_ndvi_range crop_type) as [q [Eq [Hlo Hhi]]].
  rewrite Eq. unfold Hyperspectral.classify_crop_health.
  assert (Himp : fgt ndvi (Fin q) && fgt ndwi (Fin 0.3) = true ->
                 fgt ndvi (Fin 0.5) && fgt ndwi (Fin 0.2) = true).
  { intros H. apply andb_true_iff in H as [H1 H2]. apply andb_true_iff.
    split; [apply (fgt_weaken _ q) | apply (fgt_weaken _ 0.3)];
      try assumption; lra. }
  assert (Himp2 : fgt ndvi (Fin 0.5) && fgt ndwi (Fin 0.2) = true ->
                  fgt ndvi (Fin 0.3) && fgt ndwi (Fin 0.1) = true).
  { intros H. apply andb_true_iff in H as [H1 H2]. apply andb_true_iff.
    split; [apply (fgt_weaken _ 0.5) | apply (fgt_weaken _ 0.2)];
      try assumption; lra. }
  split; [|split; [|split]].
  - destruct (fgt ndvi (Fin q) && fgt ndwi (Fin 0.3)) eqn:E1.
    + rewrite (Himp eq_refl). simpl. tauto.
    + destruct (fgt ndvi (Fin 0.5) && fgt ndwi (Fin 0.2)) eqn:E2.
      * simpl. tauto.
      * destruct (fgt ndvi (Fin 0.3) && fgt ndwi (Fin 0.1)); simpl;
          split; try discriminate; intros [H|[H|[]]]; discriminate H.
  - destruct (fgt ndvi (Fin q) && fgt ndwi (Fin 0.3)) eqn:E1.
    + rewrite (Himp eq_refl). split; [discriminate|]. intros [H _].
      discriminate H.
    + destruct (fgt ndvi (Fin 0.5) && fgt ndwi (Fin 0.2)) eqn:E2.
      * split; [discriminate|]. intros [H _]. discriminate H.
      * destruct (fgt ndvi (Fin 0.3) && fgt ndwi (Fin 0.1)); split;
          try tauto; try discriminate. intros [_ H]. discriminate H.
  - destruct (fgt ndvi (Fin q) && fgt ndwi (Fin 0.3)) eqn:E1.
    + rewrite (Himp2 (Himp eq_refl)).
      split; discriminate.
    + destruct (fgt ndvi (Fin 0.5) && fgt ndwi (Fin 0.2)) eqn:E2.
      * rewrite (Himp2 eq_refl). split; discriminate.
      * destruct (fgt ndvi (Fin 0.3) && fgt ndwi (Fin 0.1)); split;
          try tauto; discriminate.
  - intros Hnone. rewrite <- Eq. unfold healthy_ndvi_of, get_default.
    rewrite Hnone. reflexivity.
Qed.

(** *** Bounds of the pest-risk factors *)

Ltac split_conditions :=
  repeat match goal with
    | |- context [if ?c then _ else _] => destruct c
    end.

Lemma environmental_risk_bounds (temp humidity : float) (crop_type : string)
  (latitude : float) :
  finite_in 0.3 0.9
    (Hyperspectral._assess_environmental_pest_risk temp humidity crop_type
       latitude).
Proof.
  unfold Hyperspectral._assess_environmental_pest_risk. cbv zeta.
  split_conditions; vm_compute; split; discriminate.
Qed.

Lemma spectral_stress_bounds (ndvi_mean ndvi_std ndwi_mean : float) :
  finite_in 0 1
    (Hyperspectral._assess_spectral_stress ndvi_mean ndvi_std ndwi_mean).
Proof.
  unfold Hyperspectral._assess_spectral_stress. cbv zeta.
  split_conditions; vm_compute; split; discriminate.
Qed.

Lemma seasonal_risk_bounds (month : Z) (latitude : float)
  (crop_type : string) :
  finite_in 0.4 0.8
    (Hyperspectral._assess_seasonal_pest_risk month latitude crop_type).
Proof.
  unfold Hyperspectral._assess_seasonal_pest_risk.
  split_conditions; vm_compute; split; discriminate.
Qed.

Lemma overall_risk_value (e s z : Q) :
  0.3 <= e <= 0.9 -> 0 <= s <= 1 -> 0.4 <= z <= 0.8 ->
  exists w,
    Hyperspectral._calculate_overall_pest_risk
      (Hyperspectral.mk_risk_factors (Fin e) (Fin s) (Fin z)) = Fin w
    /\ w == 0.4 * e + 0.35 * s + 0.25 * z
    /\ 0.22 <= w /\ w <= 0.91.
Proof.
  intros He Hs Hz. unfold Hyperspectral._calculate_overall_pest_risk.
  cbv zeta.
  cbn [Hyperspectral.environmental Hyperspectral.spectral_stress
       Hyperspectral.seasonal fold_left fadd fmul].
  unfold py_min. cbn [flt].
  replace (Qlt_bool 1.0 (0 + e * 0.4 + s * 0.35 + z * 0.25)) with false
    by (symmetry; apply Qlt_bool_false; lra).
  eexists. split; [reflexivity|]. split; [ring|]. split; lra.
Qed.

Lemma assess_factors_finite (month : Z) (indices : dict (dict float))
  (weather_data : dict float) (field_coords : float * float)
  (crop_type : string) :
  exists e s z,
    Hyperspectral.factors
      (Hyperspectral.assess_pest_risk month indices weather_data
         field_coords crop_type)
    = Hyperspectral.mk_risk_factors (Fin e) (Fin s) (Fin z)
    /\ (0.3 <= e <= 0.9) /\ (0 <= s <= 1) /\ (0.4 <= z <= 0.8).
Proof.
  destruct field_coords as [latitude longitude].
  unfold Hyperspectral.assess_pest_risk. cbv zeta.
  cbn [Hyperspectral.factors].
  pose proof (environmental_risk_bounds
                (get_default weather_data "temperature" (Fin 25))
                (get_default weather_data "humidity" (Fin 60))
                crop_type latitude) as He.
  pose proof (spectral_stress_bounds
                (get_default (get_default indices "ndvi" []) "mean" (Fin 0.5))
                (get_default (get_default indices "ndvi" []) "std" (Fin 0.1))
                (get_default (get_default indices "ndwi" []) "mean" (Fin 0.3)))
    as Hs.
  pose proof (seasonal_risk_bounds month latitude crop_type) as Hz.
  destruct (Hyperspectral._assess_environmental_pest_risk _ _ _ _)
    as [e| | |]; try contradiction.
  destruct (Hyperspectral._assess_spectral_stress _ _ _)
    as [s| | |]; try contradiction.
  destruct (Hyperspectral._assess_seasonal_pest_risk _ _ _)
    as [z| | |]; try contradiction.
  exists e, s, z. split; [reflexivity|]. simpl in He, Hs, Hz. tauto.
Qed.

Lemma assess_overall_eq (month : Z) (indices : dict (dict float))
  (weather_data : dict float) (field_coords : float * float)
  (crop_type : string) :
  let a := Hyperspectral.assess_pest_risk month indices weather_data
             field_coords crop_type in
  Hyperspectral.overall_risk a
  = Hyperspectral._calculate_overall_pest_risk (Hyperspectral.factors a)
  /\ Hyperspectral.risk_level a
     = Hyperspectral._categorize_risk_level (Hyperspectral.overall_risk a)
  /\ Hyperspectral.specific_pests a
     = Hyperspectral._calculate_specific_pest_risks
         (Hyperspectral.factors a) crop_type
         (get_default weather_data "temperature" (Fin 25))
         (get_default weather_data "humidity" (Fin 60)).
Proof. destruct field_coords. repeat split. Qed.

(** X21.  Whatever the indices, the weather, the coordinates, the crop and
    the month (missing, out of range or NaN included), the three risk
    factors are finite, environmental in [0.3, 0.9], spectral stress in
    [0, 1] and seasonal in [0.4, 0.8]; the overall risk is their
    0.4/0.35/0.25-weighted sum, lies in [0.22, 0.91], and the cap at 1.0
    never applies. *)
Theorem pest_risk_bounds (month : Z) (indices : dict (dict float))
  (weather_data : dict float) (field_coords : float * float)
  (crop_type : string) :
  let a := Hyperspectral.assess_pest_risk month indices weather_data
             field_coords crop_type in
  exists e s z w,
    Hyperspectral.factors a
    = Hyperspectral.mk_risk_factors (Fin e) (Fin s) (Fin z)
    /\ (0.3 <= e <= 0.9) /\ (0 <= s <= 1) /\ (0.4 <= z <= 0.8)
    /\ Hyperspectral.overall_risk a = Fin w
    /\ w == 0.4 * e + 0.35 * s + 0.25 * z
    /\ 0.22 <= w /\ w <= 0.91.
Proof.
  cbv zeta.
  destruct (assess_factors_finite month indices weather_data field_coords
              crop_type) as [e [s [z [Ef [He [Hs Hz]]]]]].
  destruct (overall_risk_value e s z He Hs Hz) as [w [Ew [Eq [Hlo Hhi]]]].
  exists e, s, z, w. split; [exact Ef|].
  repeat (split; [tauto|]).
  destruct (assess_overall_eq month indices weather_data field_coords
              crop_type) as [-> _]. rewrite Ef.
  split; [exact Ew|]. split; [exact Eq|]. split; assumption.
Qed.

(** X22.  A "high" risk level is never reached on environmental and
    seasonal grounds alone: whenever the assessment reports "high", the
    spectral-stress factor is at least 0.4. *)
Theorem high_risk_needs_spectral_stress (month : Z)
  (indices : dict (dict float)) (weather_data : dict float)
  (field_coords : float * float) (crop_type : string) :
  let a := Hyperspectral.assess_pest_risk month indices weather_data
             field_coords crop_type in
  Hyperspectral.risk_level a = "high"%string ->
  exists s, Hyperspectral.spectral_stress (Hyperspectral.factors a) = Fin s
            /\ 0.4 <= s.
Proof.
  cbv zeta. intros Hhigh.
  destruct (assess_factors_finite month indices weather_data field_coords
              crop_type) as [e [s [z [Ef [He [Hs Hz]]]]]].
  destruct (overall_risk_value e s z He Hs Hz) as [w [Ew [Eq _]]].
  destruct (assess_overall_eq month indices weather_data field_coords
              crop_type) as [Eo [El _]].
  rewrite El, Eo, Ef, Ew in Hhigh.
  unfold Hyperspectral._categorize_risk_level, fge in Hhigh.
  cbn [fle] in Hhigh. rewrite Ef. cbn [Hyperspectral.spectral_stress].
  exists s. split; [reflexivity|].
  destruct (Qle_bool 0.7 w) eqn:E.
  - apply Qle_bool_iff in E. lra.
  - destruct (Qle_bool 0.4 w); discriminate Hhigh.
Qed.

Lemma high_risk_needs_spectral_stress_witness :
  exists s,
    Hyperspectral.spectral_stress
      (Hyperspectral.factors
         (Hyperspectral.assess_pest_risk 7
            [("ndvi", [("mean", Fin 0.3); ("std", Fin 0.2)]);
             ("ndwi", [("mean", Fin 0.1)])]%string
            [("temperature", Fin 28); ("humidity", Fin 85)]%string
            (Fin 10, Fin 77) "rice")) = Fin s
    /\ 0.4 <= s.
Proof.
  apply (high_risk_needs_spectral_stress 7
           [("ndvi", [("mean", Fin 0.3); ("std", Fin 0.2)]);
            ("ndwi", [("mean", Fin 0.1)])]%string
           [("temperature", Fin 28); ("humidity", Fin 85)]%string
           (Fin 10, Fin 77) "rice").
  reflexivity.
Defined.

(** *** Specific pests *)

Lemma specific_pests_table (rf : Hyperspectral.risk_factors)
  (crop_type : string) (temp humidity : float) :
  Hyperspectral._calculate_specific_pest_risks rf crop_type temp humidity
  = map (fun pm => (fst pm, fmul (mean_risk rf) (snd pm)))
        (pest_table crop_type temp humidity).
Proof.
  unfold Hyperspectral._calculate_specific_pest_risks, pest_table.
  change (np_mean (Hyperspectral.risk_values rf)) with (mean_risk rf).
  cbv zeta.
  destruct (String.eqb crop_type "rice");
    [|destruct (String.eqb crop_type "cotton");
      [|destruct (String.eqb crop_type "wheat")]];
    cbn [map fst snd]; split_conditions; reflexivity.
Qed.

Lemma pest_table_shape (crop_type : string) (temp humidity : float) :
  List.length (pest_table crop_type temp humidity) = 4%nat
  /\ NoDup (map fst (pest_table crop_type temp humidity))
  /\ Forall (fun pm => finite_in 0.3 0.9 (snd pm))
            (pest_table crop_type temp humidity).
Proof.
  unfold pest_table.
  destruct (String.eqb crop_type "rice");
    [|destruct (String.eqb crop_type "cotton");
      [|destruct (String.eqb crop_type "wheat")]];
    (split; [reflexivity|]); (split;
      [cbn [map fst]; repeat constructor; simpl; intuition discriminate|]);
    repeat constructor; cbn [snd]; split_conditions; simpl; lra.
Qed.

Lemma mean_risk_value (e s z : Q) :
  exists m,
    mean_risk (Hyperspectral.mk_risk_factors (Fin e) (Fin s) (Fin z)) = Fin m
    /\ m == (e + s + z) / 3.
Proof.
  unfold mean_risk.
  cbn [Hyperspectral.environmental Hyperspectral.spectral_stress
       Hyperspectral.seasonal fadd fdiv].
  change (Qeq_bool 3 0) with false. eexists. split; [reflexivity|].
  field.
Qed.

(** X23.  For every assessment the specific-pest mapping has exactly four
    pests with distinct names, and every pest risk is a finite value that
    is positive, at most 0.81, and below the mean of the three factors. *)
Theorem specific_pest_risks_bounded (month : Z)
  (indices : dict (dict float)) (weather_data : dict float)
  (field_coords : float * float) (crop_type : string) :
  let a := Hyperspectral.assess_pest_risk month indices weather_data
             field_coords crop_type in
  List.length (Hyperspectral.specific_pests a) = 4%nat
  /\ NoDup (dict_keys (Hyperspectral.specific_pests a))
  /\ exists m,
       mean_risk (Hyperspectral.factors a) = Fin m
       /\ forall pest r,
            In (pest, r) (Hyperspectral.specific_pests a) ->
            exists q, r = Fin q /\ 0 < q /\ q <= 0.81 /\ q < m.
Proof.
  cbv zeta.
  destruct (assess_factors_finite month indices weather_data field_coords
              crop_type) as [e [s [z [Ef [He [Hs Hz]]]]]].
  destruct (assess_overall_eq month indices weather_data field_coords
              crop_type) as [_ [_ Ep]].
  rewrite Ep, Ef, specific_pests_table.
  destruct (pest_table_shape crop_type
              (get_default weather_data "temperature" (Fin 25))
              (get_default weather_data "humidity" (Fin 60)))
    as [Hlen [Hnd Hm]].
  destruct (mean_risk_value e s z) as [m [Em Hmv]].
  split; [rewrite length_map; exact Hlen|]. split.
  - unfold dict_keys. rewrite map_map. cbn [fst]. exact Hnd.
  - exists m. split; [exact Em|]. intros pest r Hin.
    apply in_map_iff in Hin as [[p mult] [Heq Hin]].
    cbn [fst snd] in Heq. injection Heq as _ <-.
    apply (proj1 (Forall_forall _ _) Hm) in Hin. cbn [snd] in Hin.
    destruct mult as [k| | |]; try contradiction. destruct Hin as [Hk1 Hk2].
    eexists. split; [reflexivity|].
    assert (Hm1 : 0.2 <= m) by (rewrite Hmv; apply Qle_shift_div_l; lra).
    assert (Hm2 : m <= 0.9) by (rewrite Hmv; apply Qle_shift_div_r; lra).
    assert (HM : (0 + e + s + z) / 3 == m) by (rewrite Hmv; field).
    rewrite HM. split; [|split]; nra.
Qed.

(** *** Recommendations *)

(** X24.  The pest recommendations number at most four: none or the three
    general ones, plus at most one crop-specific line, which only rice and
    cotton can receive; at an overall risk of at most 0.4 no general
    recommendation is issued. *)
Theorem pest_recommendations_shape (overall_risk : float)
  (pest_risks : dict float) (crop_type : string) :
  let r := Hyperspectral._generate_pest_recommendations overall_risk
             pest_risks crop_type in
  (List.length r <= 4)%nat
  /\ (fgt overall_risk (Fin 0.4) = false -> (List.length r <= 1)%nat)
  /\ (String.eqb crop_type "rice" = false ->
      String.eqb crop_type "cotton" = false ->
      List.length r = 0%nat \/ List.length r = 3%nat)
  /\ (In "Monitor for brown planthopper, especially in humid conditions"%string
         r
      <-> String.eqb crop_type "rice" = true
          /\ fgt (get_default pest_risks "brown_planthopper" (Fin 0))
                 (Fin 0.6) = true).
Proof.
  cbv zeta. unfold Hyperspectral._generate_pest_recommendations. cbv zeta.
  assert (Hw : fgt overall_risk (Fin 0.7) = true ->
               fgt overall_risk (Fin 0.4) = true).
  { apply fgt_weaken. lra. }
  destruct (String.eqb crop_type "rice") eqn:Er.
  - apply String.eqb_eq in Er. subst. cbn [andb String.eqb Ascii.eqb Bool.eqb].
    destruct (fgt overall_risk (Fin 0.7)) eqn:E7;
    [rewrite (Hw eq_refl) | destruct (fgt overall_risk (Fin 0.4)) eqn:E4];
    destruct (fgt (get_default pest_risks "brown_planthopper" (Fin 0))
                  (Fin 0.6));
    cbn [app List.length];
    (split; [lia|]); (split; [intros; try discriminate; lia|]);
    (split; [intros; discriminate|]);
    (split; [intros H; try (split; reflexivity);
             exfalso; simpl in H; intuition discriminate
            | intros [_ H]; try discriminate H; simpl; tauto]).
  - cbn [andb].
    destruct (String.eqb crop_type "cotton") eqn:Ec; cbn [andb];
    (destruct (fgt overall_risk (Fin 0.7)) eqn:E7;
     [rewrite (Hw eq_refl) | destruct (fgt overall_risk (Fin 0.4)) eqn:E4]);
    try destruct (fgt (get_default pest_risks "bollworm" (Fin 0)) (Fin 0.6));
    cbn [app List.length];
    (split; [lia|]); (split; [intros; try discriminate; lia|]);
    (split; [intros; try discriminate; lia|]);
    (split; [intros H; exfalso; simpl in H; intuition discriminate
            | intros [H _]; discriminate H]).
Qed.

Lemma firstn3_length {A : Type} (l : list A) :
  (List.length (firstn 3 l) <= 3)%nat.
Proof. rewrite length_firstn. lia. Qed.

Ltac recommendation_facts :=
  cbn [app firstn Hyperspectral.list_append map
       Hyperspectral.rec_type Hyperspectral.priority Hyperspectral.actions
       List.length];
  split; [lia|]; split;
  [repeat constructor; simpl; intuition discriminate|];
  repeat (apply Forall_cons;
          [split;
           [cbn [Hyperspectral.actions List.length]; rewrite ?length_map; lia
           | first [left; reflexivity | right; reflexivity]]|]);
  apply Forall_nil.

(** X25.  The field recommendations number at most four, one per kind at
    most (crop health, pest control, specific pests, soil health), so the
    cut to five never drops any; each has priority high or medium and at
    most three actions, the specific-pest one naming at most three pests. *)
Theorem field_recommendations_shape (hz : option Hyperspectral.health_zones)
  (pa : Hyperspectral.pest_assessment) (crop_type : string) :
  let r := Hyperspectral.generate_recommendations hz pa crop_type in
  (List.length r <= 4)%nat
  /\ NoDup (map Hyperspectral.rec_type r)
  /\ Forall (fun x =>
               (List.length (Hyperspectral.actions x) <= 3)%nat
               /\ (Hyperspectral.priority x = "high"%string
                   \/ Hyperspectral.priority x = "medium"%string)) r.
Proof.
  cbv zeta. unfold Hyperspectral.generate_recommendations. cbv zeta.
  destruct (flt (Hyperspectral.zone_score hz Hyperspectral.crop_health)
                (Fin 0.4));
    [|destruct (flt (Hyperspectral.zone_score hz Hyperspectral.crop_health)
                    (Fin 0.6))];
  destruct (String.eqb (Hyperspectral.risk_level pa) "high");
  destruct (map fst
              (filter (fun pr => fgt (snd pr) (Fin 0.7))
                 (Hyperspectral.specific_pests pa))) as [|p ps];
  destruct (flt (Hyperspectral.zone_score hz Hyperspectral.soil_health)
                (Fin 0.4));
  try (pose proof (firstn3_length (p :: ps)) as Hhp;
       set (hp := firstn 3 (p :: ps)) in *; clearbody hp);
  recommendation_facts.
Qed.

(** *** Predictions of the trained model *)

Lemma normalize_row_length (width n : nat) (row : list float) :
  List.length row = n ->
  List.length (normalize_row width n row) = width.
Proof.
  intros H. unfold normalize_row.
  destruct (n <? width)%nat eqn:E1.
  - apply Nat.ltb_lt in E1. rewrite length_app, repeat_length. lia.
  - destruct (width <? n)%nat eqn:E2.
    + apply Nat.ltb_lt in E2. rewrite length_firstn. lia.
    + apply Nat.ltb_ge in E1, E2. lia.
Qed.

Lemma normalize_row_idem (width n : nat) (row : list float) :
  normalize_row width width (normalize_row width n row)
  = normalize_row width n row.
Proof.
  unfold normalize_row at 1. rewrite Nat.ltb_irrefl. reflexivity.
Qed.

Lemma normalize_rows_idem (width n : nat) (rows : list (list float)) :
  map (normalize_row width width) (map (normalize_row width n) rows)
  = map (normalize_row width n) rows.
Proof.
  rewrite map_map. apply map_ext. intros r. apply normalize_row_idem.
Qed.

Lemma result_of_spec (ncols : nat) (row : list float) (score : float) :
  ((0 < ncols)%nat -> row <> []) ->
  exists d, RealModel.result_of ncols row score = Ok d /\ result_shape d.
Proof.
  intros Hrow. unfold RealModel.result_of.
  assert (Hn : exists x,
             (if (0 <? ncols)%nat then RealModel.first_column row
              else Ok (Fin 0.5)) = Ok x).
  { destruct (0 <? ncols)%nat eqn:E; [|eexists; reflexivity].
    apply Nat.ltb_lt in E. specialize (Hrow E).
    destruct row as [|x r]; [congruence|]. exists x. reflexivity. }
  destruct Hn as [x Hn].
  destruct (fge score (Fin 80)); [|destruct (fge score (Fin 70));
    [|destruct (fge score (Fin 50)); [|destruct (fge score (Fin 30))]]];
  rewrite Hn; cbn [bind]; eexists; (split; [reflexivity|]);
  (split; [reflexivity|]); (split; [reflexivity|]);
  do 3 eexists; (split; [|repeat split; reflexivity]);
  unfold status_table; cbn; tauto.
Qed.

Lemma results_loop_spec (ncols : nat) (rows : list (list float))
  (scores : list float) :
  List.length scores = List.length rows ->
  Forall (fun row => (0 < ncols)%nat -> row <> []) rows ->
  exists rs, RealModel.results_loop ncols rows scores = Ok rs
             /\ List.length rs = List.length rows
             /\ Forall result_shape rs.
Proof.
  revert scores. induction rows as [|row rows IH]; intros [|s scores] Hl Hr;
    try discriminate.
  - exists []. repeat split; constructor.
  - inversion Hr as [|? ? Hrow Hrows]; subst.
    destruct (result_of_spec ncols row s Hrow) as [d [Hd Hs]].
    destruct (IH scores) as [rs [Hrs [Hlen Hall]]];
      [simpl in Hl; lia|assumption|].
    exists (d :: rs). cbn [RealModel.results_loop]. rewrite Hd. cbn [bind].
    rewrite Hrs. cbn [bind].
    split; [reflexivity|]. split; [simpl; lia|].
    constructor; assumption.
Qed.

(** [predict] of a trained model is the rest of its body on the
    width-normalised rows. *)
Lemma predict_trained_eq (self : RealModel.model_state)
  (m : RealModel.ensemble) (feats : RealModel.features) :
  RealModel.model self = Some m ->
  let width := List.length (RealModel.feature_names self) in
  RealModel.predict self feats
  = predict_rows self m width
      (map (normalize_row width (fst (rows_of feats))) (snd (rows_of feats))).
Proof.
  intros Hm width. unfold RealModel.predict, predict_rows. rewrite Hm.
  fold width. unfold normalize_row, rows_of.
  destruct feats as [row|nc rs]; cbn [fst snd];
    match goal with |- context [(?a <? width)%nat] =>
      destruct (a <? width)%nat eqn:E1; [reflexivity|];
      destruct (width <? a)%nat eqn:E2; [reflexivity|];
      apply Nat.ltb_ge in E1, E2; replace a with width by lia
    end;
    rewrite ?map_id; reflexivity.
Qed.

Lemma predict_rows_accepted (self : RealModel.model_state)
  (m : RealModel.ensemble) (ncols : nat) (rows : RealModel.matrix) :
  library_accepts self m rows ->
  Forall (fun row => (0 < ncols)%nat -> row <> []) rows ->
  exists rs,
    predict_rows self m ncols rows = Ok (wrap_results rs)
    /\ List.length rs = List.length rows
    /\ Forall result_shape rs.
Proof.
  intros [scaled [rf [gb [Hsc [Hrf [Hgb [Lrf Lgb]]]]]]] Hrows.
  unfold predict_rows. rewrite Hsc. cbn [bind]. rewrite Hrf, Hgb. cbn [bind].
  unfold np_add. rewrite np_binop_same_length
    by (rewrite !length_map; congruence).
  cbn [bind].
  destruct (results_loop_spec ncols rows
              (zip_with fadd (map (fmul (RealModel.weight_rf m)) rf)
                             (map (fmul (RealModel.weight_gb m)) gb)))
    as [rs [Hrs [Hlen Hall]]].
  - rewrite zip_with_length; rewrite !length_map; congruence.
  - exact Hrows.
  - rewrite Hrs. cbn [bind]. exists rs.
    split; [destruct rs as [|r [|r' rs']]; reflexivity|].
    split; [exact Hlen | exact Hall].
Qed.

(** X26.  When the model is trained and the library calls accept the
    width-normalised array (the scaler and both regressors return, with one
    prediction per row), [predict] does not answer a well-formed feature
    array with the error placeholder: it returns one result per row (the
    bare result for exactly one row, the list otherwise), each with the six
    result keys, no [error] key, and a status, confidence and prediction
    quality taken from one line of the five-line status table, so never
    "Unknown". *)
Theorem predict_trained_shape (self : RealModel.model_state)
  (m : RealModel.ensemble) (feats : RealModel.features) :
  RealModel.model self = Some m ->
  well_formed feats ->
  library_accepts self m
    (map (normalize_row (List.length (RealModel.feature_names self))
            (fst (rows_of feats)))
         (snd (rows_of feats))) ->
  exists rs,
    RealModel.predict self feats = Ok (wrap_results rs)
    /\ List.length rs = List.length (snd (rows_of feats))
    /\ Forall result_shape rs.
Proof.
  intros Hm Hwf Hlib.
  rewrite (predict_trained_eq self m feats Hm).
  destruct (predict_rows_accepted self m
              (List.length (RealModel.feature_names self)) _ Hlib)
    as [rs [E [L S]]].
  - apply Forall_map. unfold well_formed in Hwf.
    eapply Forall_impl; [|exact Hwf]. cbv beta. intros row Hl Hw He.
    pose proof (normalize_row_length
                  (List.length (RealModel.feature_names self)) _ row Hl) as L.
    rewrite He in L. simpl in L. lia.
  - exists rs. split; [exact E|]. split; [|exact S].
    rewrite L, length_map. reflexivity.
Qed.

Lemma predict_trained_shape_witness :
  exists rs,
    RealModel.predict sample_model
      (RealModel.Arr2 2 [[Fin 0.8; Fin 25]; [Fin 0.2; Fin 31]])
    = Ok (RealModel.Many rs)
    /\ List.length rs = 2%nat.
Proof.
  destruct (predict_trained_shape sample_model _
              (RealModel.Arr2 2 [[Fin 0.8; Fin 25]; [Fin 0.2; Fin 31]])
              eq_refl) as [rs [E [L _]]].
  - repeat constructor.
  - do 3 eexists. repeat split; reflexivity.
  - exists rs. split; [|exact L].
    rewrite E. destruct rs as [|r [|r' rs']]; try discriminate L. reflexivity.
Defined.

(** X27.  The prediction only depends on the feature array through its
    width-normalised rows: a 1-D array is read as one row, rows shorter than
    the feature-name list are right-padded with 0.5 and longer rows are cut
    to that length, and the prediction is that of the normalised 2-D array.
    This holds for every model state and every array. *)
Theorem predict_width_normalisation (self : RealModel.model_state)
  (feats : RealModel.features) :
  let width := List.length (RealModel.feature_names self) in
  RealModel.predict self feats
  = RealModel.predict self
      (RealModel.Arr2 width
         (map (normalize_row width (fst (rows_of feats)))
              (snd (rows_of feats)))).
Proof.
  cbv zeta. destruct (RealModel.model self) as [m|] eqn:Hm.
  - rewrite (predict_trained_eq self m feats Hm).
    rewrite (predict_trained_eq self m (RealModel.Arr2 _ _) Hm).
    cbv zeta. cbn [rows_of fst snd].
    rewrite !normalize_rows_idem. reflexivity.
  - unfold RealModel.predict. rewrite Hm. reflexivity.
Qed.

(** ** The decision order of the classifier: claim C4 *)

Lemma dict_get_notin {V : Type} (d : dict V) (k : string) :
  ~ In k (dict_keys d) -> dict_get d k = None.
Proof.
  unfold dict_keys. induction d as [|[k' v] d IH]; simpl; intros H;
    [reflexivity|].
  destruct (String.eqb k k') eqn:E.
  - apply String.eqb_eq in E. subst. exfalso. apply H. left. reflexivity.
  - apply IH. intros Hin. apply H. right. exact Hin.
Qed.

Lemma nth_or_full (arr : ndarray) (m i : nat) (fill : float) :
  (i < m)%nat -> (arr <> [] -> (m <= List.length arr)%nat) ->
  nth i (Ndvi.or_full arr m fill) NaN = pixel_input arr fill i.
Proof.
  intros Hi Hm. destruct arr as [|x arr].
  - apply nth_or_full_empty. exact Hi.
  - unfold Ndvi.or_full, pixel_input. cbn [List.length Nat.ltb Nat.leb].
    rewrite nth_firstn.
    replace (i <? m)%nat with true by (symmetry; apply Nat.ltb_lt; exact Hi).
    reflexivity.
Qed.

Lemma label_code_lt (l : land_cover_label) : (label_code l < 7)%nat.
Proof. destruct l; simpl; lia. Qed.

(** The entry of a label in the statistics of a classified array. *)
Lemma stats_get_count (lc : list nat) (total : nat) (l : land_cover_label) :
  let counts := map (fun k => count_occ Nat.eq_dec lc k) (seq 0 7) in
  let c := count_occ Nat.eq_dec lc (label_code l) in
  option_map Ndvi.pixel_count
    (dict_get (flat_map (expected_stat counts total) (seq 0 7))
       (label_name l))
  = if (0 <? c)%nat then Some c else None.
Proof.
  cbv zeta.
  set (counts := map (fun k => count_occ Nat.eq_dec lc k) (seq 0 7)).
  assert (Hc : nth_error counts (label_code l)
               = Some (count_occ Nat.eq_dec lc (label_code l))).
  { subst counts. rewrite nth_error_map, nth_error_seq.
    replace (label_code l <? 7)%nat with true
      by (symmetry; apply Nat.ltb_lt; apply label_code_lt).
    reflexivity. }
  destruct (label_map_agrees l) as [color Hm].
  pose proof (expected_stat_eq counts total _ _ _ _ Hc Hm) as Ee.
  destruct (0 <? count_occ Nat.eq_dec lc (label_code l))%nat eqn:Epos.
  - assert (Hnd : NoDup (dict_keys
                           (flat_map (expected_stat counts total) (seq 0 7))))
      by (apply expected_stat_NoDup; apply seq_NoDup).
    assert (Hin : In (label_name l,
                      Ndvi.mk_cover_stat
                        (py_round
                           (fmul
                              (fdiv
                                 (Ndvi.of_int
                                    (Z.of_nat
                                       (count_occ Nat.eq_dec lc
                                          (label_code l))))
                                 (Ndvi.of_int (Z.of_nat total)))
                              (Ndvi.of_int 100)) 1)
                        (count_occ Nat.eq_dec lc (label_code l)) color)
                     (flat_map (expected_stat counts total) (seq 0 7))).
    { apply in_flat_map. exists (label_code l). split.
      - apply in_seq. pose proof (label_code_lt l). lia.
      - rewrite Ee. left. reflexivity. }
    rewrite (dict_get_in _ _ _ Hnd Hin). reflexivity.
  - rewrite dict_get_notin; [reflexivity|].
    intros Hin. apply dict_keys_flat_map in Hin as [i [_ Hk]].
    apply expected_stat_keys in Hk as [l' [c' [-> [Hn [Hc' Hpos]]]]].
    apply label_name_inj in Hn. subst l'.
    rewrite Hc in Hc'. injection Hc' as <-.
    apply Nat.ltb_ge in Epos. lia.
Qed.

(** C4.  Whenever one of the four input arrays is non-empty, the classifier
    labels the pixels of the common prefix (an absent or empty array read
    as its fill constant) and returns an aggregate result; the label stored
    for pixel [i] is the one that first-match-wins decides from the four
    input values at [i], in the order ndsi > 0.4 Snow/Ice, then
    mndwi > 0.3 or ndwi > 0.3 Water, then ndvi > 0.6 Dense Vegetation, then
    ndvi > 0.2 Sparse Vegetation, then ndvi < -0.1 Urban/Built-up, else
    Bare Soil/Rock; the statistics of the result report for every label
    exactly the number of pixels so labelled, under the name that the label
    map gives to its code; and the single pixel with ndsi = 0.5,
    ndvi = 0.8, ndwi = 0.5 is reported as Snow/Ice whatever its mndwi. *)
Theorem C4_decision_order (indices : dict ndarray) :
  (exists k, In k stack_keys /\ get_default indices k [] <> []) ->
  (exists n land_cover a,
     common_length indices n
     /\ (exists s, Ndvi.prepare_stack indices = Ok s
                   /\ Ndvi.classify_stack s = Ok land_cover)
     /\ land_cover = input_labels indices n
     /\ Ndvi.create_index_stack_analysis indices = Ok (Ndvi.Analysis a)
     /\ Ndvi.total_pixels a = n
     /\ forall l,
          reported_count a l
          = let c := count_occ Nat.eq_dec land_cover (label_code l) in
            if (0 <? c)%nat then Some c else None)
  /\ (forall l, exists color,
        Ndvi.map_getitem Ndvi.land_cover_map (label_code l)
        = Ok (label_name l, color))
  /\ (forall m,
        Ndvi.create_index_stack_analysis (snow_pixel m)
        = Ok (Ndvi.Analysis
                (Ndvi.mk_analysis
                   [(label_name SnowIce,
                     Ndvi.mk_cover_stat (Fin 100) 1 "#FF00FF")]
                   1 (label_name SnowIce)))).
Proof.
  intros Hne. split; [|split; [exact label_map_agrees|]].
  - destruct (prepare_stack_total _ Hne) as [s Hs].
    destruct (create_index_stack_analysis_exact _ _ Hs)
      as [lc [E [L [Hpos [F [N Hc]]]]]].
    cbv zeta in Hc.
    remember (flat_map
                (expected_stat
                   (map (fun k => count_occ Nat.eq_dec lc k) (seq 0 7))
                   (List.length lc)) (seq 0 7)) as stats eqn:Estats.
    destruct (land_cover_common_prefix_spec _ _ Hc) as [Hle Heq].
    cbn [Ndvi.total_pixels] in Hle, Heq.
    destruct (prepare_stack_arrays _ _ Hs) as [A1 [A2 [A3 A4]]].
    exists (List.length lc), lc. eexists.
    split; [|split; [|split; [|split; [exact Hc|split]]]].
    + split; [exact Hpos|]. split; [exact Hle|].
      destruct Heq as [k [Hk Hl]]. exists k. split; [exact Hk|].
      symmetry. exact Hl.
    + exists s. split; [exact Hs | exact E].
    + apply nth_error_ext. intros i. unfold input_labels.
      rewrite nth_error_map, nth_error_seq.
      destruct (i <? List.length lc)%nat eqn:Ei.
      * apply Nat.ltb_lt in Ei. rewrite N by lia. cbn [option_map Nat.add].
        f_equal. f_equal. unfold pixel_label, input_label.
        rewrite A1, A2, A3, A4, <- L.
        rewrite !nth_or_full; try exact Ei; try reflexivity;
          intros Hn; apply Hle; try exact Hn;
          unfold stack_keys; simpl; tauto.
      * apply Nat.ltb_ge in Ei. apply nth_error_None. exact Ei.
    + reflexivity.
    + intros l. unfold reported_count. cbn [Ndvi.land_cover_stats].
      rewrite Estats. apply stats_get_count.
  - intros m. reflexivity.
Qed.

Lemma C4_decision_order_witness :
  exists a,
    Ndvi.create_index_stack_analysis sample_indices = Ok (Ndvi.Analysis a)
    /\ Ndvi.total_pixels a = 4%nat
    /\ reported_count a SnowIce = Some 1%nat.
Proof.
  assert (Hne : exists k, In k stack_keys
                          /\ get_default sample_indices k [] <> []).
  { exists "ndvi"%string. split; [left; reflexivity | discriminate]. }
  destruct (C4_decision_order sample_indices Hne)
    as [[n [lc [a [Hn [_ [Hlc [Ha [Ht Hcount]]]]]]]] _].
  exists a. split; [exact Ha|].
  assert (En : n = 4%nat).
  { destruct Hn as [Hpos [Hle [k [Hk Hl]]]].
    assert (H4 : (n <= 4)%nat)
      by (apply (Hle "ndvi"%string); [left; reflexivity | discriminate]).
    unfold stack_keys in Hk. simpl in Hk.
    destruct Hk as [<-|[<-|[<-|[<-|[]]]]]; simpl in Hl; lia. }
  rewrite En in Ht, Hlc. split; [exact Ht|].
  rewrite Hcount, Hlc. reflexivity.
Defined.
